(** * Property-listing service: a shallow embedding of
      [src/services/properties.service.ts] and its verified properties.

    The service is a sequence of awaited statements against a relational
    store, with a few side effects (price-change e-mails, the registry of
    AI chat sessions).  It is embedded as a state-and-exception monad over a
    [World]: the tables of the store, the session registry, and a trace of
    every statement and side effect issued, in program order. *)

From Stdlib Require Import List String Ascii ZArith Bool Lia Permutation.
From Stdlib Require Import DecimalString.
Import ListNotations.

Local Open Scope string_scope.
Local Open Scope Z_scope.
Local Open Scope list_scope.

Infix "+++" := String.append (at level 60, right associativity).

(** ** JavaScript values *)

(** A [Date]; only its order (for [orderBy(createdAt)]) matters here. *)
Definition Date := Z.

(** Truthiness of a string: every string but the empty one. *)
Definition truthyStr (s : string) : bool := negb (s =? "")%string.

(** Truthiness of a number: every number but zero. *)
Definition truthyNum (z : Z) : bool := negb (z =? 0).

(** [a || b] on strings. *)
Definition orStr (a b : string) : string := if truthyStr a then a else b.

(** [a || b] on numbers. *)
Definition orNum (a b : Z) : Z := if truthyNum a then a else b.

(** [a || b] where [a] may be [undefined]/[null]. *)
Definition orOptStr (a : option string) (b : string) : string :=
  match a with Some s => orStr s b | None => b end.

Definition orOptNum (a : option Z) (b : Z) : Z :=
  match a with Some z => orNum z b | None => b end.

(** The values a selected column can hold inside an object literal. *)
Inductive JsValue :=
| JNull
| JStr (s : string)
| JBool (b : bool)
| JNum (z : Z)
| JDate (d : Date).

(** An object literal: its own keys, in insertion order, with their values. *)
Definition JsObject := list (string * JsValue).

Fixpoint getField (k : string) (o : JsObject) : option JsValue :=
  match o with
  | [] => None
  | (k', v) :: o' => if (k' =? k)%string then Some v else getField k o'
  end.

Definition keys (o : JsObject) : list string := map fst o.

(** [owner?.k ?? ""]: the empty string when the object is absent, or the
    field is absent or null. *)
Definition fieldOrEmpty (owner : option JsObject) (k : string) : JsValue :=
  match owner with
  | None => JStr ""
  | Some o =>
      match getField k o with
      | None | Some JNull => JStr ""
      | Some v => v
      end
  end.

Definition ofNullableStr (s : option string) : JsValue :=
  match s with Some x => JStr x | None => JNull end.

Definition ofNullableNum (z : option Z) : JsValue :=
  match z with Some x => JNum x | None => JNull end.

(** ** Rows of the store

    The service imports its tables from [db/schema/*.schema] and its types
    from [types/properties.types]; the columns below are those of the data
    model of the specification, with the types the service's own code shows.
    Keys are strings ([propertyId: string], [userId?: string]).  Prices,
    sizes and room counts are numbers.  Text columns that the service only
    tests for truthiness are strings, the empty string standing for every
    falsy value; columns where it tells null apart are options. *)

(** Modelled from the spec: the [users] table ([users.schema] is missing):
    "id, email, username, role, listingLimit (nullable integer quota),
    isEmailVerified, paypalCredentials, createdAt/updatedAt". *)
Module User.
Record t := mk {
  id : string;
  email : option string;
  username : string;
  role : string;
  listingLimit : option Z;
  isEmailVerified : bool;
  paypalCredentials : option string;
  createdAt : Date;
  updatedAt : Date
}.
End User.

(** Modelled from the spec: the [properties] table ([properties.schema] is
    missing): "id, ownerId, title, description, facilities, propertyType,
    transactionType, price (numeric), currency, size, rooms, address,
    status, documentUrl, verificationComments, isVerified (bool),
    createdAt/updatedAt". *)
Module Property.
Record t := mk {
  id : string;
  ownerId : string;
  title : string;
  description : string;
  facilities : string;
  propertyType : string;
  transactionType : string;
  price : Z;
  currency : string;
  size : Z;
  rooms : Z;
  address : string;
  status : string;
  documentUrl : string;
  verificationComments : string;
  isVerified : bool;
  createdAt : Date;
  updatedAt : Date
}.
End Property.

(** Modelled from the spec: the [propertyImages] table
    ([property_images.schema] is missing): "id, propertyId, imageUrl,
    isPrimary (bool)". *)
Module PropertyImage.
Record t := mk {
  id : string;
  propertyId : string;
  imageUrl : string;
  isPrimary : bool
}.
End PropertyImage.

(** Modelled from the spec: the [propertyViews] table
    ([property_views.schema] is missing): "id, propertyId,
    timestamp/metadata". *)
Module PropertyView.
Record t := mk {
  id : string;
  propertyId : string;
  viewedAt : Date
}.
End PropertyView.

(** Modelled from the spec: the [pricingHistory] table
    ([pricing_history.schema] is missing): "id, propertyId, price, currency,
    effectiveDate". *)
Module PricingHistory.
Record t := mk {
  id : string;
  propertyId : string;
  price : Z;
  currency : string;
  effectiveDate : Date
}.
End PricingHistory.

(** Modelled from the spec: the [wishlist] table ([wishlist.schema] is
    missing): "(userId, propertyId) membership pair". *)
Module Wishlist.
Record t := mk {
  userId : string;
  propertyId : string
}.
End Wishlist.

(** Modelled from the spec: the [conversations] table
    ([conversations.schema] is missing): "a Conversation has isActive flag
    and an associated systemPromptId"; [id] and [userId] are the other two
    columns [verifyProperty] selects. *)
Module Conversation.
Record t := mk {
  id : string;
  userId : string;
  systemPromptId : option string;
  isActive : bool
}.
End Conversation.

(** Modelled from the spec: the [messages] table ([messages.schema] is
    missing): "Messages belong to a Conversation, carry sender, content,
    createdAt, and an isVisible flag"; the columns are those of the row
    [verifyProperty] inserts. *)
Module Message.
Record t := mk {
  id : string;
  conversationId : string;
  sender : string;
  content : string;
  createdAt : Date;
  isVisible : bool
}.
End Message.

(** Modelled from the spec: the [systemPrompts] table
    ([system_prompts.schema] is missing): the two columns [verifyProperty]
    reads. *)
Module SystemPrompt.
Record t := mk {
  id : string;
  content : string
}.
End SystemPrompt.

(** ** Inputs and results of the service *)

(** Modelled from the spec: an element of [input.images]
    ([properties.types] is missing): "optional images[] (imageUrl +
    isPrimary)". *)
Record ImageInput := {
  in_imageUrl : string;
  in_isPrimary : bool
}.

(** Modelled from the spec: [CreatePropertyInput] ([properties.types] is
    missing): the inputs of section 4.2; [currency], [status] and [images]
    may be left out. *)
Record CreatePropertyInput := {
  c_ownerId : string;
  c_title : string;
  c_description : string;
  c_facilities : string;
  c_propertyType : string;
  c_transactionType : string;
  c_price : Z;
  c_currency : option string;
  c_size : Z;
  c_rooms : Z;
  c_address : string;
  c_status : option string;
  c_documentUrl : string;
  c_verificationComments : string;
  c_images : option (list ImageInput)
}.

(** Modelled from the spec: [UpdatePropertyInput] ([properties.types] is
    missing): "any subset of Property's mutable fields, plus optional
    images[] full replacement list"; every field may be [undefined]. *)
Record UpdatePropertyInput := {
  u_title : option string;
  u_description : option string;
  u_facilities : option string;
  u_propertyType : option string;
  u_transactionType : option string;
  u_price : option Z;
  u_currency : option string;
  u_size : option Z;
  u_rooms : option Z;
  u_address : option string;
  u_status : option string;
  u_documentUrl : option string;
  u_verificationComments : option string;
  u_isVerified : option bool;
  u_images : option (list ImageInput)
}.

(** [Partial<Property>], the [updateData] of [updateProperty]: the fields
    the function assigns. *)
Record PartialProperty := {
  d_title : option string;
  d_description : option string;
  d_facilities : option string;
  d_propertyType : option string;
  d_transactionType : option string;
  d_price : option Z;
  d_currency : option string;
  d_size : option Z;
  d_rooms : option Z;
  d_address : option string;
  d_status : option string;
  d_documentUrl : option string;
  d_verificationComments : option string;
  d_isVerified : option bool;
  d_updatedAt : option Date
}.

(** Modelled from the spec: [PropertyWithRelations] ([properties.types] is
    missing): "Property plus images[], views[], pricingHistory[], owner,
    isWished".  The owner is an object whose keys are those the code gives
    it, or null.  [spread] holds the columns copied in by
    [...property]; it is [None] only for the object [{}], which has no
    fields at all (the initial accumulator of [getProperty]) and for the
    spread of an absent row. *)
Record PropertyWithRelations := {
  spread : option Property.t;
  images : list PropertyImage.t;
  views : list PropertyView.t;
  pricingHistoryOf : list PricingHistory.t;
  owner : option JsObject;
  isWished : bool
}.

(** The object [{}]. *)
Definition emptyObject : PropertyWithRelations :=
  {| spread := None; images := []; views := []; pricingHistoryOf := [];
     owner := None; isWished := false |}.

(** What [addNewProperty] returns: no [owner], no [isWished]. *)
Record CreatedProperty := {
  cp_property : Property.t;
  cp_images : list PropertyImage.t;
  cp_views : list PropertyView.t;
  cp_pricingHistory : list PricingHistory.t
}.

(** The object literal [propertyDetails] passed to
    [sendPriceChangeNotification]. *)
Record PropertyDetails := {
  name : string;
  detailsAddress : string;
  oldPrice : Z;
  newPrice : Z
}.

(** A chat handle: what [getGenerativeModel] and [startChat] were given
    to build it. *)
Record ChatSession := {
  chatModel : string;
  history : list (string * string);
  maxOutputTokens : Z
}.

(** ** The world *)

Inductive Table :=
| TProperties | TUsers | TPropertyImages | TPropertyViews | TPricingHistory
| TWishlist | TConversations | TMessages | TSystemPrompts.

(** Everything the service does to its collaborators, one event per
    statement sent to the store, per notification started, per access to
    the session registry, per console line. *)
Inductive Event :=
| Select (t : Table)
| Insert (t : Table)
| Update (t : Table)
| Delete (t : Table)
| Dispatch (email : string) (details : PropertyDetails)
| SessionGet (conversationId : string)
| SessionSet (conversationId : string)
| ConsoleLog (line : string)
| ConsoleWarn (line : string).

Record World := mkWorld {
  properties : list Property.t;
  users : list User.t;
  propertyImages : list PropertyImage.t;
  propertyViews : list PropertyView.t;
  pricingHistory : list PricingHistory.t;
  wishlist : list Wishlist.t;
  conversations : list Conversation.t;
  messages : list Message.t;
  systemPrompts : list SystemPrompt.t;
  activeChatSessions : list (string * ChatSession);
  trace : list Event;
  nextKey : nat;
  now : Date
}.

Definition set_properties (x : list Property.t) (w : World) : World :=
  mkWorld x (users w) (propertyImages w) (propertyViews w) (pricingHistory w)
    (wishlist w) (conversations w) (messages w) (systemPrompts w)
    (activeChatSessions w) (trace w) (nextKey w) (now w).

Definition set_users (x : list User.t) (w : World) : World :=
  mkWorld (properties w) x (propertyImages w) (propertyViews w)
    (pricingHistory w) (wishlist w) (conversations w) (messages w)
    (systemPrompts w) (activeChatSessions w) (trace w) (nextKey w) (now w).

Definition set_propertyImages (x : list PropertyImage.t) (w : World) : World :=
  mkWorld (properties w) (users w) x (propertyViews w) (pricingHistory w)
    (wishlist w) (conversations w) (messages w) (systemPrompts w)
    (activeChatSessions w) (trace w) (nextKey w) (now w).

Definition set_pricingHistory (x : list PricingHistory.t) (w : World) : World :=
  mkWorld (properties w) (users w) (propertyImages w) (propertyViews w) x
    (wishlist w) (conversations w) (messages w) (systemPrompts w)
    (activeChatSessions w) (trace w) (nextKey w) (now w).

Definition set_propertyViews (x : list PropertyView.t) (w : World) : World :=
  mkWorld (properties w) (users w) (propertyImages w) x (pricingHistory w)
    (wishlist w) (conversations w) (messages w) (systemPrompts w)
    (activeChatSessions w) (trace w) (nextKey w) (now w).

Definition set_wishlist (x : list Wishlist.t) (w : World) : World :=
  mkWorld (properties w) (users w) (propertyImages w) (propertyViews w)
    (pricingHistory w) x (conversations w) (messages w) (systemPrompts w)
    (activeChatSessions w) (trace w) (nextKey w) (now w).

Definition set_conversations (x : list Conversation.t) (w : World) : World :=
  mkWorld (properties w) (users w) (propertyImages w) (propertyViews w)
    (pricingHistory w) (wishlist w) x (messages w) (systemPrompts w)
    (activeChatSessions w) (trace w) (nextKey w) (now w).

Definition set_systemPrompts (x : list SystemPrompt.t) (w : World) : World :=
  mkWorld (properties w) (users w) (propertyImages w) (propertyViews w)
    (pricingHistory w) (wishlist w) (conversations w) (messages w) x
    (activeChatSessions w) (trace w) (nextKey w) (now w).

Definition set_messages (x : list Message.t) (w : World) : World :=
  mkWorld (properties w) (users w) (propertyImages w) (propertyViews w)
    (pricingHistory w) (wishlist w) (conversations w) x (systemPrompts w)
    (activeChatSessions w) (trace w) (nextKey w) (now w).

Definition set_activeChatSessions (x : list (string * ChatSession))
    (w : World) : World :=
  mkWorld (properties w) (users w) (propertyImages w) (propertyViews w)
    (pricingHistory w) (wishlist w) (conversations w) (messages w)
    (systemPrompts w) x (trace w) (nextKey w) (now w).

Definition set_trace (x : list Event) (w : World) : World :=
  mkWorld (properties w) (users w) (propertyImages w) (propertyViews w)
    (pricingHistory w) (wishlist w) (conversations w) (messages w)
    (systemPrompts w) (activeChatSessions w) x (nextKey w) (now w).

Definition set_nextKey (x : nat) (w : World) : World :=
  mkWorld (properties w) (users w) (propertyImages w) (propertyViews w)
    (pricingHistory w) (wishlist w) (conversations w) (messages w)
    (systemPrompts w) (activeChatSessions w) (trace w) x (now w).

(** ** The monad: state passing with exceptions

    A thrown error keeps the world reached so far: nothing is rolled back. *)

Inductive JsError :=
| Error (message : string)
| TypeError (message : string).

Inductive Result (A : Type) :=
| Ok (a : A)
| Throw (e : JsError).
Arguments Ok {A} a.
Arguments Throw {A} e.

Definition M (A : Type) := World -> Result A * World.

Definition ret {A} (a : A) : M A := fun w => (Ok a, w).

Definition bind {A B} (m : M A) (k : A -> M B) : M B :=
  fun w =>
    match m w with
    | (Ok a, w') => k a w'
    | (Throw e, w') => (Throw e, w')
    end.

Definition throw {A} (e : JsError) : M A := fun w => (Throw e, w).

(** [try { m } catch (error) { h error }]. *)
Definition tryCatch {A} (m : M A) (h : JsError -> M A) : M A :=
  fun w =>
    match m w with
    | (Ok a, w') => (Ok a, w')
    | (Throw e, w') => h e w'
    end.

Definition gets {A} (f : World -> A) : M A := fun w => (Ok (f w), w).

Definition modify (f : World -> World) : M unit := fun w => (Ok tt, f w).

Definition emit (e : Event) : M unit :=
  modify (fun w => set_trace (trace w ++ [e]) w).

Declare Scope monad_scope.
Delimit Scope monad_scope with monad.
Notation "x <- m ;; k" := (bind m (fun x => k))
  (at level 61, m at next level, right associativity) : monad_scope.
Notation "m ;; k" := (bind m (fun _ => k))
  (at level 61, right associativity) : monad_scope.
Local Open Scope monad_scope.

(** [await Promise.all(xs.map(f))] for store queries, which the model runs in
    list order. *)
Fixpoint mapM {A B} (f : A -> M B) (xs : list A) : M (list B) :=
  match xs with
  | [] => ret []
  | x :: xs' => y <- f x ;; ys <- mapM f xs' ;; ret (y :: ys)
  end.

(** [for (const x of xs) { f x }]. *)
Fixpoint forOf {A} (f : A -> M unit) (xs : list A) : M unit :=
  match xs with
  | [] => ret tt
  | x :: xs' => f x ;; forOf f xs'
  end.

(** [error.message]. *)
Definition messageOf (e : JsError) : string :=
  match e with Error m => m | TypeError m => m end.

(** ** Statements of the store *)

(** A table: its name in the trace, and its rows in the world. *)
Record TableOf (R : Type) := {
  tname : Table;
  rows : World -> list R;
  setRows : list R -> World -> World
}.
Arguments tname {R} _.
Arguments rows {R} _ _.
Arguments setRows {R} _ _ _.

Definition propertiesT : TableOf Property.t :=
  {| tname := TProperties; rows := properties; setRows := set_properties |}.
Definition usersT : TableOf User.t :=
  {| tname := TUsers; rows := users; setRows := set_users |}.
Definition propertyImagesT : TableOf PropertyImage.t :=
  {| tname := TPropertyImages; rows := propertyImages;
     setRows := set_propertyImages |}.
Definition propertyViewsT : TableOf PropertyView.t :=
  {| tname := TPropertyViews; rows := propertyViews;
     setRows := set_propertyViews |}.
Definition pricingHistoryT : TableOf PricingHistory.t :=
  {| tname := TPricingHistory; rows := pricingHistory;
     setRows := set_pricingHistory |}.
Definition wishlistT : TableOf Wishlist.t :=
  {| tname := TWishlist; rows := wishlist; setRows := set_wishlist |}.
Definition conversationsT : TableOf Conversation.t :=
  {| tname := TConversations; rows := conversations;
     setRows := set_conversations |}.
Definition messagesT : TableOf Message.t :=
  {| tname := TMessages; rows := messages; setRows := set_messages |}.
Definition systemPromptsT : TableOf SystemPrompt.t :=
  {| tname := TSystemPrompts; rows := systemPrompts;
     setRows := set_systemPrompts |}.

(** [db.select().from(t).where(p)]. *)
Definition selectFrom {R} (t : TableOf R) (where_ : R -> bool) : M (list R) :=
  emit (Select (tname t)) ;; gets (fun w => filter where_ (rows t w)).

(** [db.delete(t).where(p)]. *)
Definition deleteFrom {R} (t : TableOf R) (where_ : R -> bool) : M unit :=
  emit (Delete (tname t)) ;;
  modify (fun w => setRows t (filter (fun r => negb (where_ r)) (rows t w)) w).

(** [db.update(t).set(f).where(p).returning()]: the rows that matched, as
    they are after the update. *)
Definition updateWhere {R} (t : TableOf R) (set_ : R -> R) (where_ : R -> bool)
  : M (list R) :=
  emit (Update (tname t)) ;;
  old <- gets (rows t) ;;
  modify (setRows t (map (fun r => if where_ r then set_ r else r) old)) ;;
  ret (map set_ (filter where_ old)).

(** [db.insert(t).values(r)] of a row that carries its own key. *)
Definition insertRow {R} (t : TableOf R) (r : R) : M unit :=
  emit (Insert (tname t)) ;;
  modify (fun w => setRows t (rows t w ++ [r]) w).

(** [new Date()]. *)
Definition newDate : M Date := gets now.

(** [xs.map((x, index) => f x index)]. *)
Fixpoint mapi_from {A B} (i : nat) (f : A -> nat -> B) (xs : list A) : list B :=
  match xs with
  | [] => []
  | x :: xs' => f x i :: mapi_from (S i) f xs'
  end.

Definition mapi {A B} (f : A -> nat -> B) (xs : list A) : list B :=
  mapi_from 0 f xs.

(** [xs.some(p)] is [existsb p xs]; [inArray(c, vs)] is membership. *)
Definition inArray (c : string) (vs : list string) : bool :=
  existsb (String.eqb c) vs.

(** The right-hand side of a left join for one left row: every matching row,
    or a single null when nothing matches. *)
Definition matchesOrNull {B} (ms : list B) : list (option B) :=
  match ms with
  | [] => [None]
  | _ => map Some ms
  end.

(** [if (x && !acc.some((y) => y.id === x.id)) acc.push(x)]. *)
Definition pushUnique {R} (key : R -> string) (x : option R) (acc : list R)
  : list R :=
  match x with
  | Some r =>
      if negb (existsb (fun y => (key y =? key r)%string) acc)
      then acc ++ [r] else acc
  | None => acc
  end.

(** [Promise.all] over promises that have been started: a promise is
    represented by its outcome, [None] when it resolves and [Some e] when it
    rejects.  The awaiting code is resumed with the rejection of the first
    rejected promise, taken here in list order. *)
Fixpoint firstRejection (outcomes : list (option JsError)) : option JsError :=
  match outcomes with
  | [] => None
  | Some e :: _ => Some e
  | None :: rest => firstRejection rest
  end.

Definition awaitAll (outcomes : list (option JsError)) : M unit :=
  match firstRejection outcomes with
  | Some e => throw e
  | None => ret tt
  end.

(** A number inside a template literal. *)
Definition showZ (z : Z) : string := NilZero.string_of_int (Z.to_int z).

Definition nl : string := String (ascii_of_nat 10) "".

(** [.orderBy(c)]: rows by ascending date, rows of equal date in table
    order. *)
Fixpoint insertByDate {R} (date : R -> Date) (x : R) (xs : list R) : list R :=
  match xs with
  | [] => [x]
  | y :: ys =>
      if date x <? date y then x :: y :: ys
      else y :: insertByDate date x ys
  end.

Definition orderBy {R} (date : R -> Date) (xs : list R) : list R :=
  fold_left (fun acc x => insertByDate date x acc) xs [].

(** [Map.prototype.get] and [Map.prototype.set] on the session registry. *)
Fixpoint mapGet {V} (k : string) (m : list (string * V)) : option V :=
  match m with
  | [] => None
  | (k', v) :: m' => if (k' =? k)%string then Some v else mapGet k m'
  end.

Fixpoint mapSet {V} (k : string) (v : V) (m : list (string * V))
  : list (string * V) :=
  match m with
  | [] => [(k, v)]
  | (k', v') :: m' =>
      if (k' =? k)%string then (k, v) :: m' else (k', v') :: mapSet k v m'
  end.

(** ** A small store to run the service on *)

Module Sample.

Definition alice : User.t :=
  User.mk "u-alice" (Some "alice@example.com") "alice" "private_seller"
    (Some 3) true (Some "paypal-alice") 10 10.

Definition bob : User.t :=
  User.mk "u-bob" (Some "bob@example.com") "bob" "buyer"
    None true None 11 11.

Definition carol : User.t :=
  User.mk "u-carol" None "carol" "buyer" None false None 12 12.

Definition dan : User.t :=
  User.mk "u-dan" (Some "dan@example.com") "dan" "private_seller"
    (Some 0) true None 13 13.

(** Verified and active. *)
Definition flat : Property.t :=
  Property.mk "p-flat" "u-alice" "Flat" "Two rooms" "lift" "apartment"
    "sale" 100000 "EUR" 54 2 "1 Main St" "active" "doc" "" true 20 20.

(** Inactive and not verified; its owner row is missing. *)
Definition barn : Property.t :=
  Property.mk "p-barn" "u-nobody" "Barn" "Old barn" "" "house" "rent"
    700 "" 120 1 "" "inactive" "" "" false 21 21.

Definition img1 : PropertyImage.t :=
  PropertyImage.mk "i-1" "p-flat" "https://img/1.png" true.
Definition img2 : PropertyImage.t :=
  PropertyImage.mk "i-2" "p-flat" "https://img/2.png" false.

Definition view1 : PropertyView.t := PropertyView.mk "v-1" "p-flat" 30.
Definition view2 : PropertyView.t := PropertyView.mk "v-2" "p-flat" 31.
Definition view3 : PropertyView.t := PropertyView.mk "v-3" "p-flat" 32.

Definition hist1 : PricingHistory.t :=
  PricingHistory.mk "h-1" "p-flat" 120000 "EUR" 20.
Definition hist2 : PricingHistory.t :=
  PricingHistory.mk "h-2" "p-flat" 100000 "EUR" 25.

Definition world : World :=
  {| properties := [flat; barn];
     users := [alice; bob; carol; dan];
     propertyImages := [img1; img2];
     propertyViews := [view1; view2; view3];
     pricingHistory := [hist1; hist2];
     wishlist := [ Wishlist.mk "u-bob" "p-flat";
                   Wishlist.mk "u-carol" "p-flat";
                   Wishlist.mk "u-dan" "p-flat" ];
     conversations := [ Conversation.mk "c-1" "u-bob" (Some "sp-1") true ];
     messages := [];
     systemPrompts := [ SystemPrompt.mk "sp-1" "You are an estate agent." ];
     activeChatSessions := [];
     trace := [];
     nextKey := 0;
     now := 40 |}.

(** Keys of the store: ["k0"], ["k1"], ... *)
Definition genId (n : nat) : string := "k" +++ showZ (Z.of_nat n).

Definition uuidv4 (n : nat) : string := "uuid-" +++ showZ (Z.of_nat n).

Definition dateToString (d : Date) : string := "day " +++ showZ d.

(** A sender whose every promise resolves. *)
Definition sendOk (_ : string) (_ : PropertyDetails) : option JsError := None.

(** A sender whose promise rejects for one recipient. *)
Definition sendUnlessBob (email : string) (_ : PropertyDetails)
  : option JsError :=
  if (email =? "bob@example.com")%string
  then Some (Error "SMTP connection refused") else None.

(** [{ price: 90000 }] *)
Definition newPriceOnly : UpdatePropertyInput :=
  {| u_title := None; u_description := None; u_facilities := None;
     u_propertyType := None; u_transactionType := None;
     u_price := Some 90000; u_currency := None; u_size := None;
     u_rooms := None; u_address := None; u_status := None;
     u_documentUrl := None; u_verificationComments := None;
     u_isVerified := None; u_images := None |}.

(** [{ images: xs }] *)
Definition imagesOnly (xs : list ImageInput) : UpdatePropertyInput :=
  {| u_title := None; u_description := None; u_facilities := None;
     u_propertyType := None; u_transactionType := None;
     u_price := None; u_currency := None; u_size := None;
     u_rooms := None; u_address := None; u_status := None;
     u_documentUrl := None; u_verificationComments := None;
     u_isVerified := None; u_images := Some xs |}.


Definition listing (ownerId : string) : CreatePropertyInput :=
  {| c_ownerId := ownerId; c_title := "Loft"; c_description := "Bright";
     c_facilities := ""; c_propertyType := "apartment";
     c_transactionType := "sale"; c_price := 50000; c_currency := None;
     c_size := 40; c_rooms := 1; c_address := "2 Side St";
     c_status := None; c_documentUrl := ""; c_verificationComments := "";
     c_images := Some [ {| in_imageUrl := "https://img/loft.png";
                           in_isPrimary := true |} ] |}.

(** A hidden system message, a user's message and the AI's reply in the
    one conversation. *)
Definition hiddenNote : Message.t :=
  Message.mk "m-1" "c-1" "system" "You are an estate agent." 35 false.
Definition hello : Message.t :=
  Message.mk "m-2" "c-1" "user" "Hello" 36 true.
Definition reply : Message.t :=
  Message.mk "m-3" "c-1" "ai" "Hi, how can I help?" 37 true.

(** The store with these messages and a live chat session for the
    conversation. *)
Definition chatting : World :=
  set_activeChatSessions
    [ ("c-1", {| chatModel := "gemini-2.0-flash"; history := [];
                 maxOutputTokens := 8192 |}) ]
    (set_messages [hello; hiddenNote; reply] world).

(** [{ title: "Flat with a view", currency: "" }] *)
Definition retitled : UpdatePropertyInput :=
  {| u_title := Some "Flat with a view"; u_description := None;
     u_facilities := None; u_propertyType := None;
     u_transactionType := None; u_price := None; u_currency := Some "";
     u_size := None; u_rooms := None; u_address := None; u_status := None;
     u_documentUrl := None; u_verificationComments := None;
     u_isVerified := None; u_images := None |}.

(** [{ price: 90000, images: [{ imageUrl: "https://img/9.png",
    isPrimary: true }] }] *)
Definition priceAndImage : UpdatePropertyInput :=
  {| u_title := None; u_description := None; u_facilities := None;
     u_propertyType := None; u_transactionType := None;
     u_price := Some 90000; u_currency := None; u_size := None;
     u_rooms := None; u_address := None; u_status := None;
     u_documentUrl := None; u_verificationComments := None;
     u_isVerified := None;
     u_images := Some [ {| in_imageUrl := "https://img/9.png";
                           in_isPrimary := true |} ] |}.

(** An AI client that refuses a history whose oldest entry is not the
    user's, and starts any other chat. *)
Definition startChat (chat : ChatSession) : option JsError :=
  match history chat with
  | (role, _) :: _ =>
      if (role =? "user")%string then None
      else Some (Error ("First content should be with role 'user', got "
                        +++ role))
  | [] => None
  end.

(** The conversation when the AI spoke first: its greeting is the oldest
    message. *)
Definition greeting : Message.t :=
  Message.mk "m-0" "c-1" "ai" "Welcome!" 30 true.

Definition greeted : World :=
  set_messages [greeting; hello; hiddenNote; reply] chatting.

End Sample.

(** ** The service *)

Section Service.

Set Default Proof Using "Type".

(** The key the store gives to the [n]-th row it is asked to create
    (the column defaults are part of the schema). *)
Variable genId : nat -> string.

(** The [n]-th value drawn from [uuidv4()]. *)
Variable uuidv4 : nat -> string.

(** The outcome of [sendPriceChangeNotification(email, details)] from
    [email.service]: [None] when the promise resolves, [Some e] when it
    rejects with [e]. *)
Variable sendPriceChangeNotification :
  string -> PropertyDetails -> option JsError.

(** How a [Date] prints inside a template literal. *)
Variable dateToString : Date -> string.

(** The outcome of [genAI.getGenerativeModel({model}).startChat({history,
    generationConfig})] from the AI client of [ai.service], on the model
    name, the history and the token cap it is given: [None] when it returns
    a chat handle, [Some e] when it throws [e] (the client validates the
    history it is seeded with). *)
Variable startChat : ChatSession -> option JsError.

(** The rows a multi-row insert creates: the [n]-th new key for the first,
    the next one for the second, and so on. *)
Fixpoint keyed {R} (n : nat) (mk : list (string -> R)) : list R :=
  match mk with
  | [] => []
  | f :: rest => f (genId n) :: keyed (S n) rest
  end.

(** [db.insert(t).values(rs).returning()]: one statement, one new key per
    row. *)
Definition insertInto {R} (t : TableOf R) (mk : list (string -> R))
  : M (list R) :=
  emit (Insert (tname t)) ;;
  k <- gets nextKey ;;
  modify (set_nextKey (k + List.length mk)) ;;
  modify (fun w => setRows t (rows t w ++ keyed k mk) w) ;;
  ret (keyed k mk).

(** *** isPropertyWished *)

Definition isPropertyWished (propertyId : string) (userId : option string)
  : M bool :=
  match userId with
  | None => ret false
  | Some uid =>
      if negb (truthyStr uid) then ret false
      else
        result <- selectFrom wishlistT (fun x =>
                    (Wishlist.propertyId x =? propertyId)%string
                    && (Wishlist.userId x =? uid)%string) ;;
        ret (0 <? Z.of_nat (List.length result))
  end.

(** *** getProperties *)

(** The four owner columns every branch selects. *)
Definition ownerColumns (u : User.t) : JsObject :=
  [ ("id", JStr (User.id u));
    ("email", ofNullableStr (User.email u));
    ("username", JStr (User.username u));
    ("role", JStr (User.role u)) ].

(** The owner columns the ["active"] branch selects. *)
Definition ownerColumnsActive (u : User.t) : JsObject :=
  ownerColumns u ++
  [ ("isEmailVerified", JBool (User.isEmailVerified u));
    ("paypalCredentials", ofNullableStr (User.paypalCredentials u));
    ("createdAt", JDate (User.createdAt u));
    ("updatedAt", JDate (User.updatedAt u)) ].

(** [.leftJoin(users, eq(properties.ownerId, users.id))] on one property
    row: one output row per matching user, and a row with a null owner
    when there is none. *)
Definition joinOwner (cols : User.t -> JsObject) (us : list User.t)
    (p : Property.t) : list (Property.t * option JsObject) :=
  match filter (fun u => (Property.ownerId p =? User.id u)%string) us with
  | [] => [(p, None)]
  | ms => map (fun u => (p, Some (cols u))) ms
  end.

(** [db.select({property, owner}).from(properties).leftJoin(users, ..)
    .where(p)]. *)
Definition selectWithOwner (cols : User.t -> JsObject)
    (where_ : Property.t -> bool)
  : M (list (Property.t * option JsObject)) :=
  emit (Select TProperties) ;;
  gets (fun w =>
    flat_map (joinOwner cols (users w)) (filter where_ (properties w))).

(** Lines 47-123: the [switch] on the filter. *)
Definition selectByFilter (filterParam : string)
  : M (list (Property.t * option JsObject)) :=
  if (filterParam =? "active")%string then
    selectWithOwner ownerColumnsActive (fun p =>
      (Property.status p =? "active")%string && Property.isVerified p)
  else if (filterParam =? "sold_rented")%string then
    selectWithOwner ownerColumns (fun p =>
      inArray (Property.status p) ["sold"; "rented"]
      && Property.isVerified p)
  else if (filterParam =? "inactive")%string then
    selectWithOwner ownerColumns (fun p =>
      (Property.status p =? "inactive")%string && Property.isVerified p)
  else
    selectWithOwner ownerColumns (fun _ => true).

(** Lines 148-160: the callback of the final [propertiesList.map]. *)
Definition toAggregate (images_ : list PropertyImage.t)
    (views_ : list PropertyView.t) (pricing : list PricingHistory.t)
    (wishedStatuses : list bool) (r : Property.t * option JsObject)
    (index : nat) : PropertyWithRelations :=
  let '(property, owner_) := r in
  {| spread := Some property;
     images := filter (fun img =>
       (PropertyImage.propertyId img =? Property.id property)%string)
       images_;
     views := filter (fun v =>
       (PropertyView.propertyId v =? Property.id property)%string)
       views_;
     pricingHistoryOf := filter (fun p =>
       (PricingHistory.propertyId p =? Property.id property)%string)
       pricing;
     owner := Some
       [ ("id", fieldOrEmpty owner_ "id");
         ("email", fieldOrEmpty owner_ "email");
         ("username", fieldOrEmpty owner_ "username");
         ("role", fieldOrEmpty owner_ "role") ];
     isWished := nth index wishedStatuses false |}.

(** Lines 124-160: the relations of the selected rows.  The array handed
    to [Promise.all] is built first: the three query builders are only
    created, while every [isPropertyWished] call is started and runs up to
    its own query.  So the wishlist statements are issued first, in the
    order of the rows, and the builders are issued, in the order of the
    array, once [Promise.all] subscribes to them.  All four are reads. *)
Definition withRelations (userId : option string)
    (propertiesList : list (Property.t * option JsObject))
  : M (list PropertyWithRelations) :=
  if (List.length propertiesList =? 0)%nat then ret []
  else
    let propertyIds := map (fun r => Property.id (fst r)) propertiesList in
    wishedStatuses <- mapM (fun propertyId =>
                        isPropertyWished propertyId userId) propertyIds ;;
    images_ <- selectFrom propertyImagesT (fun x =>
                 inArray (PropertyImage.propertyId x) propertyIds) ;;
    views_ <- selectFrom propertyViewsT (fun x =>
                inArray (PropertyView.propertyId x) propertyIds) ;;
    pricing <- selectFrom pricingHistoryT (fun x =>
                 inArray (PricingHistory.propertyId x) propertyIds) ;;
    ret (mapi (toAggregate images_ views_ pricing wishedStatuses)
           propertiesList).

(** [filterParam: string = "active"]: the default stands in for an
    argument that is not passed. *)
Definition getProperties (filterParam : option string)
    (userId : option string) : M (list PropertyWithRelations) :=
  let filterParam :=
    match filterParam with Some f => f | None => "active" end in
  propertiesList <- selectByFilter filterParam ;;
  withRelations userId propertiesList.

(** *** getProperty *)

(** A row of the five-table join of [getProperty]. *)
Record JoinRow := {
  r_property : Property.t;
  r_image : option PropertyImage.t;
  r_view : option PropertyView.t;
  r_pricing : option PricingHistory.t;
  r_owner : option JsObject;
  r_isWished : bool
}.

(** The rows of
    [from(properties).where(id = propertyId).leftJoin(propertyImages)
     .leftJoin(propertyViews).leftJoin(pricingHistory).leftJoin(users)],
    produced as nested loops in the order of the joins. *)
Definition joinRows (propertyId : string) (userId : option string)
    (w : World) : list JoinRow :=
  flat_map (fun p =>
    flat_map (fun i =>
      flat_map (fun v =>
        flat_map (fun ph =>
          map (fun o =>
            {| r_property := p; r_image := i; r_view := v;
               r_pricing := ph;
               r_owner := option_map ownerColumns o;
               r_isWished :=
                 match userId with
                 | Some uid =>
                     truthyStr uid &&
                     existsb (fun x =>
                       (Wishlist.propertyId x =? Property.id p)%string
                       && (Wishlist.userId x =? uid)%string) (wishlist w)
                 | None => false
                 end |})
            (matchesOrNull (filter (fun u =>
               (Property.ownerId p =? User.id u)%string) (users w))))
        (matchesOrNull (filter (fun x =>
           (Property.id p =? PricingHistory.propertyId x)%string)
           (pricingHistory w))))
      (matchesOrNull (filter (fun x =>
         (Property.id p =? PropertyView.propertyId x)%string)
         (propertyViews w))))
    (matchesOrNull (filter (fun x =>
       (Property.id p =? PropertyImage.propertyId x)%string)
       (propertyImages w))))
  (filter (fun p => (Property.id p =? propertyId)%string) (properties w)).

(** [!acc.id]. *)
Definition hasNoId (acc : PropertyWithRelations) : bool :=
  match spread acc with
  | Some p => negb (truthyStr (Property.id p))
  | None => true
  end.

(** The callback of [property.reduce]. *)
Definition foldRow (wished : bool) (acc : PropertyWithRelations)
    (row : JoinRow) : PropertyWithRelations :=
  let acc :=
    if hasNoId acc then
      {| spread := Some (r_property row);
         images := [];
         views := [];
         pricingHistoryOf := [];
         owner := Some
           [ ("id", fieldOrEmpty (r_owner row) "id");
             ("email", fieldOrEmpty (r_owner row) "email");
             ("username", fieldOrEmpty (r_owner row) "username");
             ("role", fieldOrEmpty (r_owner row) "role") ];
         isWished := wished |}
    else acc in
  {| spread := spread acc;
     images := pushUnique PropertyImage.id (r_image row) (images acc);
     views := pushUnique PropertyView.id (r_view row) (views acc);
     pricingHistoryOf :=
       pushUnique PricingHistory.id (r_pricing row) (pricingHistoryOf acc);
     owner := owner acc;
     isWished := isWished acc |}.

Definition notFound (propertyId : string) : JsError :=
  Error ("Property with ID " +++ propertyId +++ " not found").

Definition getProperty (propertyId : string) (userId : option string)
  : M PropertyWithRelations :=
  emit (Select TProperties) ;;
  property <- gets (joinRows propertyId userId) ;;
  if (List.length property =? 0)%nat then throw (notFound propertyId)
  else
    wished <- isPropertyWished propertyId userId ;;
    ret (fold_left (foldRow wished) property emptyObject).

(** *** addNewProperty *)

(** [listingLimit || d] for a nullable number. *)
Definition limitOr (l : option Z) (d : Z) : Z := orOptNum l d.

(** The row [db.insert(properties).values({..})] creates: the key,
    [isVerified] and the two timestamps come from the column defaults. *)
Definition newPropertyRow (input : CreatePropertyInput) (created : Date)
    (key : string) : Property.t :=
  {| Property.id := key;
     Property.ownerId := c_ownerId input;
     Property.title := c_title input;
     Property.description := c_description input;
     Property.facilities := c_facilities input;
     Property.propertyType := c_propertyType input;
     Property.transactionType := c_transactionType input;
     Property.price := c_price input;
     Property.currency := orOptStr (c_currency input) "USD";
     Property.size := c_size input;
     Property.rooms := c_rooms input;
     Property.address := c_address input;
     Property.status := orOptStr (c_status input) "active";
     Property.documentUrl := c_documentUrl input;
     Property.verificationComments := c_verificationComments input;
     Property.isVerified := false;
     Property.createdAt := created;
     Property.updatedAt := created |}.

Definition newImageRow (propertyId : string) (img : ImageInput)
    (key : string) : PropertyImage.t :=
  {| PropertyImage.id := key;
     PropertyImage.propertyId := propertyId;
     PropertyImage.imageUrl := in_imageUrl img;
     PropertyImage.isPrimary := in_isPrimary img |}.

Definition setListingLimit (l : option Z) (u : User.t) : User.t :=
  {| User.id := User.id u;
     User.email := User.email u;
     User.username := User.username u;
     User.role := User.role u;
     User.listingLimit := l;
     User.isEmailVerified := User.isEmailVerified u;
     User.paypalCredentials := User.paypalCredentials u;
     User.createdAt := User.createdAt u;
     User.updatedAt := User.updatedAt u |}.

Definition addNewProperty (input : CreatePropertyInput) : M CreatedProperty :=
  user <- selectFrom usersT (fun u =>
            (User.id u =? c_ownerId input)%string) ;;
  match firstn 1 user with
  | [] => throw (Error "User not found")
  | u0 :: _ =>
      let role := User.role u0 in
      let listingLimit := User.listingLimit u0 in
      if (role =? "private_seller")%string
         && match listingLimit with Some l => l <=? 0 | None => false end
      then throw (Error "Listings limit reached")
      else
        created <- newDate ;;
        newProperty <- insertInto propertiesT
                         [newPropertyRow input created] ;;
        match newProperty with
        | [] => throw (TypeError
                  "Cannot read properties of undefined (reading 'id')")
        | property :: _ =>
            owner_ <- selectFrom usersT (fun u =>
                        (User.id u =? c_ownerId input)%string) ;;
            let ownerData := hd_error owner_ in
            (if (role =? "private_seller")%string
                && negb (limitOr listingLimit 0 =? 0)
             then
               updateWhere usersT
                 (setListingLimit (Some
                    (limitOr
                       (match ownerData with
                        | Some o => User.listingLimit o
                        | None => None
                        end) 1 - 1)))
                 (fun u => (User.id u =? c_ownerId input)%string) ;;
               ret tt
             else ret tt) ;;
            images_ <-
              match c_images input with
              | Some imgs =>
                  if (0 <? List.length imgs)%nat then
                    insertInto propertyImagesT
                      (map (newImageRow (Property.id property)) imgs)
                  else ret []
              | None => ret []
              end ;;
            effective <- newDate ;;
            pricingHistoryRecord <- insertInto pricingHistoryT
              [fun key =>
                 {| PricingHistory.id := key;
                    PricingHistory.propertyId := Property.id property;
                    PricingHistory.price := c_price input;
                    PricingHistory.currency :=
                      orOptStr (c_currency input) "USD";
                    PricingHistory.effectiveDate := effective |}] ;;
            ret {| cp_property := property;
                   cp_images := images_;
                   cp_views := [];
                   cp_pricingHistory := pricingHistoryRecord |}
        end
  end.

(** *** deleteProperty *)

Definition deleteProperty (propertyId : string) : M unit :=
  tryCatch
    (existingProperty <- selectFrom propertiesT (fun p =>
                           (Property.id p =? propertyId)%string) ;;
     if (List.length (firstn 1 existingProperty) =? 0)%nat
     then throw (notFound propertyId)
     else
       deleteFrom propertiesT (fun p =>
         (Property.id p =? propertyId)%string) ;;
       emit (ConsoleLog ("Property with ID " +++ propertyId
                         +++ " deleted successfully")))
    (fun error =>
       throw (Error ("Failed to delete property: " +++ messageOf error))).

(** *** updateProperty *)

(** [updateData]: the supplied fields and the refreshed [updatedAt]. *)
Definition buildUpdateData (input : UpdatePropertyInput) (stamp : Date)
  : PartialProperty :=
  {| d_title := u_title input;
     d_description := u_description input;
     d_facilities := u_facilities input;
     d_propertyType := u_propertyType input;
     d_transactionType := u_transactionType input;
     d_price := u_price input;
     d_currency := u_currency input;
     d_size := u_size input;
     d_rooms := u_rooms input;
     d_address := u_address input;
     d_status := u_status input;
     d_documentUrl := u_documentUrl input;
     d_verificationComments := u_verificationComments input;
     d_isVerified := u_isVerified input;
     d_updatedAt := Some stamp |}.

Definition orKeep {A} (x : option A) (old : A) : A :=
  match x with Some v => v | None => old end.

(** [.set(updateData)] on one row. *)
Definition applyUpdate (d : PartialProperty) (p : Property.t) : Property.t :=
  {| Property.id := Property.id p;
     Property.ownerId := Property.ownerId p;
     Property.title := orKeep (d_title d) (Property.title p);
     Property.description := orKeep (d_description d) (Property.description p);
     Property.facilities := orKeep (d_facilities d) (Property.facilities p);
     Property.propertyType :=
       orKeep (d_propertyType d) (Property.propertyType p);
     Property.transactionType :=
       orKeep (d_transactionType d) (Property.transactionType p);
     Property.price := orKeep (d_price d) (Property.price p);
     Property.currency := orKeep (d_currency d) (Property.currency p);
     Property.size := orKeep (d_size d) (Property.size p);
     Property.rooms := orKeep (d_rooms d) (Property.rooms p);
     Property.address := orKeep (d_address d) (Property.address p);
     Property.status := orKeep (d_status d) (Property.status p);
     Property.documentUrl := orKeep (d_documentUrl d) (Property.documentUrl p);
     Property.verificationComments :=
       orKeep (d_verificationComments d) (Property.verificationComments p);
     Property.isVerified := orKeep (d_isVerified d) (Property.isVerified p);
     Property.createdAt := Property.createdAt p;
     Property.updatedAt := orKeep (d_updatedAt d) (Property.updatedAt p) |}.

(** One element of [allUsers.map((user) => user.email ? send(..) :
    Promise.resolve())]: the notification is started, and the promise it
    returns is kept. *)
Definition startNotification (details : PropertyDetails) (user : User.t)
  : M (option JsError) :=
  match User.email user with
  | Some e =>
      if truthyStr e then
        emit (Dispatch e details) ;;
        ret (sendPriceChangeNotification e details)
      else ret None
  | None => ret None
  end.

(** Lines 377-405: the body of [if (existingProperty[0].price !==
    input.price)]. *)
Definition notifyPriceChange (propertyId : string) (existing : Property.t)
    (price : Z) : M unit :=
  wishlistItems <- selectFrom wishlistT (fun x =>
                     (Wishlist.propertyId x =? propertyId)%string) ;;
  let userIds := map Wishlist.userId wishlistItems in
  allUsers <- selectFrom usersT (fun u => inArray (User.id u) userIds) ;;
  if (0 <? List.length allUsers)%nat then
    let propertyDetails :=
      {| name := Property.title existing;
         detailsAddress := orStr (Property.address existing) "N/A";
         oldPrice := Property.price existing;
         newPrice := price |} in
    promises <- mapM (startNotification propertyDetails) allUsers ;;
    awaitAll promises
  else ret tt.

(** Lines 440-490: the image block, for a supplied [input.images]. *)
Definition replaceImages (propertyId : string) (supplied : list ImageInput)
  : M (list PropertyImage.t) :=
  existingImages <- selectFrom propertyImagesT (fun x =>
                      (PropertyImage.propertyId x =? propertyId)%string) ;;
  let newImages :=
    filter (fun img =>
      negb (existsb (fun existingImg =>
              (PropertyImage.imageUrl existingImg =? in_imageUrl img)%string
              && Bool.eqb (PropertyImage.isPrimary existingImg)
                   (in_isPrimary img))
            existingImages))
      supplied in
  images_ <-
    (if (0 <? List.length newImages)%nat then
       deleteFrom propertyImagesT (fun x =>
         (PropertyImage.propertyId x =? propertyId)%string) ;;
       insertInto propertyImagesT (map (newImageRow propertyId) newImages)
     else ret existingImages) ;;
  deleteFrom propertyImagesT (fun x =>
    (PropertyImage.propertyId x =? propertyId)%string) ;;
  if (0 <? List.length supplied)%nat then
    insertInto propertyImagesT (map (newImageRow propertyId) supplied)
  else ret images_.

Definition isSome {A} (x : option A) : bool :=
  match x with Some _ => true | None => false end.

(** Lines 492-505: the pricing-history block. *)
Definition appendPricingHistory (propertyId : string) (existing : Property.t)
    (input : UpdatePropertyInput) : M (list PricingHistory.t) :=
  if isSome (u_price input) || isSome (u_currency input) then
    let newPrice := orOptNum (u_price input) (Property.price existing) in
    let newCurrency :=
      orStr (orOptStr (u_currency input) (Property.currency existing))
        "USD" in
    effective <- newDate ;;
    insertInto pricingHistoryT
      [fun key =>
         {| PricingHistory.id := key;
            PricingHistory.propertyId := propertyId;
            PricingHistory.price := newPrice;
            PricingHistory.currency := newCurrency;
            PricingHistory.effectiveDate := effective |}]
  else ret [].

(** A row of [db.select().from(users)]: every column. *)
Definition userRow (u : User.t) : JsObject :=
  [ ("id", JStr (User.id u));
    ("email", ofNullableStr (User.email u));
    ("username", JStr (User.username u));
    ("role", JStr (User.role u));
    ("listingLimit", ofNullableNum (User.listingLimit u));
    ("isEmailVerified", JBool (User.isEmailVerified u));
    ("paypalCredentials", ofNullableStr (User.paypalCredentials u));
    ("createdAt", JDate (User.createdAt u));
    ("updatedAt", JDate (User.updatedAt u)) ].

(** In the final [Promise.all] (lines 506-526) the owner query is issued
    while the array is built, since [.then] is called on it there; the
    other builders are issued when [Promise.all] subscribes to them. *)
Definition updateProperty (propertyId : string) (input : UpdatePropertyInput)
  : M PropertyWithRelations :=
  existingProperty <- selectFrom propertiesT (fun p =>
                        (Property.id p =? propertyId)%string) ;;
  match firstn 1 existingProperty with
  | [] => throw (notFound propertyId)
  | existing :: _ =>
      match u_price input with
      | Some price =>
          if negb (Property.price existing =? price)
          then notifyPriceChange propertyId existing price
          else ret tt
      | None => ret tt
      end ;;
      stamp <- newDate ;;
      let updateData := buildUpdateData input stamp in
      updatedProperty <- updateWhere propertiesT (applyUpdate updateData)
                           (fun p => (Property.id p =? propertyId)%string) ;;
      images_ <-
        match u_images input with
        | Some supplied => replaceImages propertyId supplied
        | None => ret []
        end ;;
      pricingHistoryRecord <- appendPricingHistory propertyId existing input ;;
      res <- selectFrom usersT (fun u =>
               (User.id u =? Property.ownerId existing)%string) ;;
      let owner_ := hd_error res in
      fetchedImages <-
        match u_images input with
        | Some _ => ret images_
        | None => selectFrom propertyImagesT (fun x =>
                    (PropertyImage.propertyId x =? propertyId)%string)
        end ;;
      views_ <- selectFrom propertyViewsT (fun x =>
                  (PropertyView.propertyId x =? propertyId)%string) ;;
      pricing <- selectFrom pricingHistoryT (fun x =>
                   (PricingHistory.propertyId x =? propertyId)%string) ;;
      pricingOut <-
        (if (0 <? List.length pricingHistoryRecord)%nat then ret pricing
         else selectFrom pricingHistoryT (fun x =>
                (PricingHistory.propertyId x =? propertyId)%string)) ;;
      ret {| spread := hd_error updatedProperty;
             images := fetchedImages;
             views := views_;
             pricingHistoryOf := pricingOut;
             owner := option_map userRow owner_;
             isWished := false |}
  end.

(** *** verifyProperty *)

Definition setVerified (p : Property.t) : Property.t :=
  {| Property.id := Property.id p;
     Property.ownerId := Property.ownerId p;
     Property.title := Property.title p;
     Property.description := Property.description p;
     Property.facilities := Property.facilities p;
     Property.propertyType := Property.propertyType p;
     Property.transactionType := Property.transactionType p;
     Property.price := Property.price p;
     Property.currency := Property.currency p;
     Property.size := Property.size p;
     Property.rooms := Property.rooms p;
     Property.address := Property.address p;
     Property.status := Property.status p;
     Property.documentUrl := Property.documentUrl p;
     Property.verificationComments := Property.verificationComments p;
     Property.isVerified := true;
     Property.createdAt := Property.createdAt p;
     Property.updatedAt := Property.updatedAt p |}.

Definition setContent (c : string) (m : Message.t) : Message.t :=
  {| Message.id := Message.id m;
     Message.conversationId := Message.conversationId m;
     Message.sender := Message.sender m;
     Message.content := c;
     Message.createdAt := Message.createdAt m;
     Message.isVisible := Message.isVisible m |}.

Definition indent6 : string := nl +++ "      ".

(** Lines 559-580: the template literal [newPropertySummary], for a row
    that is there. *)
Definition propertySummary (property : Property.t)
    (pricingHistoryRecords : list PricingHistory.t)
    (images_ : list PropertyImage.t) : string :=
  indent6 +++ "- ID: " +++ Property.id property
  +++ indent6 +++ "- Title: " +++ orStr (Property.title property) "Unknown"
  +++ indent6 +++ "- Type: "
      +++ orStr (Property.propertyType property) "Unknown"
  +++ indent6 +++ "- Description: "
      +++ orStr (Property.description property) "Unknown"
  +++ indent6 +++ "- Transaction: "
      +++ orStr (Property.transactionType property) "Unknown"
  +++ indent6 +++ "- Price: "
      +++ (if truthyNum (Property.price property)
           then showZ (Property.price property) +++ " "
                +++ Property.currency property
           else "Unknown")
  +++ indent6 +++ "- Size: "
      +++ (if truthyNum (Property.size property)
           then showZ (Property.size property) +++ " sqm"
           else "Unknown")
  +++ indent6 +++ "- Rooms: "
      +++ (if truthyNum (Property.rooms property)
           then showZ (Property.rooms property) else "Unknown")
  +++ indent6 +++ "- Address: "
      +++ orStr (Property.address property) "Unknown"
  +++ indent6 +++ "- Status: " +++ orStr (Property.status property) "Unknown"
  +++ indent6 +++ "- Is Verified: "
      +++ (if Property.isVerified property then "Yes" else "No")
  +++ indent6 +++ "- Images: "
      +++ showZ (Z.of_nat (List.length images_)) +++ " images"
  +++ indent6 +++ "- Facilities: "
      +++ orStr (Property.facilities property) "Unknown"
  +++ indent6 +++ "- Pricing History: "
      +++ (if (0 <? List.length pricingHistoryRecords)%nat
           then String.concat ", "
                  (map (fun ph =>
                     showZ (PricingHistory.price ph) +++ " "
                     +++ PricingHistory.currency ph +++ " on "
                     +++ dateToString (PricingHistory.effectiveDate ph))
                   pricingHistoryRecords)
           else "None")
  +++ nl +++ "  ".

(** Building the summary reads [property.id] first: a [TypeError] when the
    update returned no row. *)
Definition newPropertySummary (property : option Property.t)
    (pricingHistoryRecords : list PricingHistory.t)
    (images_ : list PropertyImage.t) : M string :=
  match property with
  | None =>
      throw (TypeError "Cannot read properties of undefined (reading 'id')")
  | Some p => ret (propertySummary p pricingHistoryRecords images_)
  end.

(** Lines 624-651 and, word for word, 675-702: the live chat session of a
    conversation is replaced by one seeded with the stored history.  When
    the client throws, the error leaves [verifyProperty] and the registry
    is not written. *)
Definition rebuildChat (conversationId : string) : M unit :=
  emit (SessionGet conversationId) ;;
  chat <- gets (fun w => mapGet conversationId (activeChatSessions w)) ;;
  match chat with
  | Some _ =>
      emit (Select TMessages) ;;
      messageHistory <- gets (fun w =>
        orderBy Message.createdAt
          (filter (fun m =>
             (Message.conversationId m =? conversationId)%string)
             (messages w))) ;;
      let history_ :=
        map (fun msg =>
               (if (Message.sender msg =? "ai")%string
                then "model" else "user",
                Message.content msg))
            messageHistory in
      let updatedChat :=
        {| chatModel := "gemini-2.0-flash";
           history := history_;
           maxOutputTokens := 8192 |} in
      match startChat updatedChat with
      | Some e => throw e
      | None =>
          emit (SessionSet conversationId) ;;
          modify (fun w =>
            set_activeChatSessions
              (mapSet conversationId updatedChat (activeChatSessions w)) w)
      end
  | None => ret tt
  end.

(** The body of [for (const conversation of activeConversations)]. *)
Definition syncConversation (summary : string) (conversation : Conversation.t)
  : M unit :=
  match Conversation.systemPromptId conversation with
  | None =>
      emit (ConsoleWarn ("Conversation " +++ Conversation.id conversation
                         +++ " has no systemPromptId, skipping."))
  | Some systemPromptId =>
      if negb (truthyStr systemPromptId) then
        emit (ConsoleWarn ("Conversation " +++ Conversation.id conversation
                           +++ " has no systemPromptId, skipping."))
      else
        found <- selectFrom messagesT (fun m =>
                   (Message.conversationId m
                      =? Conversation.id conversation)%string
                   && (Message.sender m =? "system")%string
                   && Bool.eqb (Message.isVisible m) false) ;;
        match firstn 1 found with
        | systemMessage :: _ =>
            let updatedContent :=
              Message.content systemMessage +++ nl +++ nl
              +++ "### New Property Added:" +++ nl +++ summary in
            updateWhere messagesT (setContent updatedContent)
              (fun m => (Message.id m =? Message.id systemMessage)%string) ;;
            rebuildChat (Conversation.id conversation)
        | [] =>
            prompts <- selectFrom systemPromptsT (fun sp =>
                         (SystemPrompt.id sp =? systemPromptId)%string) ;;
            match firstn 1 prompts with
            | defaultPrompt :: _ =>
                let newSystemMessageContent :=
                  nl +++ "          " +++ SystemPrompt.content defaultPrompt
                  +++ nl +++ "          ### Available Properties:"
                  +++ nl +++ "          " +++ summary
                  +++ nl +++ "        " in
                k <- gets nextKey ;;
                modify (set_nextKey (S k)) ;;
                created <- newDate ;;
                insertRow messagesT
                  {| Message.id := uuidv4 k;
                     Message.conversationId := Conversation.id conversation;
                     Message.sender := "system";
                     Message.content := newSystemMessageContent;
                     Message.createdAt := created;
                     Message.isVisible := false |} ;;
                rebuildChat (Conversation.id conversation)
            | [] =>
                emit (ConsoleWarn ("No system prompt found for conversation "
                                   +++ Conversation.id conversation))
            end
        end
  end.

Definition verifyProperty (id : string) : M (option Property.t) :=
  result <- updateWhere propertiesT setVerified (fun p =>
              (Property.id p =? id)%string) ;;
  let property := hd_error result in
  pricingHistoryRecords <- selectFrom pricingHistoryT (fun x =>
                             (PricingHistory.propertyId x =? id)%string) ;;
  images_ <- selectFrom propertyImagesT (fun x =>
               (PropertyImage.propertyId x =? id)%string) ;;
  summary <- newPropertySummary property pricingHistoryRecords images_ ;;
  activeConversations <- selectFrom conversationsT (fun c =>
                           Bool.eqb (Conversation.isActive c) true) ;;
  forOf (syncConversation summary) activeConversations ;;
  ret property.

(** ** Vocabulary of the statements *)

(** The columns and the condition each filter value selects with. *)
Definition colsOf (f : string) : User.t -> JsObject :=
  if (f =? "active")%string then ownerColumnsActive else ownerColumns.

Definition whereOf (f : string) (p : Property.t) : bool :=
  if (f =? "active")%string then
    (Property.status p =? "active")%string && Property.isVerified p
  else if (f =? "sold_rented")%string then
    inArray (Property.status p) ["sold"; "rented"] && Property.isVerified p
  else if (f =? "inactive")%string then
    (Property.status p =? "inactive")%string && Property.isVerified p
  else true.

(** The owner object of an output for a known and for an unknown owner. *)
Definition publicOwner (u : User.t) : JsObject :=
  [ ("id", JStr (User.id u));
    ("email", JStr (orKeep (User.email u) ""));
    ("username", JStr (User.username u));
    ("role", JStr (User.role u)) ].

Definition unknownOwner : JsObject :=
  [ ("id", JStr ""); ("email", JStr "");
    ("username", JStr ""); ("role", JStr "") ].

(** The child rows of a property, as the tables hold them. *)
Definition imagesOf (propertyId : string) (w : World)
  : list PropertyImage.t :=
  filter (fun x => (PropertyImage.propertyId x =? propertyId)%string)
    (propertyImages w).

Definition viewsOf (propertyId : string) (w : World) : list PropertyView.t :=
  filter (fun x => (PropertyView.propertyId x =? propertyId)%string)
    (propertyViews w).

Definition pricingOf (propertyId : string) (w : World)
  : list PricingHistory.t :=
  filter (fun x => (PricingHistory.propertyId x =? propertyId)%string)
    (pricingHistory w).

(** What the three [if (x && !acc.some(..)) acc.push(x)] of the reducer
    amount to over a whole sequence of rows. *)
Definition dedupe {R} (key : R -> string) (xs : list (option R))
    (acc : list R) : list R :=
  fold_left (fun a x => pushUnique key x a) xs acc.

(** The e-mail a notification goes to, for a user with a truthy e-mail. *)
Definition recipient (u : User.t) : list string :=
  match User.email u with
  | Some e => if truthyStr e then [e] else []
  | None => []
  end.

(** The users [notifyPriceChange] resolves: those on the wishlist of the
    property. *)
Definition wishlisters (propertyId : string) (w : World) : list User.t :=
  filter (fun u => inArray (User.id u)
            (map Wishlist.userId
               (filter (fun x => (Wishlist.propertyId x =? propertyId)%string)
                  (wishlist w))))
    (users w).

Definition priceDetails (existing : Property.t) (price : Z) : PropertyDetails :=
  {| name := Property.title existing;
     detailsAddress := orStr (Property.address existing) "N/A";
     oldPrice := Property.price existing;
     newPrice := price |}.

Definition promiseOf (d : PropertyDetails) (u : User.t) : option JsError :=
  match User.email u with
  | Some e => if truthyStr e then sendPriceChangeNotification e d else None
  | None => None
  end.

Definition notifyEvents (propertyId : string) (existing : Property.t)
    (input : UpdatePropertyInput) (w : World) : list Event :=
  match u_price input with
  | Some price =>
      if negb (Property.price existing =? price) then
        [Select TWishlist; Select TUsers] ++
        map (fun e => Dispatch e (priceDetails existing price))
          (flat_map recipient (wishlisters propertyId w))
      else []
  | None => []
  end.

Definition dispatchOutcome (propertyId : string) (existing : Property.t)
    (input : UpdatePropertyInput) (w : World) : option JsError :=
  match u_price input with
  | Some price =>
      if negb (Property.price existing =? price) then
        firstRejection
          (map (fun e => sendPriceChangeNotification e (priceDetails existing price))
             (flat_map recipient (wishlisters propertyId w)))
      else None
  | None => None
  end.

Definition isStatement (e : Event) : bool :=
  match e with
  | Select _ | Insert _ | Update _ | Delete _ => true
  | _ => false
  end.

Definition historyRow (propertyId : string) (existing : Property.t)
    (input : UpdatePropertyInput) (effective : Date) (key : string)
  : PricingHistory.t :=
  {| PricingHistory.id := key;
     PricingHistory.propertyId := propertyId;
     PricingHistory.price := orOptNum (u_price input) (Property.price existing);
     PricingHistory.currency :=
       orStr (orOptStr (u_currency input) (Property.currency existing)) "USD";
     PricingHistory.effectiveDate := effective |}.

Definition updatedRows (d : PartialProperty) (propertyId : string)
    (ps : list Property.t) : list Property.t :=
  map (fun r => if (Property.id r =? propertyId)%string
                then applyUpdate d r else r) ps.

Definition absent (propertyId : string) (w : World) : Prop :=
  forall p, In p (properties w) -> Property.id p <> propertyId.

(** Whether a viewing user is given: [userId] is neither absent nor
    empty. *)
Definition hasUser (userId : option string) : bool :=
  match userId with
  | Some uid => truthyStr uid
  | None => false
  end.

(** Whether the wishlist holds the pair of the viewing user and the
    property. *)
Definition wishedBy (userId : option string) (propertyId : string)
    (w : World) : bool :=
  match userId with
  | Some uid =>
      truthyStr uid &&
      existsb (fun x =>
        (Wishlist.propertyId x =? propertyId)%string
        && (Wishlist.userId x =? uid)%string) (wishlist w)
  | None => false
  end.

(** The rows the first query of [getProperties] returns. *)
Definition selectedRows (filterParam : option string) (w : World)
  : list (Property.t * option JsObject) :=
  flat_map (joinOwner (colsOf (orKeep filterParam "active")) (users w))
    (filter (whereOf (orKeep filterParam "active")) (properties w)).

(** The oldest stored row with a given key. *)
Definition storedProperty (propertyId : string) (w : World)
  : option Property.t :=
  find (fun p => (Property.id p =? propertyId)%string) (properties w).

(** The aggregate [getProperties] builds for one selected row: the
    children are those of the batched queries that carry the row's key. *)
Definition aggregateOf (filterParam userId : option string) (w : World)
    (r : Property.t * option JsObject) : PropertyWithRelations :=
  {| spread := Some (fst r);
     images := filter (fun img =>
       (PropertyImage.propertyId img =? Property.id (fst r))%string)
       (filter (fun x => inArray (PropertyImage.propertyId x)
          (map (fun r => Property.id (fst r))
             (selectedRows filterParam w))) (propertyImages w));
     views := filter (fun v =>
       (PropertyView.propertyId v =? Property.id (fst r))%string)
       (filter (fun x => inArray (PropertyView.propertyId x)
          (map (fun r => Property.id (fst r))
             (selectedRows filterParam w))) (propertyViews w));
     pricingHistoryOf := filter (fun p =>
       (PricingHistory.propertyId p =? Property.id (fst r))%string)
       (filter (fun x => inArray (PricingHistory.propertyId x)
          (map (fun r => Property.id (fst r))
             (selectedRows filterParam w))) (pricingHistory w));
     owner := Some
       [ ("id", fieldOrEmpty (snd r) "id");
         ("email", fieldOrEmpty (snd r) "email");
         ("username", fieldOrEmpty (snd r) "username");
         ("role", fieldOrEmpty (snd r) "role") ];
     isWished := wishedBy userId (Property.id (fst r)) w |}.

(** The quota test of [addNewProperty] (line 255) on the owner's row. *)
Definition overQuota (u : User.t) : bool :=
  (User.role u =? "private_seller")%string
  && match User.listingLimit u with
     | Some l => l <=? 0
     | None => false
     end.

(** [input.images], an absent list counting as empty. *)
Definition suppliedImages (input : CreatePropertyInput) : list ImageInput :=
  match c_images input with
  | Some imgs => imgs
  | None => []
  end.

(** The first pricing-history row of a new property. *)
Definition firstHistoryRow (input : CreatePropertyInput)
    (propertyId : string) (effective : Date) (key : string)
  : PricingHistory.t :=
  {| PricingHistory.id := key;
     PricingHistory.propertyId := propertyId;
     PricingHistory.price := c_price input;
     PricingHistory.currency := orOptStr (c_currency input) "USD";
     PricingHistory.effectiveDate := effective |}.

(** Two versions of one message: every column but the content is the
    same. *)
Definition sameButContent (m m' : Message.t) : Prop :=
  Message.id m' = Message.id m /\
  Message.conversationId m' = Message.conversationId m /\
  Message.sender m' = Message.sender m /\
  Message.createdAt m' = Message.createdAt m /\
  Message.isVisible m' = Message.isVisible m.

(** A hidden system message. *)
Definition hiddenSystem (m : Message.t) : Prop :=
  Message.sender m = "system" /\ Message.isVisible m = false.

(** [Subseq l1 l2]: [l1] is [l2] with some of its elements left out. *)
Inductive Subseq {A : Type} : list A -> list A -> Prop :=
| Subseq_nil : Subseq [] []
| Subseq_skip (x : A) (l1 l2 : list A) : Subseq l1 l2 -> Subseq l1 (x :: l2)
| Subseq_take (x : A) (l1 l2 : list A) :
    Subseq l1 l2 -> Subseq (x :: l1) (x :: l2).

(** What going through the conversations [cs] may do to the messages:
    every message keeps its place and all its columns but the content, and
    the messages added after them are hidden system messages, at most one
    for each of [cs], in their order. *)
Definition messagesStep (cs : list Conversation.t)
    (ms ms' : list Message.t) : Prop :=
  exists old new,
    ms' = old ++ new /\
    Forall2 sameButContent ms old /\
    Forall hiddenSystem new /\
    Subseq (map Message.conversationId new) (map Conversation.id cs).

(** A step that may touch only the messages, the session registry, the key
    counter and the trace: it keeps every other table and the keys of the
    registry, and changes the messages as [messagesStep] allows. *)
Definition chatStep (cs : list Conversation.t) (w w' : World) : Prop :=
  w' = set_messages (messages w')
         (set_activeChatSessions (activeChatSessions w')
            (set_nextKey (nextKey w') (set_trace (trace w') w)))
  /\ map fst (activeChatSessions w') = map fst (activeChatSessions w)
  /\ messagesStep cs (messages w) (messages w').

(** How a rebuild of chat sessions can end: it returns, or it throws what
    the AI client threw for some chat it was asked to start. *)
Definition rebuildOutcome (res : Result unit) : Prop :=
  res = Ok tt \/ exists chat e, startChat chat = Some e /\ res = Throw e.

(** The test of lines 602-608: the hidden system messages of a
    conversation. *)
Definition hiddenSystemOf (conversationId : string) (m : Message.t) : bool :=
  (Message.conversationId m =? conversationId)%string
  && (Message.sender m =? "system")%string
  && Bool.eqb (Message.isVisible m) false.

(** The template literal of lines 660-664. *)
Definition systemMessageContent (prompt summary : string) : string :=
  nl +++ "          " +++ prompt
  +++ nl +++ "          ### Available Properties:"
  +++ nl +++ "          " +++ summary
  +++ nl +++ "        ".

(** The template literal of lines 612-614. *)
Definition appendedContent (old summary : string) : string :=
  old +++ nl +++ nl +++ "### New Property Added:" +++ nl +++ summary.

(** The conversations [verifyProperty] goes through. *)
Definition activeConversations (w : World) : list Conversation.t :=
  filter (fun c => Bool.eqb (Conversation.isActive c) true) (conversations w).

(** The default prompt of a conversation, when it names one that is
    stored. *)
Definition promptOf (c : Conversation.t) (w : World) : option SystemPrompt.t :=
  match Conversation.systemPromptId c with
  | Some spid =>
      if truthyStr spid
      then find (fun sp => (SystemPrompt.id sp =? spid)%string)
             (systemPrompts w)
      else None
  | None => None
  end.

(** The hidden system message [verifyProperty] inserts for a conversation
    (lines 666-673). *)
Definition hiddenMessage (c : Conversation.t) (sp : SystemPrompt.t)
    (summary : string) (key : string) (created : Date) : Message.t :=
  {| Message.id := key;
     Message.conversationId := Conversation.id c;
     Message.sender := "system";
     Message.content := systemMessageContent (SystemPrompt.content sp) summary;
     Message.createdAt := created;
     Message.isVisible := false |}.

(** The chat [verifyProperty] puts in the registry for a conversation: the
    stored messages of the conversation by creation date, a message of the
    AI under the role "model" and any other under the role "user". *)
Definition rebuiltChat (conversationId : string) (w : World) : ChatSession :=
  {| chatModel := "gemini-2.0-flash";
     history :=
       map (fun msg =>
              (if (Message.sender msg =? "ai")%string
               then "model" else "user",
               Message.content msg))
         (orderBy Message.createdAt
            (filter (fun m =>
               (Message.conversationId m =? conversationId)%string)
               (messages w)));
     maxOutputTokens := 8192 |}.


(** ** Running the monad *)

Lemma selectFrom_run {R} (t : TableOf R) (p : R -> bool) (w : World) :
  selectFrom t p w =
  (Ok (filter p (rows t (set_trace (trace w ++ [Select (tname t)]) w))),
   set_trace (trace w ++ [Select (tname t)]) w).
Proof. reflexivity. Qed.

Lemma mapM_total {A B} (f : A -> M B) (xs : list A) :
  (forall x w, exists b w', f x w = (Ok b, w')) ->
  forall w, exists bs w', mapM f xs w = (Ok bs, w').
Proof.
  intros Hf. induction xs as [|x xs IH]; intros w; cbn.
  - eexists; eexists; reflexivity.
  - unfold bind. destruct (Hf x w) as (b & w1 & ->).
    destruct (IH w1) as (bs & w2 & ->). eexists; eexists; reflexivity.
Qed.

Lemma in_mapi_from {A B} (f : A -> nat -> B) (xs : list A) (i : nat) (y : B) :
  In y (mapi_from i f xs) -> exists x j, In x xs /\ y = f x j.
Proof.
  revert i. induction xs as [|x xs IH]; intros i; cbn; [intros []|].
  intros [<-|H]; [exists x, i; auto|].
  destruct (IH _ H) as (x' & j & ? & ?). exists x', j; auto.
Qed.

(** ** getProperties *)

Lemma isPropertyWished_total (propertyId : string) (userId : option string)
    (w : World) :
  exists b w', isPropertyWished propertyId userId w = (Ok b, w').
Proof.
  unfold isPropertyWished.
  destruct userId as [uid|]; [|eexists; eexists; reflexivity].
  destruct (negb (truthyStr uid)); eexists; eexists; reflexivity.
Qed.

Lemma selectByFilter_run (f : string) (w : World) :
  selectByFilter f w =
  (Ok (flat_map (joinOwner (colsOf f) (users w))
         (filter (whereOf f) (properties w))),
   set_trace (trace w ++ [Select TProperties]) w).
Proof.
  unfold selectByFilter, colsOf, whereOf.
  destruct (f =? "active")%string; [reflexivity|].
  destruct (f =? "sold_rented")%string; [reflexivity|].
  destruct (f =? "inactive")%string; reflexivity.
Qed.

Lemma withRelations_run (userId : option string)
    (l : list (Property.t * option JsObject)) (w : World) :
  exists imgs vs ps ws w',
    withRelations userId l w = (Ok (mapi (toAggregate imgs vs ps ws) l), w').
Proof.
  unfold withRelations.
  destruct (List.length l =? 0)%nat eqn:E.
  - destruct l; [|discriminate]. exists [], [], [], [], w. reflexivity.
  - unfold bind.
    match goal with |- context [mapM ?f ?xs ?w0] =>
      destruct (mapM_total f xs
                  (fun x w => isPropertyWished_total x userId w) w0)
        as (ws & w' & ->) end.
    rewrite !selectFrom_run. do 5 eexists. reflexivity.
Qed.

(** Whatever the filter, the call returns, and what it returns is the
    final [map] over the rows of the first query. *)
Lemma getProperties_run (filterParam userId : option string) (w : World) :
  exists imgs vs ps ws w',
    getProperties filterParam userId w =
    (Ok (mapi (toAggregate imgs vs ps ws)
           (flat_map
              (joinOwner (colsOf (orKeep filterParam "active")) (users w))
              (filter (whereOf (orKeep filterParam "active"))
                 (properties w)))),
     w').
Proof.
  unfold getProperties, bind. rewrite selectByFilter_run.
  destruct filterParam; apply withRelations_run.
Qed.

Lemma joinOwner_fst cols us p r : In r (joinOwner cols us p) -> fst r = p.
Proof.
  unfold joinOwner. destruct (filter _ us) as [|u ms].
  - intros [<-|[]]. reflexivity.
  - intros H. apply in_map_iff in H as (u' & <- & _). reflexivity.
Qed.

Lemma joinOwner_nonempty cols us p : exists r, In r (joinOwner cols us p).
Proof.
  unfold joinOwner. destruct (filter _ us) as [|u ms];
    eexists; left; reflexivity.
Qed.

(** The owner of a joined row: null exactly when no user row has the
    property's [ownerId]. *)
Lemma joinOwner_snd cols us p r :
  In r (joinOwner cols us p) ->
  (snd r = None /\ forall u, In u us -> User.id u <> Property.ownerId p)
  \/ (exists u, In u us /\ User.id u = Property.ownerId p
                 /\ snd r = Some (cols u)).
Proof.
  unfold joinOwner. intros H.
  destruct (filter _ us) as [|u0 ms] eqn:E.
  - left. destruct H as [<-|[]]. split; [reflexivity|].
    intros u Hu Heq.
    assert (Hin : In u (filter (fun u =>
              (Property.ownerId p =? User.id u)%string) us)).
    { apply filter_In. split; [exact Hu|]. apply String.eqb_eq. auto. }
    rewrite E in Hin. exact Hin.
  - right. apply in_map_iff in H as (u & <- & Hu).
    rewrite <- E in Hu. apply filter_In in Hu as [Hu Heq].
    apply String.eqb_eq in Heq. exists u. auto.
Qed.

Lemma map_spread_mapi imgs vs ps ws l i :
  map spread (mapi_from i (toAggregate imgs vs ps ws) l)
  = map (fun r => Some (fst r)) l.
Proof.
  revert i; induction l as [|[p o] l IH]; intros i; cbn; [reflexivity|].
  now rewrite IH.
Qed.

Lemma projected_owner (f : string) (u : User.t) :
  [ ("id", fieldOrEmpty (Some (colsOf f u)) "id");
    ("email", fieldOrEmpty (Some (colsOf f u)) "email");
    ("username", fieldOrEmpty (Some (colsOf f u)) "username");
    ("role", fieldOrEmpty (Some (colsOf f u)) "role") ]
  = publicOwner u.
Proof.
  unfold colsOf, publicOwner.
  destruct (f =? "active")%string; destruct u as [i [e|] n r l v c ca ua];
    reflexivity.
Qed.

(** C1, as amended: a filter value that is passed and is none of
    ["active"], ["sold_rented"], ["inactive"] selects with no condition on
    status or verification: the call returns, and the properties it returns
    are exactly the stored ones. *)
Theorem getProperties_other_filter_unfiltered (f : string)
    (userId : option string) (w : World) :
  f <> "active" -> f <> "sold_rented" -> f <> "inactive" ->
  exists r w',
    getProperties (Some f) userId w = (Ok r, w') /\
    forall p, In p (properties w) <-> In (Some p) (map spread r).
Proof.
  intros H1 H2 H3.
  destruct (getProperties_run (Some f) userId w)
    as (imgs & vs & ps & ws & w' & ->).
  eexists; eexists; split; [reflexivity|].
  intros p. unfold mapi. rewrite map_spread_mapi. cbn [orKeep].
  assert (Hw : forall q, whereOf f q = true).
  { intros q. unfold whereOf. apply String.eqb_neq in H1, H2, H3.
    now rewrite H1, H2, H3. }
  rewrite in_map_iff. split.
  - intros Hin.
    destruct (joinOwner_nonempty (colsOf f) (users w) p) as (r & Hr).
    exists r. split; [f_equal; eapply joinOwner_fst; eauto|].
    apply in_flat_map. exists p. split; auto. apply filter_In; auto.
  - intros (r & Heq & Hin). apply in_flat_map in Hin as (q & Hq & Hin).
    apply joinOwner_fst in Hin. apply filter_In in Hq as [Hq _]. congruence.
Qed.

(** C10: under every filter value, passed or not, the call returns, and
    the owner of each returned property is an object with exactly the keys
    id, email, username and role: the four columns of the owner's row (a
    null email as the empty string), or four empty strings when no user row
    has the property's ownerId.  No paypalCredentials, isEmailVerified or
    listingLimit key is there, although the ["active"] query selects the
    first two. *)
Theorem getProperties_owner_projection (filterParam userId : option string)
    (w : World) :
  exists r w',
    getProperties filterParam userId w = (Ok r, w') /\
    Forall (fun out =>
      exists p o,
        spread out = Some p /\ owner out = Some o /\
        keys o = ["id"; "email"; "username"; "role"] /\
        getField "paypalCredentials" o = None /\
        getField "isEmailVerified" o = None /\
        getField "listingLimit" o = None /\
        ((o = unknownOwner /\
          forall u, In u (users w) -> User.id u <> Property.ownerId p)
         \/ (exists u, In u (users w) /\ User.id u = Property.ownerId p
                        /\ o = publicOwner u))) r.
Proof.
  destruct (getProperties_run filterParam userId w)
    as (imgs & vs & ps & ws & w' & ->).
  eexists; eexists; split; [reflexivity|].
  apply Forall_forall.
  intros out Hin. apply in_mapi_from in Hin as ([p o] & j & Hin & ->).
  apply in_flat_map in Hin as (p' & _ & Hin).
  pose proof (joinOwner_fst _ _ _ _ Hin) as Hp; cbn in Hp; subst p'.
  exists p. eexists. split; [reflexivity|]. split; [reflexivity|].
  do 4 (split; [reflexivity|]).
  apply joinOwner_snd in Hin as [[Ho Hno]|(u & Hu & Hid & Ho)];
    cbn [snd] in Ho; subst o.
  - left. split; [reflexivity|exact Hno].
  - right. exists u. split; [exact Hu|]. split; [exact Hid|].
    unfold toAggregate. apply projected_owner.
Qed.

(** ** getProperty *)

Section Dedupe.
Context {R : Type} (key : R -> string).

Lemma pushUnique_cases (x : option R) (acc : list R) :
  (pushUnique key x acc = acc /\ (forall r, x = Some r -> exists y, In y acc /\ key y = key r))
  \/ (exists r, x = Some r /\ pushUnique key x acc = acc ++ [r] /\ ~ In (key r) (map key acc)).
Proof.
  unfold pushUnique. destruct x as [r|]; [|left; split; [reflexivity|discriminate]].
  destruct (existsb _ acc) eqn:E; cbn [negb].
  - left. split; [reflexivity|]. intros r' [= <-].
    apply existsb_exists in E as (y & Hy & Heq). apply String.eqb_eq in Heq. eauto.
  - right. exists r. split; [reflexivity|]. split; [reflexivity|].
    intros Hin. apply in_map_iff in Hin as (y & Heq & Hy).
    assert (existsb (fun y => (key y =? key r)%string) acc = true).
    { apply existsb_exists. exists y. split; auto. apply String.eqb_eq; auto. }
    congruence.
Qed.

Lemma dedupe_NoDup (xs : list (option R)) (acc : list R) :
  NoDup (map key acc) -> NoDup (map key (dedupe key xs acc)).
Proof.
  revert acc. induction xs as [|x xs IH]; intros acc H; cbn; [exact H|].
  apply IH. destruct (pushUnique_cases x acc) as [[-> _]|(r & _ & -> & Hn)]; [exact H|].
  rewrite map_app. cbn. apply NoDup_app; [exact H| repeat constructor; intros [] |].
  intros a Ha [<-|[]]. exact (Hn Ha).
Qed.

Lemma dedupe_keeps (xs : list (option R)) (acc : list R) (y : R) :
  In y acc -> In y (dedupe key xs acc).
Proof.
  revert acc. induction xs as [|x xs IH]; intros acc H; cbn; [exact H|].
  apply IH. destruct (pushUnique_cases x acc) as [[-> _]|(r & _ & -> & _)]; [exact H|].
  apply in_or_app; auto.
Qed.

Lemma dedupe_sound (xs : list (option R)) (acc : list R) (y : R) :
  In y (dedupe key xs acc) -> In y acc \/ In (Some y) xs.
Proof.
  revert acc. induction xs as [|x xs IH]; intros acc H; cbn in *; [auto|].
  apply IH in H as [H|H]; [|auto].
  destruct (pushUnique_cases x acc) as [[E _]|(r & -> & E & _)]; rewrite E in H; [auto|].
  apply in_app_or in H as [H|[<-|[]]]; auto.
Qed.

Lemma dedupe_complete (xs : list (option R)) (acc : list R) (r : R) :
  In (Some r) xs -> exists y, In y (dedupe key xs acc) /\ key y = key r.
Proof.
  revert acc. induction xs as [|x xs IH]; intros acc H; cbn in *; [tauto|].
  destruct H as [->|H]; [|apply IH; exact H].
  destruct (pushUnique_cases (Some r) acc) as [[E Hex]|(r' & [= <-] & E & _)]; rewrite E.
  - destruct (Hex r eq_refl) as (y & Hy & Hk). exists y. split; [apply dedupe_keeps; exact Hy|exact Hk].
  - exists r. split; [apply dedupe_keeps, in_or_app; right; left|]; reflexivity.
Qed.

Lemma NoDup_map_injective (l : list R) (x y : R) :
  NoDup (map key l) -> In x l -> In y l -> key x = key y -> x = y.
Proof.
  induction l as [|a l IH]; cbn; [tauto|].
  intros Hnd [->|Hx] [->|Hy] Hk; inversion Hnd; subst; auto.
  - exfalso. apply H1. rewrite Hk. apply in_map; exact Hy.
  - exfalso. apply H1. rewrite <- Hk. apply in_map; exact Hx.
Qed.

(** De-duplicating a sequence of rows drawn from a table whose keys are
    distinct leaves each row of the table that occurs in it once. *)
Lemma dedupe_permutation (xs : list (option R)) (table : list R) :
  NoDup (map key table) ->
  (forall r, In (Some r) xs <-> In r table) ->
  Permutation (dedupe key xs []) table.
Proof.
  intros Hnd Hiff. apply NoDup_Permutation.
  - apply NoDup_map_inv with (f := key). apply dedupe_NoDup. constructor.
  - apply NoDup_map_inv with (f := key). exact Hnd.
  - intros r. split.
    + intros H. apply dedupe_sound in H as [[]|H]. apply Hiff; exact H.
    + intros H. destruct (dedupe_complete xs [] r) as (y & Hy & Hk); [apply Hiff; exact H|].
      assert (y = r); [|subst; exact Hy].
      apply (NoDup_map_injective table); auto.
      apply dedupe_sound in Hy as [[]|Hy]. apply Hiff; exact Hy.
Qed.
End Dedupe.

Lemma matchesOrNull_Some {B} (ms : list B) (x : B) :
  In (Some x) (matchesOrNull ms) <-> In x ms.
Proof.
  unfold matchesOrNull. destruct ms as [|m ms].
  - cbn. split; [intros [H|[]]; discriminate H|tauto].
  - rewrite in_map_iff. split.
    + intros (y & [= ->] & H). exact H.
    + intros H. exists x. auto.
Qed.

Lemma matchesOrNull_inhabited {B} (ms : list B) : exists x, In x (matchesOrNull ms).
Proof. destruct ms; eexists; left; reflexivity. Qed.

Lemma filter_eqb_sym {R} (f : R -> string) (a : string) (l : list R) :
  filter (fun x => (a =? f x)%string) l = filter (fun x => (f x =? a)%string) l.
Proof. apply filter_ext. intros x. apply String.eqb_sym. Qed.

Lemma in_joinRows (propertyId : string) (userId : option string) (w : World) (r : JoinRow) :
  In r (joinRows propertyId userId w) ->
  In (r_property r) (properties w) /\ Property.id (r_property r) = propertyId /\
  In (r_image r) (matchesOrNull (imagesOf propertyId w)) /\
  In (r_view r) (matchesOrNull (viewsOf propertyId w)) /\
  In (r_pricing r) (matchesOrNull (pricingOf propertyId w)).
Proof.
  unfold joinRows. intros H.
  apply in_flat_map in H as (p & Hp & H). apply filter_In in Hp as [Hp Hid].
  apply String.eqb_eq in Hid.
  apply in_flat_map in H as (i & Hi & H).
  apply in_flat_map in H as (v & Hv & H).
  apply in_flat_map in H as (ph & Hph & H).
  apply in_map_iff in H as (o & <- & Ho). cbn.
  rewrite (filter_eqb_sym PropertyImage.propertyId) in Hi.
  rewrite (filter_eqb_sym PropertyView.propertyId) in Hv.
  rewrite (filter_eqb_sym PricingHistory.propertyId) in Hph.
  rewrite Hid in Hi, Hv, Hph. auto.
Qed.

Lemma joinRows_complete (propertyId : string) (userId : option string) (w : World)
    (p : Property.t) i v ph :
  In p (properties w) -> Property.id p = propertyId ->
  In i (matchesOrNull (imagesOf propertyId w)) ->
  In v (matchesOrNull (viewsOf propertyId w)) ->
  In ph (matchesOrNull (pricingOf propertyId w)) ->
  exists r, In r (joinRows propertyId userId w) /\
            r_property r = p /\ r_image r = i /\ r_view r = v /\ r_pricing r = ph.
Proof.
  intros Hp Hid Hi Hv Hph. unfold joinRows.
  destruct (matchesOrNull_inhabited (filter (fun u =>
    (Property.ownerId p =? User.id u)%string) (users w))) as (o & Ho).
  eexists. split.
  - apply in_flat_map. exists p. split.
    { apply filter_In. split; [exact Hp|]. apply String.eqb_eq; exact Hid. }
    apply in_flat_map. exists i. split.
    { rewrite (filter_eqb_sym PropertyImage.propertyId), Hid. exact Hi. }
    apply in_flat_map. exists v. split.
    { rewrite (filter_eqb_sym PropertyView.propertyId), Hid. exact Hv. }
    apply in_flat_map. exists ph. split.
    { rewrite (filter_eqb_sym PricingHistory.propertyId), Hid. exact Hph. }
    apply in_map_iff. exists o. split; [reflexivity|exact Ho].
  - cbn. auto.
Qed.

Lemma fold_foldRow (wished : bool) (rs : list JoinRow) (acc : PropertyWithRelations) :
  hasNoId acc = false ->
  fold_left (foldRow wished) rs acc =
  {| spread := spread acc;
     images := dedupe PropertyImage.id (map r_image rs) (images acc);
     views := dedupe PropertyView.id (map r_view rs) (views acc);
     pricingHistoryOf := dedupe PricingHistory.id (map r_pricing rs) (pricingHistoryOf acc);
     owner := owner acc;
     isWished := isWished acc |}.
Proof.
  revert acc. induction rs as [|r rs IH]; intros acc H; cbn [fold_left map dedupe].
  - destruct acc; reflexivity.
  - unfold foldRow at 2. rewrite H. rewrite IH; [reflexivity|].
    unfold hasNoId in *. exact H.
Qed.

Lemma joinRows_set_trace propertyId userId t w :
  joinRows propertyId userId (set_trace t w) = joinRows propertyId userId w.
Proof. reflexivity. Qed.

Lemma fold_joinRows (wished : bool) (rs : list JoinRow) :
  rs <> [] ->
  (forall r, In r rs -> truthyStr (Property.id (r_property r)) = true) ->
  let agg := fold_left (foldRow wished) rs emptyObject in
  images agg = dedupe PropertyImage.id (map r_image rs) [] /\
  views agg = dedupe PropertyView.id (map r_view rs) [] /\
  pricingHistoryOf agg = dedupe PricingHistory.id (map r_pricing rs) [] /\
  isWished agg = wished.
Proof.
  destruct rs as [|r rs]; [congruence|]. intros _ Hid. cbn [fold_left].
  rewrite fold_foldRow.
  - cbn. auto.
  - unfold foldRow, hasNoId. cbn. rewrite Hid; [reflexivity|left; reflexivity].
Qed.

Lemma joinRows_children (propertyId : string) (userId : option string) (w : World) :
  (exists p, In p (properties w) /\ Property.id p = propertyId) ->
  (forall x, In (Some x) (map r_image (joinRows propertyId userId w))
             <-> In x (imagesOf propertyId w)) /\
  (forall x, In (Some x) (map r_view (joinRows propertyId userId w))
             <-> In x (viewsOf propertyId w)) /\
  (forall x, In (Some x) (map r_pricing (joinRows propertyId userId w))
             <-> In x (pricingOf propertyId w)).
Proof.
  intros (p & Hp & Hid).
  destruct (matchesOrNull_inhabited (imagesOf propertyId w)) as (i0 & Hi0).
  destruct (matchesOrNull_inhabited (viewsOf propertyId w)) as (v0 & Hv0).
  destruct (matchesOrNull_inhabited (pricingOf propertyId w)) as (h0 & Hh0).
  repeat split.
  - intros H. apply in_map_iff in H as (r & Hr & H). apply in_joinRows in H.
    apply matchesOrNull_Some. rewrite <- Hr.
    destruct H as (_ & _ & Ji & Jv & Jh); assumption.
  - intros H. apply matchesOrNull_Some in H.
    destruct (joinRows_complete propertyId userId w p _ _ _ Hp Hid H Hv0 Hh0)
      as (r & Hr & _ & <- & _). apply in_map; exact Hr.
  - intros H. apply in_map_iff in H as (r & Hr & H). apply in_joinRows in H.
    apply matchesOrNull_Some. rewrite <- Hr.
    destruct H as (_ & _ & Ji & Jv & Jh); assumption.
  - intros H. apply matchesOrNull_Some in H.
    destruct (joinRows_complete propertyId userId w p _ _ _ Hp Hid Hi0 H Hh0)
      as (r & Hr & _ & _ & <- & _). apply in_map; exact Hr.
  - intros H. apply in_map_iff in H as (r & Hr & H). apply in_joinRows in H.
    apply matchesOrNull_Some. rewrite <- Hr.
    destruct H as (_ & _ & Ji & Jv & Jh); assumption.
  - intros H. apply matchesOrNull_Some in H.
    destruct (joinRows_complete propertyId userId w p _ _ _ Hp Hid Hi0 Hv0 H)
      as (r & Hr & _ & _ & _ & <-). apply in_map; exact Hr.
Qed.

(** C8: for a property that exists (under a key of the store, which is not
    the empty string) and whose image, view and pricing-history rows have
    distinct ids, [getProperty] returns an aggregate whose images, views and
    pricing history are, up to order, exactly those rows: N, M and P
    entries, each id once, however many rows the join produced. *)
Theorem getProperty_deduplicates (propertyId : string)
    (userId : option string) (w : World) :
  truthyStr propertyId = true ->
  (exists p, In p (properties w) /\ Property.id p = propertyId) ->
  NoDup (map PropertyImage.id (imagesOf propertyId w)) ->
  NoDup (map PropertyView.id (viewsOf propertyId w)) ->
  NoDup (map PricingHistory.id (pricingOf propertyId w)) ->
  exists agg w',
    getProperty propertyId userId w = (Ok agg, w') /\
    Permutation (images agg) (imagesOf propertyId w) /\
    Permutation (views agg) (viewsOf propertyId w) /\
    Permutation (pricingHistoryOf agg) (pricingOf propertyId w) /\
    List.length (images agg) = List.length (imagesOf propertyId w) /\
    List.length (views agg) = List.length (viewsOf propertyId w) /\
    List.length (pricingHistoryOf agg) = List.length (pricingOf propertyId w) /\
    NoDup (map PropertyImage.id (images agg)) /\
    NoDup (map PropertyView.id (views agg)) /\
    NoDup (map PricingHistory.id (pricingHistoryOf agg)).
Proof.
  intros Hid Hex Hi Hv Hh.
  pose proof (joinRows_children propertyId userId w Hex) as (Ci & Cv & Ch).
  assert (Hne : joinRows propertyId userId w <> []).
  { destruct Hex as (p & Hp & Hpid).
    destruct (matchesOrNull_inhabited (imagesOf propertyId w)) as (i0 & Hi0).
    destruct (matchesOrNull_inhabited (viewsOf propertyId w)) as (v0 & Hv0).
    destruct (matchesOrNull_inhabited (pricingOf propertyId w)) as (h0 & Hh0).
    destruct (joinRows_complete propertyId userId w p _ _ _ Hp Hpid Hi0 Hv0 Hh0)
      as (r & Hr & _). intros E. rewrite E in Hr. exact Hr. }
  unfold getProperty, bind, emit, modify, gets. rewrite joinRows_set_trace.
  destruct (joinRows propertyId userId w) as [|r0 rs] eqn:E; [congruence|].
  cbn [List.length Nat.eqb].
  match goal with |- context [isPropertyWished ?a ?b ?w0] =>
    destruct (isPropertyWished_total a b w0) as (wished & w' & ->) end.
  destruct (fold_joinRows wished (r0 :: rs)) as (Ei & Ev & Eh & _).
  { discriminate. }
  { intros r Hr. rewrite <- E in Hr. apply in_joinRows in Hr as (_ & -> & _). exact Hid. }
  eexists; eexists. split; [reflexivity|]. 
  cbv zeta in Ei, Ev, Eh. rewrite Ei, Ev, Eh.
  assert (Pi := dedupe_permutation PropertyImage.id _ _ Hi Ci).
  assert (Pv := dedupe_permutation PropertyView.id _ _ Hv Cv).
  assert (Ph := dedupe_permutation PricingHistory.id _ _ Hh Ch).
  repeat split; auto using Permutation_length;
    apply dedupe_NoDup; constructor.
Qed.

(** ** updateProperty, deleteProperty, verifyProperty, addNewProperty *)

Lemma set_trace_same (w : World) : set_trace (trace w) w = w.
Proof. destruct w; reflexivity. Qed.

Lemma mapM_cons_ok {A B} (f : A -> M B) x xs w y w1 ys w2 :
  f x w = (Ok y, w1) -> mapM f xs w1 = (Ok ys, w2) ->
  mapM f (x :: xs) w = (Ok (y :: ys), w2).
Proof. intros H1 H2. cbn [mapM]. unfold bind. rewrite H1, H2. reflexivity. Qed.

Lemma mapM_startNotification (d : PropertyDetails) (us : list User.t) (w : World) :
  mapM (startNotification d) us w =
  (Ok (map (promiseOf d) us),
   set_trace (trace w ++ map (fun e => Dispatch e d) (flat_map recipient us)) w).
Proof.
  revert w. induction us as [|u us IH]; intros w.
  - cbn. rewrite app_nil_r, set_trace_same. reflexivity.
  - cbn [map flat_map]. unfold recipient at 1, promiseOf at 1.
    destruct (User.email u) as [e|] eqn:E; [destruct (truthyStr e) eqn:T|].
    + erewrite mapM_cons_ok;
        [|unfold startNotification; rewrite E, T; reflexivity|apply IH].
      cbn. rewrite <- app_assoc. reflexivity.
    + erewrite mapM_cons_ok;
        [|unfold startNotification; rewrite E, T; reflexivity|apply IH].
      reflexivity.
    + erewrite mapM_cons_ok;
        [|unfold startNotification; rewrite E; reflexivity|apply IH].
      reflexivity.
Qed.

Lemma firstRejection_promises (d : PropertyDetails) (us : list User.t) :
  firstRejection (map (promiseOf d) us)
  = firstRejection (map (fun e => sendPriceChangeNotification e d) (flat_map recipient us)).
Proof.
  induction us as [|u us IH]; [reflexivity|].
  cbn [map flat_map]. unfold recipient at 1, promiseOf at 1.
  destruct (User.email u) as [e|]; [destruct (truthyStr e)|]; cbn;
    rewrite ?IH; try reflexivity.
Qed.

Lemma notifyPriceChange_run (propertyId : string) (existing : Property.t) (price : Z) (w : World) :
  let d := priceDetails existing price in
  let emails := flat_map recipient (wishlisters propertyId w) in
  notifyPriceChange propertyId existing price w =
  (match firstRejection (map (fun e => sendPriceChangeNotification e d) emails) with
   | Some err => Throw err
   | None => Ok tt
   end,
   set_trace (trace w ++ [Select TWishlist; Select TUsers]
                      ++ map (fun e => Dispatch e d) emails) w).
Proof.
  cbv zeta. unfold notifyPriceChange, bind. rewrite !selectFrom_run.
  cbn [rows wishlistT usersT set_trace wishlist users tname trace].
  fold (wishlisters propertyId w).
  destruct (wishlisters propertyId w) as [|u us] eqn:E.
  - cbn. rewrite <- app_assoc. reflexivity.
  - cbn [List.length Nat.ltb Nat.leb]. fold (priceDetails existing price).
    rewrite mapM_startNotification. unfold awaitAll. rewrite firstRejection_promises.
    cbn [set_trace trace]. rewrite <- !app_assoc. cbn [app].
    destruct (firstRejection _); reflexivity.
Qed.

Lemma notify_step (propertyId : string) (existing : Property.t)
    (input : UpdatePropertyInput) (w : World) :
  match u_price input with
  | Some price =>
      if negb (Property.price existing =? price)
      then notifyPriceChange propertyId existing price
      else ret tt
  | None => ret tt
  end w =
  (match dispatchOutcome propertyId existing input w with
   | Some err => Throw err
   | None => Ok tt
   end,
   set_trace (trace w ++ notifyEvents propertyId existing input w) w).
Proof.
  unfold dispatchOutcome, notifyEvents.
  destruct (u_price input) as [price|].
  - destruct (negb (Property.price existing =? price)).
    + apply notifyPriceChange_run.
    + cbn. rewrite app_nil_r, set_trace_same. reflexivity.
  - cbn. rewrite app_nil_r, set_trace_same. reflexivity.
Qed.

Lemma filter_negb_filter {A} (p : A -> bool) (l : list A) :
  filter (fun x => negb (p x)) (filter (fun x => negb (p x)) l)
  = filter (fun x => negb (p x)) l.
Proof.
  induction l as [|a l IH]; cbn; [reflexivity|].
  destruct (p a) eqn:E; cbn; rewrite ?E; cbn; now rewrite IH.
Qed.

Lemma keyed_newImageRow_gone (propertyId : string) (k : nat) (imgs : list ImageInput) :
  filter (fun r => negb (PropertyImage.propertyId r =? propertyId)%string)
    (keyed k (map (newImageRow propertyId) imgs)) = [].
Proof.
  revert k. induction imgs as [|i imgs IH]; intros k; cbn; [reflexivity|].
  rewrite String.eqb_refl. cbn. apply IH.
Qed.

Lemma replaceImages_run (propertyId : string) (supplied : list ImageInput) (w : World) :
  exists k n evs,
    replaceImages propertyId supplied w =
      (Ok (match supplied with
           | [] => imagesOf propertyId w
           | _ => keyed k (map (newImageRow propertyId) supplied)
           end),
       set_propertyImages
         (filter (fun r => negb (PropertyImage.propertyId r =? propertyId)%string)
            (propertyImages w)
          ++ keyed k (map (newImageRow propertyId) supplied))
         (set_nextKey n (set_trace (trace w ++ evs) w))) /\
    forallb isStatement evs = true.
Proof.
  unfold replaceImages. unfold bind at 1. rewrite selectFrom_run.
  cbn [rows propertyImagesT set_trace propertyImages tname].
  fold (imagesOf propertyId w).
  destruct supplied as [|s0 supplied].
  - exists 0%nat, (nextKey w), [Select TPropertyImages; Delete TPropertyImages].
    split; [|reflexivity]. cbn. rewrite app_nil_r, <- app_assoc. reflexivity.
  - match goal with |- context [filter ?f (s0 :: supplied)] =>
      destruct (filter f (s0 :: supplied)) as [|n0 ns] end.
    + eexists; eexists;
        exists [Select TPropertyImages; Delete TPropertyImages;
                Insert TPropertyImages].
      split; [|reflexivity]. cbn. rewrite <- !app_assoc. reflexivity.
    + eexists; eexists;
        exists [Select TPropertyImages; Delete TPropertyImages;
                Insert TPropertyImages; Delete TPropertyImages;
                Insert TPropertyImages].
      split; [|reflexivity]. cbn. rewrite <- !app_assoc.
      rewrite filter_app, filter_negb_filter.
      pose proof (keyed_newImageRow_gone propertyId (nextKey w) (n0 :: ns))
        as G.
      cbn [keyed map] in G. rewrite G, app_nil_r. reflexivity.
Qed.

Lemma appendPricingHistory_run (propertyId : string) (existing : Property.t)
    (input : UpdatePropertyInput) (w : World) :
  appendPricingHistory propertyId existing input w =
  if isSome (u_price input) || isSome (u_currency input) then
    (Ok [historyRow propertyId existing input (now w) (genId (nextKey w))],
     set_pricingHistory
       (pricingHistory w
        ++ [historyRow propertyId existing input (now w) (genId (nextKey w))])
       (set_nextKey (nextKey w + 1)
          (set_trace (trace w ++ [Insert TPricingHistory]) w)))
  else (Ok [], w).
Proof.
  unfold appendPricingHistory.
  destruct (isSome (u_price input) || isSome (u_currency input)); reflexivity.
Qed.

Lemma updateProperty_run (propertyId : string) (input : UpdatePropertyInput)
    (w : World) (existing : Property.t) (rest : list Property.t) :
  filter (fun p => (Property.id p =? propertyId)%string) (properties w)
    = existing :: rest ->
  dispatchOutcome propertyId existing input w = None ->
  exists agg w' ki kp evs,
    updateProperty propertyId input w = (Ok agg, w') /\
    properties w' = updatedRows (buildUpdateData input (now w)) propertyId (properties w) /\
    propertyImages w' =
      match u_images input with
      | Some supplied =>
          filter (fun r => negb (PropertyImage.propertyId r =? propertyId)%string)
            (propertyImages w)
          ++ keyed ki (map (newImageRow propertyId) supplied)
      | None => propertyImages w
      end /\
    pricingHistory w' =
      (if isSome (u_price input) || isSome (u_currency input)
       then pricingHistory w ++ [historyRow propertyId existing input (now w) (genId kp)]
       else pricingHistory w) /\
    users w' = users w /\
    propertyViews w' = propertyViews w /\
    trace w' = trace w ++ [Select TProperties]
               ++ notifyEvents propertyId existing input w ++ evs /\
    forallb isStatement evs = true /\
    spread agg = Some (applyUpdate (buildUpdateData input (now w)) existing) /\
    images agg =
      match u_images input with
      | Some (s :: l) => keyed ki (map (newImageRow propertyId) (s :: l))
      | _ => imagesOf propertyId w
      end /\
    views agg = viewsOf propertyId w /\
    pricingHistoryOf agg = pricingOf propertyId w' /\
    owner agg = option_map userRow
                  (hd_error (filter (fun u => (User.id u =? Property.ownerId existing)%string) (users w))) /\
    isWished agg = false.
Proof.
  intros Hex Hsend.
  unfold updateProperty. unfold bind at 1. rewrite selectFrom_run.
  cbn [rows propertiesT set_trace properties tname]. rewrite Hex. cbn [firstn].
  unfold bind at 1. rewrite notify_step.
  change (dispatchOutcome propertyId existing input (set_trace ?t w))
    with (dispatchOutcome propertyId existing input w).
  change (notifyEvents propertyId existing input (set_trace ?t w))
    with (notifyEvents propertyId existing input w).
  rewrite Hsend. cbn [set_trace trace].
  unfold bind at 1, newDate, gets. cbn [now].
  unfold bind at 1. unfold updateWhere at 1, bind at 1, emit, modify, gets, ret.
  cbn [bind rows setRows propertiesT set_trace properties tname set_properties trace].
  match goal with |- context [bind _ _ ?W] => set (W0 := W) end.
  destruct (u_images input) as [supplied|].
  - unfold bind at 1.
    destruct (replaceImages_run propertyId supplied W0)
      as (ki & n1 & evs1 & -> & Hst1).
    unfold bind at 1. rewrite appendPricingHistory_run.
    destruct (isSome (u_price input) || isSome (u_currency input)).
    + unfold bind. rewrite !selectFrom_run.
      cbn -[filter hd_error keyed String.eqb].
      eexists; eexists; exists ki, n1; eexists.
      split; [reflexivity|]. cbn -[filter hd_error keyed String.eqb].
      split; [reflexivity|]. split; [reflexivity|]. split; [reflexivity|].
      split; [reflexivity|]. split; [reflexivity|].
      split; [rewrite <- !app_assoc; reflexivity|].
      split; [cbn; rewrite forallb_app, Hst1; reflexivity|].
      split; [rewrite Hex; reflexivity|].
      split; [destruct supplied; reflexivity|].
      repeat split; reflexivity.
    + unfold bind. rewrite !selectFrom_run.
      cbn -[filter hd_error keyed String.eqb].
      eexists; eexists; exists ki, 0%nat; eexists.
      split; [reflexivity|]. cbn -[filter hd_error keyed String.eqb].
      split; [reflexivity|]. split; [reflexivity|]. split; [reflexivity|].
      split; [reflexivity|]. split; [reflexivity|].
      split; [rewrite <- !app_assoc; reflexivity|].
      split; [cbn; rewrite forallb_app, Hst1; reflexivity|].
      split; [rewrite Hex; reflexivity|].
      split; [destruct supplied; reflexivity|].
      repeat split; reflexivity.
  - unfold bind at 1. cbn [ret].
    unfold bind at 1. rewrite appendPricingHistory_run.
    destruct (isSome (u_price input) || isSome (u_currency input)).
    + unfold bind. rewrite !selectFrom_run.
      cbn -[filter hd_error keyed String.eqb].
      eexists; eexists; exists 0%nat, (nextKey w); eexists.
      split; [reflexivity|]. cbn -[filter hd_error keyed String.eqb].
      split; [reflexivity|]. split; [reflexivity|]. split; [reflexivity|].
      split; [reflexivity|]. split; [reflexivity|].
      split; [rewrite <- !app_assoc; reflexivity|].
      split; [reflexivity|].
      split; [rewrite Hex; reflexivity|].
      repeat split; reflexivity.
    + unfold bind. rewrite !selectFrom_run.
      cbn -[filter hd_error keyed String.eqb].
      eexists; eexists; exists 0%nat, 0%nat; eexists.
      split; [reflexivity|]. cbn -[filter hd_error keyed String.eqb].
      split; [reflexivity|]. split; [reflexivity|]. split; [reflexivity|].
      split; [reflexivity|]. split; [reflexivity|].
      split; [rewrite <- !app_assoc; reflexivity|].
      split; [reflexivity|].
      split; [rewrite Hex; reflexivity|].
      repeat split; reflexivity.
Qed.

Lemma updateProperty_dispatch_failure (propertyId : string)
    (input : UpdatePropertyInput) (w : World) (existing : Property.t)
    (rest : list Property.t) (err : JsError) :
  filter (fun p => (Property.id p =? propertyId)%string) (properties w)
    = existing :: rest ->
  dispatchOutcome propertyId existing input w = Some err ->
  updateProperty propertyId input w =
    (Throw err,
     set_trace (trace w ++ [Select TProperties]
                ++ notifyEvents propertyId existing input w) w).
Proof.
  intros Hex Hsend.
  unfold updateProperty. unfold bind at 1. rewrite selectFrom_run.
  cbn [rows propertiesT set_trace properties tname]. rewrite Hex. cbn [firstn].
  unfold bind at 1. rewrite notify_step.
  change (dispatchOutcome propertyId existing input (set_trace ?t w))
    with (dispatchOutcome propertyId existing input w).
  change (notifyEvents propertyId existing input (set_trace ?t w))
    with (notifyEvents propertyId existing input w).
  rewrite Hsend. cbn [set_trace trace]. rewrite <- app_assoc. reflexivity.
Qed.

Lemma in_wishlisters (propertyId : string) (w : World) (u : User.t) :
  In u (wishlisters propertyId w) <->
  In u (users w) /\
  exists x, In x (wishlist w) /\ Wishlist.propertyId x = propertyId
            /\ Wishlist.userId x = User.id u.
Proof.
  unfold wishlisters, inArray. rewrite filter_In, existsb_exists. split.
  - intros (Hu & uid & Hin & Heq). split; [exact Hu|].
    apply in_map_iff in Hin as (x & <- & Hx). apply filter_In in Hx as [Hx Hp].
    apply String.eqb_eq in Hp, Heq. exists x. auto.
  - intros (Hu & x & Hx & Hp & Hid). split; [exact Hu|].
    exists (Wishlist.userId x). split.
    + apply in_map, filter_In. split; [exact Hx|]. apply String.eqb_eq; exact Hp.
    + apply String.eqb_eq. auto.
Qed.

Lemma filter_filter_negb {A} (p : A -> bool) (l : list A) :
  filter p (filter (fun x => negb (p x)) l) = [].
Proof.
  induction l as [|a l IH]; cbn; [reflexivity|].
  destruct (p a) eqn:E; cbn; rewrite ?E; exact IH.
Qed.

Lemma keyed_newImageRow_kept (propertyId : string) (k : nat) (imgs : list ImageInput) :
  filter (fun r => (PropertyImage.propertyId r =? propertyId)%string)
    (keyed k (map (newImageRow propertyId) imgs))
  = keyed k (map (newImageRow propertyId) imgs).
Proof.
  revert k. induction imgs as [|i imgs IH]; intros k; cbn; [reflexivity|].
  rewrite String.eqb_refl. f_equal. apply IH.
Qed.

(** What a returning [updateProperty] hands back, against the store it
    leaves: the views, the pricing history and the owner row are the stored
    ones and [isWished] is false; so are the images, unless the supplied
    list is empty, when the returned images are the rows the call has just
    deleted. *)
Lemma updateProperty_returned_relations (propertyId : string)
    (input : UpdatePropertyInput) (w : World) (existing : Property.t)
    (rest : list Property.t) :
  filter (fun p => (Property.id p =? propertyId)%string) (properties w)
    = existing :: rest ->
  dispatchOutcome propertyId existing input w = None ->
  exists agg w',
    updateProperty propertyId input w = (Ok agg, w') /\
    views agg = viewsOf propertyId w' /\
    pricingHistoryOf agg = pricingOf propertyId w' /\
    owner agg =
      option_map userRow
        (hd_error (filter (fun u =>
           (User.id u =? Property.ownerId existing)%string) (users w'))) /\
    isWished agg = false /\
    match u_images input with
    | Some [] => images agg = imagesOf propertyId w
                 /\ imagesOf propertyId w' = []
    | _ => images agg = imagesOf propertyId w'
    end.
Proof.
  intros Hex Hsend.
  destruct (updateProperty_run _ input _ _ _ Hex Hsend)
    as (agg & w' & ki & kp & evs & Hrun & _ & Hi & _ & Hu & Hv & _ & _ & _
        & Ha & Hvs & Hp & Ho & Hw).
  exists agg, w'. split; [exact Hrun|].
  split; [unfold viewsOf; rewrite Hv; exact Hvs|].
  split; [exact Hp|]. split; [rewrite Hu; exact Ho|]. split; [exact Hw|].
  assert (E : forall supplied,
    propertyImages w' =
      filter (fun r => negb (PropertyImage.propertyId r =? propertyId)%string)
        (propertyImages w) ++ keyed ki (map (newImageRow propertyId) supplied) ->
    imagesOf propertyId w' = keyed ki (map (newImageRow propertyId) supplied)).
  { intros supplied E. unfold imagesOf.
    rewrite E, filter_app, filter_filter_negb. apply keyed_newImageRow_kept. }
  destruct (u_images input) as [[|s l]|].
  - split; [exact Ha|]. apply (E [] Hi).
  - rewrite Ha. symmetry. apply (E _ Hi).
  - rewrite Ha. unfold imagesOf. rewrite Hi. reflexivity.
Qed.

(** C2, as amended: when the property exists and a price is supplied that
    differs from the stored one, a notification carrying the title, the
    address (or "N/A"), the old and the new price is started for every user
    row on the property's wishlist that has a non-empty e-mail, all of them
    before any is awaited, and nothing else is dispatched.  When every
    dispatch resolves, the update goes on and returns; when one rejects,
    [updateProperty] fails with that rejection and has written nothing. *)
Theorem updateProperty_price_change_notifies (propertyId : string)
    (input : UpdatePropertyInput) (w : World) (existing : Property.t)
    (rest : list Property.t) (price : Z) :
  filter (fun p => (Property.id p =? propertyId)%string) (properties w)
    = existing :: rest ->
  u_price input = Some price ->
  price <> Property.price existing ->
  exists res w' evs,
    updateProperty propertyId input w = (res, w') /\
    trace w' =
      trace w ++ [Select TProperties; Select TWishlist; Select TUsers]
      ++ map (fun e => Dispatch e
                {| name := Property.title existing;
                   detailsAddress := orStr (Property.address existing) "N/A";
                   oldPrice := Property.price existing;
                   newPrice := price |})
           (flat_map recipient (wishlisters propertyId w))
      ++ evs /\
    forallb isStatement evs = true /\
    match firstRejection
            (map (fun e => sendPriceChangeNotification e (priceDetails existing price))
               (flat_map recipient (wishlisters propertyId w))) with
    | None => exists agg, res = Ok agg
    | Some err =>
        res = Throw err /\ evs = [] /\ w' = set_trace (trace w') w
    end.
Proof.
  intros Hex Hp Hne.
  assert (Hneq : negb (Property.price existing =? price) = true).
  { apply negb_true_iff, Z.eqb_neq. congruence. }
  assert (Hev : notifyEvents propertyId existing input w =
                [Select TWishlist; Select TUsers] ++
                map (fun e => Dispatch e (priceDetails existing price))
                  (flat_map recipient (wishlisters propertyId w))).
  { unfold notifyEvents. rewrite Hp, Hneq. reflexivity. }
  assert (Hout : dispatchOutcome propertyId existing input w =
                 firstRejection
                   (map (fun e => sendPriceChangeNotification e (priceDetails existing price))
                      (flat_map recipient (wishlisters propertyId w)))).
  { unfold dispatchOutcome. rewrite Hp, Hneq. reflexivity. }
  destruct (dispatchOutcome propertyId existing input w) as [err|] eqn:E.
  - rewrite <- Hout.
    exists (Throw err). eexists. exists [].
    split; [apply (updateProperty_dispatch_failure _ _ _ _ _ _ Hex E)|].
    cbn [trace set_trace]. rewrite Hev. rewrite app_nil_r.
    split; [reflexivity|]. split; [reflexivity|]. 
    split; [reflexivity|]. split; reflexivity.
  - rewrite <- Hout.
    destruct (updateProperty_run _ input _ _ _ Hex E)
      as (agg & w' & ki & kp & evs & Hrun & _ & _ & _ & _ & _ & Htr & Hst & _).
    exists (Ok agg), w', evs. split; [exact Hrun|].
    rewrite Htr, Hev. split; [rewrite <- !app_assoc; reflexivity|].
    split; [exact Hst|]. exists agg; reflexivity.
Qed.

Lemma keyed_newImageRow_content (propertyId : string) (k : nat) (imgs : list ImageInput) :
  map (fun r => (PropertyImage.imageUrl r, PropertyImage.isPrimary r))
    (keyed k (map (newImageRow propertyId) imgs))
  = map (fun i => (in_imageUrl i, in_isPrimary i)) imgs.
Proof.
  revert k. induction imgs as [|i imgs IH]; intros k; cbn; [reflexivity|].
  f_equal. apply IH.
Qed.

(** C7, as amended: an [updateProperty] call that is given an image list
    and returns (the property is stored and no notification is rejected)
    leaves, as the image rows of the property, exactly one new row per
    supplied image, in order and with its url and primary flag; every row
    the property had before is gone and the rows of other properties are
    untouched. *)
Theorem updateProperty_replaces_images (propertyId : string)
    (input : UpdatePropertyInput) (w : World) (existing : Property.t)
    (rest : list Property.t) (supplied : list ImageInput) :
  filter (fun p => (Property.id p =? propertyId)%string) (properties w)
    = existing :: rest ->
  dispatchOutcome propertyId existing input w = None ->
  u_images input = Some supplied ->
  exists agg w' k,
    updateProperty propertyId input w = (Ok agg, w') /\
    propertyImages w' =
      filter (fun r => negb (PropertyImage.propertyId r =? propertyId)%string)
        (propertyImages w)
      ++ keyed k (map (newImageRow propertyId) supplied) /\
    imagesOf propertyId w' = keyed k (map (newImageRow propertyId) supplied) /\
    map (fun r => (PropertyImage.imageUrl r, PropertyImage.isPrimary r))
      (imagesOf propertyId w')
    = map (fun i => (in_imageUrl i, in_isPrimary i)) supplied.
Proof.
  intros Hex Hsend Him.
  destruct (updateProperty_run _ input _ _ _ Hex Hsend)
    as (agg & w' & ki & kp & evs & Hrun & _ & Hi & _).
  rewrite Him in Hi. exists agg, w', ki. split; [exact Hrun|].
  split; [exact Hi|].
  assert (E : imagesOf propertyId w' =
              keyed ki (map (newImageRow propertyId) supplied)).
  { unfold imagesOf. rewrite Hi, filter_app, filter_filter_negb.
    apply keyed_newImageRow_kept. }
  split; [exact E|]. rewrite E. apply keyed_newImageRow_content.
Qed.


Lemma filter_head {A} (p : A -> bool) (l : list A) (x : A) :
  find p l = Some x -> exists rest, filter p l = x :: rest.
Proof.
  induction l as [|a l IH]; cbn; [discriminate|].
  destruct (p a); [intros [= ->]; eauto|auto].
Qed.

Lemma filter_none {A} (p : A -> bool) (l : list A) :
  (forall x, In x l -> p x = false) -> filter p l = [].
Proof.
  induction l as [|a l IH]; cbn; intros H; [reflexivity|].
  rewrite (H a (or_introl eq_refl)). apply IH. intros x Hx. apply H. right; exact Hx.
Qed.

Lemma map_untouched {A} (p : A -> bool) (f : A -> A) (l : list A) :
  (forall x, In x l -> p x = false) ->
  map (fun r => if p r then f r else r) l = l.
Proof.
  induction l as [|a l IH]; cbn; intros H; [reflexivity|].
  rewrite (H a (or_introl eq_refl)). f_equal. apply IH. intros x Hx. apply H. right; exact Hx.
Qed.

Lemma absent_eqb propertyId w :
  absent propertyId w ->
  forall p, In p (properties w) -> (Property.id p =? propertyId)%string = false.
Proof. intros H p Hp. apply String.eqb_neq. apply H; exact Hp. Qed.

(** C3: for an id no stored property has, [deleteProperty] issues its one
    read and no delete statement, and the store is as it was; but the error
    it throws is the NotFound error caught by the function's own [catch]
    and wrapped again: "Failed to delete property: Property with ID .. not
    found", not the NotFound error itself. *)
Theorem deleteProperty_missing_id_is_wrapped (propertyId : string) (w : World) :
  absent propertyId w ->
  deleteProperty propertyId w =
    (Throw (Error ("Failed to delete property: " +++ messageOf (notFound propertyId))),
     set_trace (trace w ++ [Select TProperties]) w)
  /\ Error ("Failed to delete property: " +++ messageOf (notFound propertyId))
     <> notFound propertyId.
Proof.
  intros Habs. split.
  - unfold deleteProperty, tryCatch, bind. rewrite selectFrom_run.
    cbn [rows propertiesT set_trace properties tname].
    rewrite (filter_none _ _ (absent_eqb _ _ Habs)). reflexivity.
  - unfold notFound. cbn. discriminate.
Qed.

(** C9: for an id no stored property has, [verifyProperty] throws a
    [TypeError] (reading [id] of the absent updated row) after three
    statements, an update that matches nothing and the reads of the pricing
    history and of the images: no conversation is read, no message is
    inserted or updated, the session registry is not touched, the store is
    as it was.  The error is not the NotFound error. *)
Theorem verifyProperty_missing_id (id : string) (w : World) :
  absent id w ->
  verifyProperty id w =
    (Throw (TypeError "Cannot read properties of undefined (reading 'id')"),
     set_trace (trace w ++ [Update TProperties; Select TPricingHistory;
                            Select TPropertyImages]) w)
  /\ TypeError "Cannot read properties of undefined (reading 'id')"
     <> notFound id.
Proof.
  intros Habs. split; [|discriminate].
  unfold verifyProperty. unfold bind at 1.
  unfold updateWhere, bind, emit, modify, gets, ret.
  cbn [rows setRows propertiesT set_trace properties tname set_properties trace].
  rewrite (filter_none _ _ (absent_eqb _ _ Habs)).
  rewrite (map_untouched _ _ _ (absent_eqb _ _ Habs)).
  cbn. rewrite <- !app_assoc. cbn [app]. destruct w; reflexivity.
Qed.

(** C6: for an owner with role "private_seller", a listing limit that is
    not null and at most 0 makes [addNewProperty] fail with "Listings limit
    reached" after its single read of the user, with nothing written; a
    listing limit of 3 lets it succeed and leaves the owner's limit at 2. *)
Theorem addNewProperty_quota (input : CreatePropertyInput) (w : World) (u : User.t) :
  find (fun u => (User.id u =? c_ownerId input)%string) (users w) = Some u ->
  User.role u = "private_seller" ->
  (forall l, User.listingLimit u = Some l -> l <= 0 ->
     addNewProperty input w =
       (Throw (Error "Listings limit reached"),
        set_trace (trace w ++ [Select TUsers]) w))
  /\
  (User.listingLimit u = Some 3 ->
     exists r w',
       addNewProperty input w = (Ok r, w') /\
       find (fun u => (User.id u =? c_ownerId input)%string) (users w')
         = Some (setListingLimit (Some 2) u) /\
       forall u', In u' (users w') -> User.id u' = c_ownerId input ->
                  User.listingLimit u' = Some 2).
Proof.
  intros Hf Hr.
  pose proof Hf as Hfind.
  apply filter_head in Hf as (rest & Hf). split.
  - intros l Hl Hle.
    unfold addNewProperty. unfold bind at 1. rewrite selectFrom_run.
    cbn [rows usersT set_trace users tname]. rewrite Hf. cbn [firstn]. rewrite Hr, Hl.
    apply Z.leb_le in Hle. rewrite Hle. reflexivity.
  - intros Hl.
    assert (Husers : exists r w', addNewProperty input w = (Ok r, w') /\
       users w' = map (fun r => if (User.id r =? c_ownerId input)%string then setListingLimit (Some 2) r else r) (users w)).
    { unfold addNewProperty. unfold bind at 1. rewrite selectFrom_run.
      cbn [rows usersT set_trace users tname]. rewrite Hf. cbn [firstn]. rewrite Hr, Hl.
      cbn [String.eqb Ascii.eqb Bool.eqb andb Z.leb Z.compare].
      unfold bind, newDate, insertInto, selectFrom, updateWhere, emit, gets, modify, ret.
      cbn. rewrite Hf. cbn. rewrite Hl. cbn.
      destruct (c_images input) as [[|i imgs]|]; cbn; eexists; eexists; split; reflexivity. }
    destruct Husers as (r & w' & Hrun & Hu). exists r, w'. split; [exact Hrun|].
    rewrite Hu. split.
    + clear -Hfind. induction (users w) as [|a l IH]; cbn in *; [discriminate|].
      destruct (User.id a =? c_ownerId input)%string eqn:E; cbn; rewrite E.
      * injection Hfind as ->. reflexivity.
      * apply IH; exact Hfind.
    + intros u' Hin Hid. apply in_map_iff in Hin as (a & <- & _).
      destruct (User.id a =? c_ownerId input)%string eqn:E; [reflexivity|].
      apply String.eqb_neq in E. contradiction.
Qed.

(** ** More on getProperties *)

Lemma count_pos_existsb {A} (p : A -> bool) (l : list A) :
  (0 <? Z.of_nat (List.length (filter p l))) = existsb p l.
Proof.
  induction l as [|a l IH]; [reflexivity|].
  cbn [filter existsb]. destruct (p a); [|exact IH].
  cbn [List.length orb]. apply Z.ltb_lt. lia.
Qed.

Lemma isPropertyWished_run (propertyId : string) (userId : option string)
    (w : World) :
  isPropertyWished propertyId userId w =
  (Ok (wishedBy userId propertyId w),
   set_trace (trace w ++ if hasUser userId then [Select TWishlist] else []) w).
Proof.
  unfold isPropertyWished, wishedBy, hasUser.
  destruct userId as [uid|].
  - destruct (truthyStr uid); cbn [negb andb].
    + unfold bind. rewrite selectFrom_run. unfold ret.
      cbn [rows wishlistT set_trace wishlist tname].
      rewrite count_pos_existsb. reflexivity.
    + unfold ret. rewrite app_nil_r, set_trace_same. reflexivity.
  - unfold ret. rewrite app_nil_r, set_trace_same. reflexivity.
Qed.

Lemma mapM_isPropertyWished (userId : option string) (ids : list string)
    (w : World) :
  mapM (fun propertyId => isPropertyWished propertyId userId) ids w =
  (Ok (map (fun propertyId => wishedBy userId propertyId w) ids),
   set_trace
     (trace w ++ flat_map (fun _ =>
        if hasUser userId then [Select TWishlist] else []) ids) w).
Proof.
  revert w. induction ids as [|i ids IH]; intros w.
  - cbn. rewrite app_nil_r, set_trace_same. reflexivity.
  - erewrite mapM_cons_ok; [|apply isPropertyWished_run|apply IH].
    cbn [map flat_map set_trace trace]. rewrite <- app_assoc. reflexivity.
Qed.

(** The aggregate built for one selected row, given its wish flag. *)
Lemma toAggregate_nth imgs vs ps ws (r : Property.t * option JsObject) j :
  toAggregate imgs vs ps ws r j =
  {| spread := Some (fst r);
     images := filter (fun img =>
       (PropertyImage.propertyId img =? Property.id (fst r))%string) imgs;
     views := filter (fun v =>
       (PropertyView.propertyId v =? Property.id (fst r))%string) vs;
     pricingHistoryOf := filter (fun p =>
       (PricingHistory.propertyId p =? Property.id (fst r))%string) ps;
     owner := Some
       [ ("id", fieldOrEmpty (snd r) "id");
         ("email", fieldOrEmpty (snd r) "email");
         ("username", fieldOrEmpty (snd r) "username");
         ("role", fieldOrEmpty (snd r) "role") ];
     isWished := nth j ws false |}.
Proof. destruct r; reflexivity. Qed.

Lemma mapi_from_nth {A B} (F : A -> bool -> B) (g : A -> bool)
    (l : list A) (pre : list bool) :
  mapi_from (List.length pre)
    (fun x j => F x (nth j (pre ++ map g l) false)) l
  = map (fun x => F x (g x)) l.
Proof.
  revert pre. induction l as [|a l IH]; intros pre; [reflexivity|].
  cbn [mapi_from map]. f_equal.
  - rewrite app_nth2, Nat.sub_diag; [reflexivity|]. unfold ge. apply Nat.le_refl.
  - specialize (IH (pre ++ [g a])).
    rewrite length_app, Nat.add_1_r in IH. cbn [List.length] in IH.
    rewrite <- app_assoc in IH. exact IH.
Qed.

Lemma mapi_from_ext {A B} (f g : A -> nat -> B) (l : list A) (i : nat) :
  (forall x j, f x j = g x j) -> mapi_from i f l = mapi_from i g l.
Proof.
  intros H. revert i. induction l as [|a l IH]; intros i; [reflexivity|].
  cbn [mapi_from]. rewrite H, IH. reflexivity.
Qed.

Lemma mapi_toAggregate imgs vs ps (g : Property.t * option JsObject -> bool)
    (l : list (Property.t * option JsObject)) :
  mapi (toAggregate imgs vs ps (map g l)) l =
  map (fun r =>
    {| spread := Some (fst r);
       images := filter (fun img =>
         (PropertyImage.propertyId img =? Property.id (fst r))%string) imgs;
       views := filter (fun v =>
         (PropertyView.propertyId v =? Property.id (fst r))%string) vs;
       pricingHistoryOf := filter (fun p =>
         (PricingHistory.propertyId p =? Property.id (fst r))%string) ps;
       owner := Some
         [ ("id", fieldOrEmpty (snd r) "id");
           ("email", fieldOrEmpty (snd r) "email");
           ("username", fieldOrEmpty (snd r) "username");
           ("role", fieldOrEmpty (snd r) "role") ];
       isWished := g r |}) l.
Proof.
  unfold mapi.
  rewrite (mapi_from_ext _ _ l 0 (toAggregate_nth imgs vs ps (map g l))).
  exact (mapi_from_nth
           (fun r b =>
              {| spread := Some (fst r);
                 images := filter (fun img =>
                   (PropertyImage.propertyId img
                      =? Property.id (fst r))%string) imgs;
                 views := filter (fun v =>
                   (PropertyView.propertyId v
                      =? Property.id (fst r))%string) vs;
                 pricingHistoryOf := filter (fun p =>
                   (PricingHistory.propertyId p
                      =? Property.id (fst r))%string) ps;
                 owner := Some
                   [ ("id", fieldOrEmpty (snd r) "id");
                     ("email", fieldOrEmpty (snd r) "email");
                     ("username", fieldOrEmpty (snd r) "username");
                     ("role", fieldOrEmpty (snd r) "role") ];
                 isWished := b |}) g l []).
Qed.

(** The whole run of [getProperties]: what it returns, and the statements
    it issues. *)
Lemma getProperties_result (filterParam userId : option string) (w : World) :
  getProperties filterParam userId w =
  (Ok (map (aggregateOf filterParam userId w) (selectedRows filterParam w)),
   set_trace
     (trace w ++ Select TProperties ::
        match selectedRows filterParam w with
        | [] => []
        | l =>
            flat_map (fun _ =>
              if hasUser userId then [Select TWishlist] else []) l
            ++ [Select TPropertyImages; Select TPropertyViews;
                Select TPricingHistory]
        end) w).
Proof.
  unfold getProperties, bind at 1. rewrite selectByFilter_run.
  replace (match filterParam with Some f => f | None => "active" end)
    with (orKeep filterParam "active") by (destruct filterParam; reflexivity).
  fold (selectedRows filterParam w).
  unfold withRelations.
  unfold aggregateOf.
  destruct (selectedRows filterParam w) as [|r0 l0].
  - reflexivity.
  - cbn [List.length Nat.eqb].
    unfold bind. rewrite mapM_isPropertyWished. rewrite !selectFrom_run.
    cbn [rows propertyImagesT propertyViewsT pricingHistoryT set_trace
         propertyImages propertyViews pricingHistory tname trace].
    unfold ret. f_equal.
    + f_equal. rewrite map_map.
      exact (mapi_toAggregate _ _ _
               (fun r => wishedBy userId (Property.id (fst r)) w)
               (r0 :: l0)).
    + rewrite <- !app_assoc. cbn [app].
      rewrite flat_map_concat_map, map_map, <- flat_map_concat_map.
      reflexivity.
Qed.

Lemma in_selectedRows_spread (filterParam userId : option string) (w : World)
    (p : Property.t) :
  In (Some p)
     (map spread (map (aggregateOf filterParam userId w)
                    (selectedRows filterParam w)))
  <-> In p (properties w)
      /\ whereOf (orKeep filterParam "active") p = true.
Proof.
  rewrite map_map. cbn [spread aggregateOf]. rewrite in_map_iff.
  unfold selectedRows. split.
  - intros (r & [= Hr] & Hin). apply in_flat_map in Hin as (q & Hq & Hin).
    apply joinOwner_fst in Hin. apply filter_In in Hq. congruence.
  - intros (Hp & Hw).
    destruct (joinOwner_nonempty
                (colsOf (orKeep filterParam "active")) (users w) p)
      as (r & Hr).
    exists r. split; [f_equal; eapply joinOwner_fst; exact Hr|].
    apply in_flat_map. exists p. split; [apply filter_In; auto|exact Hr].
Qed.

(** X1: the three named filters, and the default for a filter that is not
    passed: the properties returned are the stored ones that are verified
    and whose status is active (for "active" and for no filter), sold or
    rented (for "sold_rented"), inactive (for "inactive"). *)
Theorem getProperties_named_filters (userId : option string) (w : World) :
  (exists r w',
     getProperties (Some "active") userId w = (Ok r, w') /\
     forall p, In (Some p) (map spread r) <->
       In p (properties w) /\ Property.status p = "active"
       /\ Property.isVerified p = true)
  /\
  (exists r w',
     getProperties None userId w = (Ok r, w') /\
     forall p, In (Some p) (map spread r) <->
       In p (properties w) /\ Property.status p = "active"
       /\ Property.isVerified p = true)
  /\
  (exists r w',
     getProperties (Some "sold_rented") userId w = (Ok r, w') /\
     forall p, In (Some p) (map spread r) <->
       In p (properties w)
       /\ (Property.status p = "sold" \/ Property.status p = "rented")
       /\ Property.isVerified p = true)
  /\
  (exists r w',
     getProperties (Some "inactive") userId w = (Ok r, w') /\
     forall p, In (Some p) (map spread r) <->
       In p (properties w) /\ Property.status p = "inactive"
       /\ Property.isVerified p = true).
Proof.
  assert (A : forall p,
    ((Property.status p =? "active")%string && Property.isVerified p = true)
    <-> Property.status p = "active" /\ Property.isVerified p = true).
  { intros p. rewrite andb_true_iff, String.eqb_eq. reflexivity. }
  repeat split.
  - eexists; eexists; split; [apply getProperties_result|].
    intros p. rewrite in_selectedRows_spread. rewrite <- A. reflexivity.
  - eexists; eexists; split; [apply getProperties_result|].
    intros p. rewrite in_selectedRows_spread. rewrite <- A. reflexivity.
  - eexists; eexists; split; [apply getProperties_result|].
    intros p. rewrite in_selectedRows_spread.
    change (whereOf (orKeep (Some "sold_rented") "active") p)
      with (inArray (Property.status p) ["sold"; "rented"]
            && Property.isVerified p).
    rewrite andb_true_iff. unfold inArray. cbn [existsb].
    rewrite orb_false_r, orb_true_iff, !String.eqb_eq. reflexivity.
  - eexists; eexists; split; [apply getProperties_result|].
    intros p. rewrite in_selectedRows_spread.
    change (whereOf (orKeep (Some "inactive") "active") p)
      with ((Property.status p =? "inactive")%string
            && Property.isVerified p).
    rewrite andb_true_iff, String.eqb_eq. reflexivity.
Qed.

Lemma filter_by_key_of_batch {R} (key : R -> string) (ids : list string)
    (propertyId : string) (l : list R) :
  In propertyId ids ->
  filter (fun x => (key x =? propertyId)%string)
    (filter (fun x => inArray (key x) ids) l)
  = filter (fun x => (key x =? propertyId)%string) l.
Proof.
  intros Hin. induction l as [|a l IH]; [reflexivity|].
  cbn [filter]. destruct (key a =? propertyId)%string eqn:E.
  - assert (Hb : inArray (key a) ids = true).
    { apply existsb_exists. exists propertyId. split; [exact Hin|exact E]. }
    rewrite Hb. cbn [filter]. rewrite E. f_equal. exact IH.
  - destruct (inArray (key a) ids); [cbn [filter]; rewrite E|]; exact IH.
Qed.

(** X2: each aggregate of [getProperties] carries exactly the image, view
    and pricing-history rows stored under its property's key: splitting the
    three batched results in memory loses and mixes nothing. *)
Theorem getProperties_children_by_key (filterParam userId : option string)
    (w : World) :
  exists r w',
    getProperties filterParam userId w = (Ok r, w') /\
    Forall (fun out =>
      exists p,
        spread out = Some p /\
        images out = imagesOf (Property.id p) w /\
        views out = viewsOf (Property.id p) w /\
        pricingHistoryOf out = pricingOf (Property.id p) w) r.
Proof.
  eexists; eexists; split; [apply getProperties_result|].
  apply Forall_forall. intros out Hin.
  apply in_map_iff in Hin as (r & <- & Hr).
  exists (fst r). split; [reflexivity|].
  assert (Hid : In (Property.id (fst r))
                  (map (fun r => Property.id (fst r))
                     (selectedRows filterParam w))).
  { apply in_map_iff. exists r. auto. }
  cbn [images views pricingHistoryOf aggregateOf].
  unfold imagesOf, viewsOf, pricingOf.
  rewrite (filter_by_key_of_batch PropertyImage.propertyId _ _ _ Hid).
  rewrite (filter_by_key_of_batch PropertyView.propertyId _ _ _ Hid).
  rewrite (filter_by_key_of_batch PricingHistory.propertyId _ _ _ Hid).
  auto.
Qed.

Lemma wishedBy_true_iff (userId : option string) (propertyId : string)
    (w : World) :
  wishedBy userId propertyId w = true <->
  exists uid x,
    userId = Some uid /\ uid <> "" /\ In x (wishlist w) /\
    Wishlist.userId x = uid /\ Wishlist.propertyId x = propertyId.
Proof.
  unfold wishedBy, truthyStr. split.
  - destruct userId as [uid|]; [|discriminate].
    rewrite andb_true_iff, negb_true_iff, String.eqb_neq, existsb_exists.
    intros (Hne & x & Hx & H). apply andb_true_iff in H as [Hp Hu].
    apply String.eqb_eq in Hp, Hu. exists uid, x. auto.
  - intros (uid & x & -> & Hne & Hx & Hu & Hp).
    rewrite andb_true_iff, negb_true_iff, String.eqb_neq, existsb_exists.
    split; [exact Hne|]. exists x. split; [exact Hx|].
    rewrite andb_true_iff, !String.eqb_eq. auto.
Qed.

(** X3: the wish flag of each aggregate of [getProperties] is true exactly
    when a viewing user is given, with a non-empty id, and the wishlist
    holds the pair of that user and the aggregate's property. *)
Theorem getProperties_wish_flags (filterParam userId : option string)
    (w : World) :
  exists r w',
    getProperties filterParam userId w = (Ok r, w') /\
    Forall (fun out =>
      exists p,
        spread out = Some p /\
        (isWished out = true <->
         exists uid x,
           userId = Some uid /\ uid <> "" /\ In x (wishlist w) /\
           Wishlist.userId x = uid /\
           Wishlist.propertyId x = Property.id p)) r.
Proof.
  eexists; eexists; split; [apply getProperties_result|].
  apply Forall_forall. intros out Hin.
  apply in_map_iff in Hin as (r & <- & Hr).
  exists (fst r). split; [reflexivity|].
  cbn [isWished aggregateOf]. apply wishedBy_true_iff.
Qed.

Lemma flat_map_const_repeat {A B} (b : bool) (e : B) (l : list A) :
  flat_map (fun _ => if b then [e] else []) l
  = repeat e (if b then List.length l else 0).
Proof.
  destruct b.
  - induction l as [|a l IH]; [reflexivity|]. cbn. f_equal. exact IH.
  - induction l as [|a l IH]; [reflexivity|]. exact IH.
Qed.

(** X4: [getProperties] only reads.  It leaves the store as it was.  The
    first statement it issues is the one for the properties, and it is the
    only one when nothing is selected; otherwise the others are, counted
    without regard to their order, one for all the images, one for all the
    views, one for all the pricing history, and, when a viewing user is
    given, one wishlist statement per returned aggregate. *)
Theorem getProperties_statements (filterParam userId : option string)
    (w : World) :
  exists r evs,
    getProperties filterParam userId w =
    (Ok r, set_trace (trace w ++ Select TProperties :: evs) w) /\
    Permutation evs
      match r with
      | [] => []
      | _ =>
          [Select TPropertyImages; Select TPropertyViews;
           Select TPricingHistory]
          ++ repeat (Select TWishlist)
               (if hasUser userId then List.length r else 0)
      end.
Proof.
  eexists; eexists. split; [apply getProperties_result|].
  rewrite length_map.
  destruct (selectedRows filterParam w) as [|r0 l0]; [constructor|].
  cbn [map]. rewrite flat_map_const_repeat. apply Permutation_app_comm.
Qed.

Lemma unique_match {A} (key : A -> string) (a : string) (l : list A) :
  NoDup (map key l) ->
  (List.length (filter (fun x => (a =? key x)%string) l) <= 1)%nat.
Proof.
  induction l as [|x l IH]; intros Hnd; [cbn; lia|].
  inversion Hnd as [|k ks Hnotin Hnd']; subst.
  cbn [filter]. destruct (a =? key x)%string eqn:E; [|auto].
  apply String.eqb_eq in E. subst a. cbn [List.length].
  rewrite (filter_none (fun y => (key x =? key y)%string) l); [cbn; lia|].
  intros y Hy. apply String.eqb_neq. intros Heq. apply Hnotin.
  rewrite Heq. apply in_map. exact Hy.
Qed.

Lemma joinOwner_single cols (us : list User.t) (p : Property.t) :
  NoDup (map User.id us) -> exists o, joinOwner cols us p = [(p, o)].
Proof.
  intros Hnd. unfold joinOwner.
  pose proof (unique_match User.id (Property.ownerId p) us Hnd) as Hle.
  destruct (filter _ us) as [|u [|u' ms]].
  - eexists; reflexivity.
  - eexists; reflexivity.
  - cbn in Hle. lia.
Qed.

Lemma flat_map_joinOwner_fst cols (us : list User.t) (ps : list Property.t) :
  NoDup (map User.id us) ->
  map fst (flat_map (joinOwner cols us) ps) = ps.
Proof.
  intros Hnd. induction ps as [|p ps IH]; [reflexivity|].
  cbn [flat_map]. destruct (joinOwner_single cols us p Hnd) as (o & ->).
  cbn. f_equal. exact IH.
Qed.

(** X5: when no two user rows share an id, [getProperties] returns one
    aggregate per selected property, in the order of the table: the join
    with the owners neither drops nor repeats a property. *)
Theorem getProperties_one_per_property (filterParam userId : option string)
    (w : World) :
  NoDup (map User.id (users w)) ->
  exists r w',
    getProperties filterParam userId w = (Ok r, w') /\
    map spread r =
      map Some (filter (whereOf (orKeep filterParam "active"))
                  (properties w)).
Proof.
  intros Hnd. eexists; eexists; split; [apply getProperties_result|].
  rewrite map_map. cbn [spread aggregateOf].
  rewrite <- (map_map fst Some). unfold selectedRows.
  rewrite flat_map_joinOwner_fst; [reflexivity|exact Hnd].
Qed.

(** ** More on getProperty *)

Lemma joinRows_absent (propertyId : string) (userId : option string)
    (w : World) :
  absent propertyId w -> joinRows propertyId userId w = [].
Proof.
  intros Habs. unfold joinRows.
  rewrite (filter_none _ _ (absent_eqb _ _ Habs)). reflexivity.
Qed.

Lemma getProperty_absent (propertyId : string) (userId : option string)
    (w : World) :
  absent propertyId w ->
  getProperty propertyId userId w =
  (Throw (notFound propertyId),
   set_trace (trace w ++ [Select TProperties]) w).
Proof.
  intros Habs. unfold getProperty, bind, emit, modify, gets.
  rewrite joinRows_set_trace, (joinRows_absent _ _ _ Habs). reflexivity.
Qed.

(** X6: for an id no stored property has, [getProperty] throws the
    NotFound error "Property with ID .. not found" after its one
    statement: it does not look the wishlist up and returns no partial
    aggregate. *)
Theorem getProperty_missing_id (propertyId : string)
    (userId : option string) (w : World) :
  absent propertyId w ->
  getProperty propertyId userId w =
  (Throw (Error ("Property with ID " +++ propertyId +++ " not found")),
   set_trace (trace w ++ [Select TProperties]) w).
Proof. intros Habs. apply getProperty_absent. exact Habs. Qed.

Lemma matchesOrNull_head {B} (ms : list B) :
  matchesOrNull ms = hd_error ms :: map Some (tl ms).
Proof. destruct ms; reflexivity. Qed.

Lemma hd_error_filter_find {A} (p : A -> bool) (l : list A) :
  hd_error (filter p l) = find p l.
Proof.
  induction l as [|a l IH]; [reflexivity|].
  cbn. destruct (p a); [reflexivity|exact IH].
Qed.

(** The first row of the join: the oldest property row with the key, with
    the oldest user row that has its owner's id, if any. *)
Lemma joinRows_head (propertyId : string) (userId : option string)
    (w : World) (p : Property.t) :
  storedProperty propertyId w = Some p ->
  exists r0 rs,
    joinRows propertyId userId w = r0 :: rs /\
    r_property r0 = p /\
    r_owner r0 =
      option_map ownerColumns
        (find (fun u => (Property.ownerId p =? User.id u)%string) (users w)).
Proof.
  unfold storedProperty. intros Hf.
  apply filter_head in Hf as (rest & Hf).
  unfold joinRows. rewrite Hf. cbn [flat_map].
  rewrite !matchesOrNull_head. cbn [flat_map map app].
  rewrite !hd_error_filter_find.
  eexists; eexists. split; [reflexivity|]. split; reflexivity.
Qed.

(** X7: for a stored property (under a non-empty key) [getProperty]
    returns the oldest row with that key, with the four public columns of
    its owner's row (four empty strings when there is none) and a wish flag
    that is true exactly when a viewing user is given and the wishlist
    holds the pair.  It only reads: one statement for the join, one more
    for the wishlist when a viewing user is given. *)
Theorem getProperty_aggregate (propertyId : string) (userId : option string)
    (w : World) (p : Property.t) :
  truthyStr propertyId = true ->
  storedProperty propertyId w = Some p ->
  exists agg,
    getProperty propertyId userId w =
      (Ok agg,
       set_trace
         (trace w ++ Select TProperties ::
            if hasUser userId then [Select TWishlist] else []) w) /\
    spread agg = Some p /\
    owner agg =
      Some (match find (fun u =>
                    (Property.ownerId p =? User.id u)%string) (users w) with
            | Some u => publicOwner u
            | None => unknownOwner
            end) /\
    (isWished agg = true <->
     exists uid x,
       userId = Some uid /\ uid <> "" /\ In x (wishlist w) /\
       Wishlist.userId x = uid /\ Wishlist.propertyId x = propertyId).
Proof.
  intros Hid Hst.
  destruct (joinRows_head propertyId userId w p Hst)
    as (r0 & rs & Hrows & Hp & Ho).
  assert (Hpid : Property.id p = propertyId).
  { unfold storedProperty in Hst. apply find_some in Hst as [_ H].
    apply String.eqb_eq. exact H. }
  unfold getProperty, bind, emit, modify, gets.
  rewrite joinRows_set_trace, Hrows. cbn [List.length Nat.eqb].
  rewrite isPropertyWished_run. unfold ret. cbn [set_trace trace].
  eexists. split; [rewrite <- app_assoc; reflexivity|].
  cbn [fold_left]. rewrite fold_foldRow.
  - cbn. rewrite Hp, Ho. split; [reflexivity|]. split.
    + f_equal.
      destruct (find _ (users w)) as [u|]; [|reflexivity].
      cbn [option_map]. exact (projected_owner "" u).
    + exact (wishedBy_true_iff userId propertyId w).
  - unfold foldRow, hasNoId. cbn. rewrite Hp, Hpid, Hid. reflexivity.
Qed.

(** ** More on addNewProperty *)

(** The run of [addNewProperty] for an owner that is there and within its
    quota. *)
Lemma addNewProperty_run (input : CreatePropertyInput) (w : World)
    (u : User.t) (rest : list User.t) :
  filter (fun u => (User.id u =? c_ownerId input)%string) (users w)
    = u :: rest ->
  overQuota u = false ->
  exists w' evs,
    addNewProperty input w =
      (Ok {| cp_property :=
               newPropertyRow input (now w) (genId (nextKey w));
             cp_images :=
               keyed (S (nextKey w))
                 (map (newImageRow (genId (nextKey w)))
                    (suppliedImages input));
             cp_views := [];
             cp_pricingHistory :=
               [firstHistoryRow input (genId (nextKey w)) (now w)
                  (genId (S (nextKey w)
                          + List.length (suppliedImages input)))] |},
       w') /\
    properties w' =
      properties w ++ [newPropertyRow input (now w) (genId (nextKey w))] /\
    propertyImages w' =
      propertyImages w
      ++ keyed (S (nextKey w))
           (map (newImageRow (genId (nextKey w))) (suppliedImages input)) /\
    pricingHistory w' =
      pricingHistory w
      ++ [firstHistoryRow input (genId (nextKey w)) (now w)
            (genId (S (nextKey w) + List.length (suppliedImages input)))] /\
    users w' =
      match User.listingLimit u with
      | Some l =>
          if (User.role u =? "private_seller")%string then
            map (fun r => if (User.id r =? c_ownerId input)%string
                          then setListingLimit (Some (l - 1)) r else r)
              (users w)
          else users w
      | None => users w
      end /\
    propertyViews w' = propertyViews w /\
    wishlist w' = wishlist w /\
    messages w' = messages w /\
    trace w' = trace w ++ evs /\
    forallb isStatement evs = true.
Proof.
  intros Hf Hq. unfold overQuota in Hq.
  unfold addNewProperty. unfold bind at 1. rewrite selectFrom_run.
  cbn [rows usersT set_trace users tname]. rewrite Hf. cbn [firstn].
  rewrite Hq.
  unfold bind, newDate, insertInto, selectFrom, updateWhere, emit, gets,
    modify, ret.
  cbn -[String.eqb Z.leb Z.eqb Nat.add].
  unfold suppliedImages, limitOr, orOptNum, orNum, truthyNum.
  destruct (User.role u =? "private_seller")%string eqn:Er;
    destruct (User.listingLimit u) as [l|] eqn:El;
    cbn [andb] in Hq |- *.
  all: try (assert (Hl : (l =? 0) = false)
              by (apply Z.eqb_neq; apply Z.leb_gt in Hq; lia)).
  all: destruct (c_images input) as [[|i imgs]|];
    unfold bind;
    repeat (progress (cbn -[String.eqb Z.leb Z.eqb Nat.add];
                      rewrite ?Hf, ?El; try rewrite Hl));
    rewrite ?Nat.add_0_r, ?Nat.add_1_r, ?length_map;
    eexists; eexists;
    (split; [reflexivity|]);
    cbn -[String.eqb Z.leb Z.eqb Nat.add];
    repeat (split;
            [first [ reflexivity
                   | rewrite <- !app_assoc; reflexivity
                   | rewrite app_nil_r; reflexivity ]|]);
    reflexivity.
Qed.

Lemma addNewProperty_no_owner (input : CreatePropertyInput) (w : World) :
  filter (fun u => (User.id u =? c_ownerId input)%string) (users w) = [] ->
  addNewProperty input w =
  (Throw (Error "User not found"),
   set_trace (trace w ++ [Select TUsers]) w).
Proof.
  intros Hf. unfold addNewProperty. unfold bind at 1. rewrite selectFrom_run.
  cbn [rows usersT set_trace users tname]. rewrite Hf. reflexivity.
Qed.

Lemma addNewProperty_blocked (input : CreatePropertyInput) (w : World)
    (u : User.t) (rest : list User.t) :
  filter (fun u => (User.id u =? c_ownerId input)%string) (users w)
    = u :: rest ->
  overQuota u = true ->
  addNewProperty input w =
  (Throw (Error "Listings limit reached"),
   set_trace (trace w ++ [Select TUsers]) w).
Proof.
  intros Hf Hq. unfold overQuota in Hq.
  unfold addNewProperty. unfold bind at 1. rewrite selectFrom_run.
  cbn [rows usersT set_trace users tname]. rewrite Hf. cbn [firstn].
  rewrite Hq. reflexivity.
Qed.

(** X8: when no user row has the input's ownerId, [addNewProperty] throws
    "User not found" after its one read of the users and writes nothing. *)
Theorem addNewProperty_unknown_owner (input : CreatePropertyInput)
    (w : World) :
  (forall u, In u (users w) -> User.id u <> c_ownerId input) ->
  addNewProperty input w =
  (Throw (Error "User not found"),
   set_trace (trace w ++ [Select TUsers]) w).
Proof.
  intros Hno. apply addNewProperty_no_owner. apply filter_none.
  intros u Hu. apply String.eqb_neq. apply Hno. exact Hu.
Qed.

(** X9: for an owner that is there and within its quota, [addNewProperty]
    stores one new property row, which it returns: the input's owner,
    title, price, size, rooms and address, the input's currency or "USD",
    the input's status or "active".  It appends exactly one
    pricing-history row, which it returns too: the new property's key, the
    input's price, the same currency, the current time.  The returned
    views are empty. *)
Theorem addNewProperty_creates_listing (input : CreatePropertyInput)
    (w : World) (u : User.t) :
  find (fun u => (User.id u =? c_ownerId input)%string) (users w) = Some u ->
  overQuota u = false ->
  exists r w' row,
    addNewProperty input w = (Ok r, w') /\
    properties w' = properties w ++ [cp_property r] /\
    Property.ownerId (cp_property r) = c_ownerId input /\
    Property.title (cp_property r) = c_title input /\
    Property.price (cp_property r) = c_price input /\
    Property.size (cp_property r) = c_size input /\
    Property.rooms (cp_property r) = c_rooms input /\
    Property.address (cp_property r) = c_address input /\
    Property.currency (cp_property r) =
      match c_currency input with
      | Some c => if (c =? "")%string then "USD" else c
      | None => "USD"
      end /\
    Property.status (cp_property r) =
      match c_status input with
      | Some s => if (s =? "")%string then "active" else s
      | None => "active"
      end /\
    cp_views r = [] /\
    cp_pricingHistory r = [row] /\
    pricingHistory w' = pricingHistory w ++ [row] /\
    PricingHistory.propertyId row = Property.id (cp_property r) /\
    PricingHistory.price row = c_price input /\
    PricingHistory.currency row = Property.currency (cp_property r) /\
    PricingHistory.effectiveDate row = now w.
Proof.
  intros Hf Hq. apply filter_head in Hf as (rest & Hf).
  destruct (addNewProperty_run input w u rest Hf Hq)
    as (w' & evs & Hrun & Hp & _ & Hh & _).
  eexists; exists w'; eexists. split; [exact Hrun|].
  cbn [cp_property cp_views cp_pricingHistory].
  split; [exact Hp|]. do 6 (split; [reflexivity|]).
  split.
  { cbn. unfold orOptStr, orStr, truthyStr.
    destruct (c_currency input) as [c|]; [destruct (c =? "")%string|];
      reflexivity. }
  split.
  { cbn. unfold orOptStr, orStr, truthyStr.
    destruct (c_status input) as [s|]; [destruct (s =? "")%string|];
      reflexivity. }
  split; [reflexivity|]. split; [reflexivity|]. split; [exact Hh|].
  repeat split; reflexivity.
Qed.

Lemma keyed_newImageRow_fields (propertyId : string) (k : nat)
    (imgs : list ImageInput) :
  map (fun r => (PropertyImage.propertyId r, PropertyImage.imageUrl r,
                 PropertyImage.isPrimary r))
    (keyed k (map (newImageRow propertyId) imgs))
  = map (fun i => (propertyId, in_imageUrl i, in_isPrimary i)) imgs.
Proof.
  revert k. induction imgs as [|i imgs IH]; intros k; cbn; [reflexivity|].
  f_equal. apply IH.
Qed.

(** X10: a successful [addNewProperty] appends one image row per supplied
    image, in order, each under the new property's key with the image's
    url and primary flag, and returns these rows; with no image list, or an
    empty one, the image table is untouched and the returned images are
    empty. *)
Theorem addNewProperty_stores_images (input : CreatePropertyInput)
    (w : World) (u : User.t) :
  find (fun u => (User.id u =? c_ownerId input)%string) (users w) = Some u ->
  overQuota u = false ->
  exists r w',
    addNewProperty input w = (Ok r, w') /\
    propertyImages w' = propertyImages w ++ cp_images r /\
    map (fun i => (PropertyImage.propertyId i, PropertyImage.imageUrl i,
                   PropertyImage.isPrimary i)) (cp_images r)
    = map (fun i => (Property.id (cp_property r), in_imageUrl i,
                     in_isPrimary i))
        (match c_images input with Some imgs => imgs | None => [] end).
Proof.
  intros Hf Hq. apply filter_head in Hf as (rest & Hf).
  destruct (addNewProperty_run input w u rest Hf Hq)
    as (w' & evs & Hrun & _ & Hi & _).
  eexists; exists w'. split; [exact Hrun|].
  cbn [cp_property cp_images]. split; [exact Hi|].
  apply keyed_newImageRow_fields.
Qed.

(** X11: the quota accounting of a successful [addNewProperty].  For an
    owner with role "private_seller" and a listing limit that is not null
    (and so positive, or the call had failed), every user row with the
    owner's id gets the limit minus one and the other rows are untouched;
    for any other role, and for a null limit, the users are untouched. *)
Theorem addNewProperty_listing_limit (input : CreatePropertyInput)
    (w : World) (u : User.t) :
  find (fun u => (User.id u =? c_ownerId input)%string) (users w) = Some u ->
  overQuota u = false ->
  exists r w',
    addNewProperty input w = (Ok r, w') /\
    (forall l, User.role u = "private_seller" ->
               User.listingLimit u = Some l ->
       0 < l /\
       users w' =
         map (fun r => if (User.id r =? c_ownerId input)%string
                       then setListingLimit (Some (l - 1)) r else r)
           (users w)) /\
    (User.role u <> "private_seller" \/ User.listingLimit u = None ->
     users w' = users w).
Proof.
  intros Hf Hq. apply filter_head in Hf as (rest & Hf).
  destruct (addNewProperty_run input w u rest Hf Hq)
    as (w' & evs & Hrun & _ & _ & _ & Hu & _).
  eexists; exists w'. split; [exact Hrun|]. split.
  - intros l Hr Hl. rewrite Hl, Hr in Hu. split; [|exact Hu].
    unfold overQuota in Hq. rewrite Hr, Hl in Hq. cbn in Hq.
    apply Z.leb_gt in Hq. exact Hq.
  - intros [Hr|Hl].
    + apply String.eqb_neq in Hr. rewrite Hr in Hu.
      destruct (User.listingLimit u); exact Hu.
    + rewrite Hl in Hu. exact Hu.
Qed.

(** ** More on deleteProperty and updateProperty *)

Lemma stored_filter (propertyId : string) (w : World) (p : Property.t) :
  storedProperty propertyId w = Some p ->
  exists rest,
    filter (fun p => (Property.id p =? propertyId)%string) (properties w)
    = p :: rest.
Proof. apply filter_head. Qed.


(** X12: for a stored id [deleteProperty] returns, after one read and one
    delete statement: every property row with that id is gone and every
    other row is kept.  A [getProperty] of the same id that follows fails
    with the NotFound error. *)
Theorem deleteProperty_removes_property (propertyId : string) (w : World)
    (p : Property.t) :
  storedProperty propertyId w = Some p ->
  exists w',
    deleteProperty propertyId w = (Ok tt, w') /\
    trace w' =
      trace w ++ [Select TProperties; Delete TProperties;
                  ConsoleLog ("Property with ID " +++ propertyId
                              +++ " deleted successfully")] /\
    (forall q, In q (properties w') <->
               In q (properties w) /\ Property.id q <> propertyId) /\
    forall userId,
      fst (getProperty propertyId userId w') = Throw (notFound propertyId).
Proof.
  intros Hst. destruct (stored_filter _ _ _ Hst) as (rest & Hf).
  unfold deleteProperty, tryCatch, bind. rewrite selectFrom_run.
  cbn [rows propertiesT set_trace properties tname]. rewrite Hf.
  cbn [firstn List.length Nat.eqb].
  unfold deleteFrom, bind, emit, modify.
  cbn [rows setRows propertiesT set_trace properties tname set_properties
       trace].
  eexists. split; [reflexivity|].
  split; [cbn; rewrite <- !app_assoc; reflexivity|]. split.
  - intros q. cbn [properties set_properties set_trace].
    rewrite filter_In, negb_true_iff, String.eqb_neq. reflexivity.
  - intros userId. rewrite getProperty_absent; [reflexivity|].
    intros q Hq. cbn in Hq. apply filter_In in Hq as [_ Hq].
    apply negb_true_iff, String.eqb_neq in Hq. exact Hq.
Qed.

Lemma updateProperty_absent (propertyId : string)
    (input : UpdatePropertyInput) (w : World) :
  absent propertyId w ->
  updateProperty propertyId input w =
  (Throw (notFound propertyId),
   set_trace (trace w ++ [Select TProperties]) w).
Proof.
  intros Habs. unfold updateProperty. unfold bind at 1.
  rewrite selectFrom_run. cbn [rows propertiesT set_trace properties tname].
  rewrite (filter_none _ _ (absent_eqb _ _ Habs)). reflexivity.
Qed.

(** X13: for an id no stored property has, [updateProperty] throws the
    NotFound error "Property with ID .. not found" after its one read:
    whatever the input, nothing is written and no notification is
    started. *)
Theorem updateProperty_missing_id (propertyId : string)
    (input : UpdatePropertyInput) (w : World) :
  absent propertyId w ->
  updateProperty propertyId input w =
  (Throw (Error ("Property with ID " +++ propertyId +++ " not found")),
   set_trace (trace w ++ [Select TProperties]) w).
Proof. intros Habs. apply updateProperty_absent. exact Habs. Qed.

(** X14: when no price is supplied, or the supplied price is the stored
    one, [updateProperty] on a stored property starts no notification and
    returns, whatever the notification sender would do: everything it
    issues is a statement to the store. *)
Theorem updateProperty_same_price_is_silent (propertyId : string)
    (input : UpdatePropertyInput) (w : World) (existing : Property.t) :
  storedProperty propertyId w = Some existing ->
  u_price input = None \/ u_price input = Some (Property.price existing) ->
  exists agg w' evs,
    updateProperty propertyId input w = (Ok agg, w') /\
    trace w' = trace w ++ evs /\
    forallb isStatement evs = true.
Proof.
  intros Hst Hprice. destruct (stored_filter _ _ _ Hst) as (rest & Hf).
  assert (Hout : dispatchOutcome propertyId existing input w = None).
  { unfold dispatchOutcome. destruct Hprice as [->| ->]; [reflexivity|].
    rewrite Z.eqb_refl. reflexivity. }
  assert (Hev : notifyEvents propertyId existing input w = []).
  { unfold notifyEvents. destruct Hprice as [->| ->]; [reflexivity|].
    rewrite Z.eqb_refl. reflexivity. }
  destruct (updateProperty_run _ input _ _ _ Hf Hout)
    as (agg & w' & ki & kp & evs & Hrun & _ & _ & _ & _ & _ & Htr & Hstm & _).
  exists agg, w', (Select TProperties :: evs). split; [exact Hrun|].
  rewrite Htr, Hev. split; [reflexivity|]. exact Hstm.
Qed.

Lemma updatedRows_keep {B} (f : Property.t -> B) (d : PartialProperty)
    (propertyId : string) (ps : list Property.t) :
  (forall p, f (applyUpdate d p) = f p) ->
  map f (updatedRows d propertyId ps) = map f ps.
Proof.
  intros H. unfold updatedRows. rewrite map_map. apply map_ext.
  intros p. destruct (Property.id p =? propertyId)%string; [apply H|reflexivity].
Qed.

(** X15: what a returning [updateProperty] does to the properties table.
    No row is added or removed and no key, owner or creation date changes;
    rows under other keys are untouched.  The returned row is the stored
    one with its update time set to the current time and, for title,
    price, currency, status and the verified flag, the supplied value when
    one is supplied (also an empty or zero one) and the stored value
    otherwise. *)
Theorem updateProperty_row_update (propertyId : string)
    (input : UpdatePropertyInput) (w : World) (existing : Property.t) :
  storedProperty propertyId w = Some existing ->
  dispatchOutcome propertyId existing input w = None ->
  exists agg w' p',
    updateProperty propertyId input w = (Ok agg, w') /\
    spread agg = Some p' /\ In p' (properties w') /\
    map Property.id (properties w') = map Property.id (properties w) /\
    map Property.ownerId (properties w')
      = map Property.ownerId (properties w) /\
    map Property.createdAt (properties w')
      = map Property.createdAt (properties w) /\
    (forall q, In q (properties w) -> Property.id q <> propertyId ->
               In q (properties w')) /\
    Property.updatedAt p' = now w /\
    Property.title p' = orKeep (u_title input) (Property.title existing) /\
    Property.price p' = orKeep (u_price input) (Property.price existing) /\
    Property.currency p'
      = orKeep (u_currency input) (Property.currency existing) /\
    Property.status p' = orKeep (u_status input) (Property.status existing) /\
    Property.isVerified p'
      = orKeep (u_isVerified input) (Property.isVerified existing).
Proof.
  intros Hst Hout. destruct (stored_filter _ _ _ Hst) as (rest & Hf).
  destruct (updateProperty_run _ input _ _ _ Hf Hout)
    as (agg & w' & ki & kp & evs & Hrun & Hp & _ & _ & _ & _ & _ & _ & Hs & _).
  exists agg, w', (applyUpdate (buildUpdateData input (now w)) existing).
  split; [exact Hrun|]. split; [exact Hs|]. rewrite Hp.
  assert (Hin : In existing (properties w) /\ Property.id existing = propertyId).
  { unfold storedProperty in Hst. apply find_some in Hst as [Hin Hid].
    apply String.eqb_eq in Hid. auto. }
  destruct Hin as [Hin Hid].
  split.
  { unfold updatedRows. apply in_map_iff. exists existing.
    apply String.eqb_eq in Hid. rewrite Hid. auto. }
  split; [apply updatedRows_keep; reflexivity|].
  split; [apply updatedRows_keep; reflexivity|].
  split; [apply updatedRows_keep; reflexivity|].
  split.
  { intros q Hq Hne. unfold updatedRows. apply in_map_iff. exists q.
    apply String.eqb_neq in Hne. rewrite Hne. auto. }
  repeat split; reflexivity.
Qed.

(** X16: the owner a returning [updateProperty] hands back is the whole
    user row of the property's owner, with its listing limit and PayPal
    credentials among its nine columns, and null when no user row has the
    owner's id: not the four-column owner of [getProperties]. *)
Theorem updateProperty_returns_whole_owner_row (propertyId : string)
    (input : UpdatePropertyInput) (w : World) (existing : Property.t) :
  storedProperty propertyId w = Some existing ->
  dispatchOutcome propertyId existing input w = None ->
  exists agg w',
    updateProperty propertyId input w = (Ok agg, w') /\
    match find (fun u => (User.id u =? Property.ownerId existing)%string)
            (users w) with
    | Some u =>
        exists o,
          owner agg = Some o /\
          keys o = [ "id"; "email"; "username"; "role"; "listingLimit";
                     "isEmailVerified"; "paypalCredentials"; "createdAt";
                     "updatedAt" ] /\
          getField "listingLimit" o
            = Some (ofNullableNum (User.listingLimit u)) /\
          getField "paypalCredentials" o
            = Some (ofNullableStr (User.paypalCredentials u))
    | None => owner agg = None
    end.
Proof.
  intros Hst Hout. destruct (stored_filter _ _ _ Hst) as (rest & Hf).
  destruct (updateProperty_run _ input _ _ _ Hf Hout)
    as (agg & w' & ki & kp & evs & Hrun & _ & _ & _ & _ & _ & _ & _ & _ & _
        & _ & _ & Ho & _).
  exists agg, w'. split; [exact Hrun|].
  rewrite hd_error_filter_find in Ho.
  destruct (find _ (users w)) as [u|]; [|exact Ho].
  eexists. split; [exact Ho|]. repeat split; reflexivity.
Qed.

(** X17: the pricing history is append-only under both writers.  Whatever
    the input and the outcome, [addNewProperty] and [updateProperty] leave
    every earlier pricing-history row in place and in order, and add at
    most one row after them. *)
Theorem pricingHistory_append_only :
  (forall input w,
     exists suffix,
       pricingHistory (snd (addNewProperty input w))
         = pricingHistory w ++ suffix
       /\ (List.length suffix <= 1)%nat)
  /\
  (forall propertyId input w,
     exists suffix,
       pricingHistory (snd (updateProperty propertyId input w))
         = pricingHistory w ++ suffix
       /\ (List.length suffix <= 1)%nat).
Proof.
  split.
  - intros input w.
    destruct (filter (fun u => (User.id u =? c_ownerId input)%string)
                (users w)) as [|u rest] eqn:Hf.
    + rewrite (addNewProperty_no_owner _ _ Hf). exists [].
      split; [cbn; now rewrite app_nil_r|cbn; lia].
    + destruct (overQuota u) eqn:Hq.
      * rewrite (addNewProperty_blocked _ _ _ _ Hf Hq). exists [].
        split; [cbn; now rewrite app_nil_r|cbn; lia].
      * destruct (addNewProperty_run input w u rest Hf Hq)
          as (w' & evs & Hrun & _ & _ & Hh & _).
        rewrite Hrun. eexists. split; [exact Hh|cbn; lia].
  - intros propertyId input w.
    destruct (filter (fun p => (Property.id p =? propertyId)%string)
                (properties w)) as [|existing rest] eqn:Hf.
    + assert (Habs : absent propertyId w).
      { intros p Hp Hid.
        assert (Hin : In p (filter (fun p =>
                  (Property.id p =? propertyId)%string) (properties w))).
        { apply filter_In. split; [exact Hp|]. apply String.eqb_eq; exact Hid. }
        rewrite Hf in Hin. exact Hin. }
      rewrite (updateProperty_absent _ input _ Habs). exists [].
      split; [cbn; now rewrite app_nil_r|cbn; lia].
    + destruct (dispatchOutcome propertyId existing input w) as [err|] eqn:Ho.
      * rewrite (updateProperty_dispatch_failure _ _ _ _ _ _ Hf Ho).
        exists []. split; [cbn; now rewrite app_nil_r|cbn; lia].
      * destruct (updateProperty_run _ input _ _ _ Hf Ho)
          as (agg & w' & ki & kp & evs & Hrun & _ & _ & Hh & _).
        rewrite Hrun. cbn [snd]. rewrite Hh.
        destruct (isSome (u_price input) || isSome (u_currency input)).
        -- eexists. split; [reflexivity|cbn; lia].
        -- exists []. split; [now rewrite app_nil_r|cbn; lia].
Qed.

(** ** More on verifyProperty *)

Lemma sameButContent_refl (m : Message.t) : sameButContent m m.
Proof. repeat split. Qed.

Lemma sameButContent_trans (a b c : Message.t) :
  sameButContent a b -> sameButContent b c -> sameButContent a c.
Proof.
  unfold sameButContent. intros (? & ? & ? & ? & ?) (? & ? & ? & ? & ?).
  repeat split; congruence.
Qed.

Lemma sameButContent_setContent (x : string) (m : Message.t) :
  sameButContent m (setContent x m).
Proof. repeat split. Qed.

Lemma Forall2_same {A} (R : A -> A -> Prop) (l : list A) :
  (forall x, R x x) -> Forall2 R l l.
Proof. intros H. induction l; constructor; auto. Qed.

Lemma Forall2_chain {A} (R : A -> A -> Prop) :
  (forall a b c, R a b -> R b c -> R a c) ->
  forall l1 l2 l3, Forall2 R l1 l2 -> Forall2 R l2 l3 -> Forall2 R l1 l3.
Proof.
  intros HR l1 l2 l3 H12. revert l3.
  induction H12; intros l3 H23; inversion H23; subst; constructor; eauto.
Qed.

Lemma sameButContent_conversations (l l' : list Message.t) :
  Forall2 sameButContent l l' ->
  map Message.conversationId l' = map Message.conversationId l.
Proof.
  induction 1 as [|m m' l l' (_ & Hc & _) _ IH]; [reflexivity|].
  cbn. rewrite Hc, IH. reflexivity.
Qed.

Lemma sameButContent_hidden (l l' : list Message.t) :
  Forall2 sameButContent l l' -> Forall hiddenSystem l ->
  Forall hiddenSystem l'.
Proof.
  induction 1 as [|m m' l l' (_ & _ & Hs & _ & Hv) _ IH]; [constructor|].
  intros Hall. inversion Hall as [|? ? [Hm1 Hm2] Hl]; subst.
  constructor; [split; congruence|auto].
Qed.

Lemma Subseq_nil_l {A} (l : list A) : Subseq [] l.
Proof. induction l; constructor; auto. Qed.

Lemma Subseq_app {A} (a b c d : list A) :
  Subseq a b -> Subseq c d -> Subseq (a ++ c) (b ++ d).
Proof.
  intros H1 H2. induction H1; cbn;
    [exact H2|apply Subseq_skip; assumption|apply Subseq_take; assumption].
Qed.

Lemma messagesStep_refl (cs : list Conversation.t) (ms : list Message.t) :
  messagesStep cs ms ms.
Proof.
  exists ms, []. split; [now rewrite app_nil_r|].
  split; [apply Forall2_same, sameButContent_refl|].
  split; [constructor|apply Subseq_nil_l].
Qed.

Lemma messagesStep_app (cs1 cs2 : list Conversation.t)
    (a b c : list Message.t) :
  messagesStep cs1 a b -> messagesStep cs2 b c ->
  messagesStep (cs1 ++ cs2) a c.
Proof.
  intros (old1 & new1 & -> & F1 & H1 & S1) (old2 & new2 & -> & F2 & H2 & S2).
  apply Forall2_app_inv_l in F2 as (o2a & o2b & Fa & Fb & ->).
  exists o2a, (o2b ++ new2). split; [now rewrite app_assoc|].
  split; [exact (Forall2_chain _ sameButContent_trans _ _ _ F1 Fa)|].
  split.
  - apply Forall_app. split; [|exact H2].
    eapply sameButContent_hidden; eassumption.
  - rewrite !map_app. apply Subseq_app; [|exact S2].
    rewrite (sameButContent_conversations _ _ Fb). exact S1.
Qed.

(** An update of the content of some messages. *)
Lemma messagesStep_update (cs : list Conversation.t) (ms : list Message.t)
    (test : Message.t -> bool) (x : string) :
  messagesStep cs ms
    (map (fun r => if test r then setContent x r else r) ms).
Proof.
  exists (map (fun r => if test r then setContent x r else r) ms), [].
  split; [now rewrite app_nil_r|]. split.
  - induction ms as [|m ms IH]; cbn [map]; constructor; [|exact IH].
    destruct (test m);
      [apply sameButContent_setContent|apply sameButContent_refl].
  - split; [constructor|apply Subseq_nil_l].
Qed.

(** The insertion of one hidden system message of a conversation. *)
Lemma messagesStep_insert (c : Conversation.t) (ms : list Message.t)
    (m : Message.t) :
  Message.conversationId m = Conversation.id c -> hiddenSystem m ->
  messagesStep [c] ms (ms ++ [m]).
Proof.
  intros Hc Hh. exists ms, [m]. split; [reflexivity|].
  split; [apply Forall2_same, sameButContent_refl|].
  split; [constructor; [exact Hh|constructor]|].
  cbn. rewrite Hc. apply Subseq_take, Subseq_nil.
Qed.

Lemma chatStep_refl (cs : list Conversation.t) (w : World) : chatStep cs w w.
Proof.
  unfold chatStep. split; [destruct w; reflexivity|]. split; [reflexivity|].
  apply messagesStep_refl.
Qed.

Lemma chatStep_app (cs1 cs2 : list Conversation.t) (a b c : World) :
  chatStep cs1 a b -> chatStep cs2 b c -> chatStep (cs1 ++ cs2) a c.
Proof.
  unfold chatStep. intros (E1 & K1 & L1) (E2 & K2 & L2). split.
  - rewrite E2. rewrite E1. reflexivity.
  - split; [congruence|]. eapply messagesStep_app; eassumption.
Qed.

Lemma chatStep_trace (cs : list Conversation.t) (w : World)
    (t : list Event) :
  chatStep cs w (set_trace t w).
Proof.
  unfold chatStep. split; [destruct w; reflexivity|]. split; [reflexivity|].
  apply messagesStep_refl.
Qed.

Lemma mapSet_keys {V} (k : string) (v : V) (m : list (string * V)) :
  mapGet k m <> None -> map fst (mapSet k v m) = map fst m.
Proof.
  induction m as [|[k' v'] m IH]; cbn; [congruence|].
  destruct (k' =? k)%string eqn:E.
  - intros _. cbn. apply String.eqb_eq in E. congruence.
  - intros H. cbn. f_equal. apply IH. exact H.
Qed.

(** Whether a conversation has a live session depends on the keys of the
    registry only. *)
Lemma mapGet_None_keys {V} (k : string) (m m' : list (string * V)) :
  map fst m' = map fst m -> mapGet k m = None -> mapGet k m' = None.
Proof.
  revert m'. induction m as [|[k0 v0] m IH]; intros [|[k1 v1] m'] Hk;
    try discriminate; [reflexivity|].
  cbn in Hk. injection Hk as -> Hk. cbn.
  destruct (k0 =? k)%string; [discriminate|]. apply IH. exact Hk.
Qed.

(** With no live session for the conversation nothing is rebuilt. *)
Lemma rebuildChat_quiet (conversationId : string) (w : World) :
  mapGet conversationId (activeChatSessions w) = None ->
  rebuildChat conversationId w =
  (Ok tt, set_trace (trace w ++ [SessionGet conversationId]) w).
Proof.
  intros Hget. unfold rebuildChat, bind, emit, modify, gets, ret.
  cbn [activeChatSessions set_trace]. rewrite Hget. reflexivity.
Qed.

(** With a live session the client is asked for a chat seeded with the
    stored messages; the registry is written only when it returns one. *)
Lemma rebuildChat_live (conversationId : string) (w : World)
    (old : ChatSession) :
  mapGet conversationId (activeChatSessions w) = Some old ->
  rebuildChat conversationId w =
  match startChat (rebuiltChat conversationId w) with
  | Some e =>
      (Throw e,
       set_trace
         (trace w ++ [SessionGet conversationId; Select TMessages]) w)
  | None =>
      (Ok tt,
       set_activeChatSessions
         (mapSet conversationId (rebuiltChat conversationId w)
            (activeChatSessions w))
         (set_trace
            (trace w ++ [SessionGet conversationId; Select TMessages;
                         SessionSet conversationId]) w))
  end.
Proof.
  intros Hget. unfold rebuildChat, bind, emit, modify, gets, ret.
  cbn [activeChatSessions set_trace]. rewrite Hget.
  cbn [messages set_trace trace activeChatSessions]. unfold rebuiltChat.
  destruct (startChat _); unfold throw;
    cbn [messages set_trace trace activeChatSessions];
    rewrite <- !app_assoc; reflexivity.
Qed.

Lemma rebuildChat_step (conversationId : string) (w : World) :
  exists res w',
    rebuildChat conversationId w = (res, w') /\
    chatStep [] w w' /\ messages w' = messages w /\
    rebuildOutcome res /\
    (mapGet conversationId (activeChatSessions w) = None ->
     res = Ok tt /\ activeChatSessions w' = activeChatSessions w).
Proof.
  destruct (mapGet conversationId (activeChatSessions w)) as [old|] eqn:E.
  - rewrite (rebuildChat_live _ _ old E).
    destruct (startChat (rebuiltChat conversationId w)) as [e|] eqn:Hs.
    + eexists; eexists. split; [reflexivity|].
      split; [apply chatStep_trace|]. split; [reflexivity|].
      split; [right; eauto|discriminate].
    + eexists; eexists. split; [reflexivity|]. split.
      * unfold chatStep. split; [destruct w; reflexivity|]. split.
        -- cbn. apply mapSet_keys. congruence.
        -- apply messagesStep_refl.
      * split; [reflexivity|]. split; [left; reflexivity|discriminate].
  - rewrite (rebuildChat_quiet _ _ E).
    eexists; eexists. split; [reflexivity|].
    split; [apply chatStep_trace|]. split; [reflexivity|].
    split; [left; reflexivity|]. intros _. split; reflexivity.
Qed.

(** Whatever the conversation, the body of the loop is a [chatStep] for
    it, and it returns unless the client refuses a chat. *)
Lemma syncConversation_step (summary : string) (c : Conversation.t)
    (w : World) :
  exists res w',
    syncConversation summary c w = (res, w') /\ chatStep [c] w w' /\
    rebuildOutcome res /\
    (mapGet (Conversation.id c) (activeChatSessions w) = None ->
     res = Ok tt).
Proof.
  assert (Tr : forall t1 t2 t3,
    chatStep [c] w (set_trace t3 (set_trace t2 (set_trace t1 w)))).
  { intros. apply (chatStep_trace [c] w t3). }
  assert (Done : forall w',
    chatStep [c] w w' ->
    exists res w0,
      (Ok tt, w') = (res, w0) /\ chatStep [c] w w0 /\ rebuildOutcome res /\
      (mapGet (Conversation.id c) (activeChatSessions w) = None ->
       res = Ok tt)).
  { intros w' H. exists (Ok tt), w'. split; [reflexivity|].
    split; [exact H|]. split; [left; reflexivity|reflexivity]. }
  unfold syncConversation.
  destruct (Conversation.systemPromptId c) as [spid|].
  2:{ apply Done. apply chatStep_trace. }
  destruct (negb (truthyStr spid)).
  { apply Done. apply chatStep_trace. }
  unfold bind at 1. rewrite selectFrom_run.
  cbn [rows messagesT set_trace messages tname].
  destruct (firstn 1 (filter _ (messages w))) as [|m ms].
  - unfold bind at 1. rewrite selectFrom_run.
    cbn [rows systemPromptsT set_trace systemPrompts tname].
    destruct (firstn 1 (filter _ (systemPrompts w))) as [|sp sps].
    + apply Done. apply Tr.
    + unfold bind at 1. cbn [gets]. unfold bind at 1. cbn [modify].
      unfold bind at 1. unfold newDate. cbn [gets]. unfold bind at 1.
      unfold insertRow at 1, bind at 1, emit, modify.
      cbn [rows setRows messagesT set_trace set_nextKey set_messages messages
           tname trace nextKey now].
      match goal with |- context [rebuildChat ?cid ?W] =>
        assert (HW : chatStep [c] w W);
        [|destruct (rebuildChat_step cid W)
            as (res & w' & -> & Hs & Hm & Hout & Hq)]
      end.
      { unfold chatStep. split; [destruct w; reflexivity|].
        split; [reflexivity|]. cbn [messages set_messages].
        apply messagesStep_insert; [reflexivity|split; reflexivity]. }
      exists res, w'. split; [reflexivity|].
      split; [exact (chatStep_app [c] [] _ _ _ HW Hs)|].
      split; [exact Hout|]. intros Hget. apply Hq. exact Hget.
  - unfold bind at 1.
    unfold updateWhere at 1, bind at 1, emit, modify, gets, ret.
    cbn [bind rows setRows messagesT set_trace set_messages messages tname
         trace].
    match goal with |- context [rebuildChat ?cid ?W] =>
      assert (HW : chatStep [c] w W);
      [|destruct (rebuildChat_step cid W)
          as (res & w' & -> & Hs & Hm & Hout & Hq)]
    end.
    { unfold chatStep. split; [destruct w; reflexivity|].
      split; [reflexivity|]. cbn [messages set_messages].
      apply messagesStep_update. }
    exists res, w'. split; [reflexivity|].
    split; [exact (chatStep_app [c] [] _ _ _ HW Hs)|].
    split; [exact Hout|]. intros Hget. apply Hq. exact Hget.
Qed.

Lemma forOf_syncConversation_step (summary : string)
    (cs : list Conversation.t) (w : World) :
  exists res w',
    forOf (syncConversation summary) cs w = (res, w') /\ chatStep cs w w' /\
    rebuildOutcome res /\
    ((forall c, In c cs ->
        mapGet (Conversation.id c) (activeChatSessions w) = None) ->
     res = Ok tt).
Proof.
  revert w. induction cs as [|c cs IH]; intros w.
  - exists (Ok tt), w. split; [reflexivity|]. split; [apply chatStep_refl|].
    split; [left; reflexivity|reflexivity].
  - cbn [forOf]. unfold bind.
    destruct (syncConversation_step summary c w)
      as (res1 & w1 & -> & H1 & O1 & Q1).
    destruct res1 as [[]|e].
    + destruct (IH w1) as (res2 & w2 & -> & H2 & O2 & Q2).
      exists res2, w2. split; [reflexivity|].
      split; [exact (chatStep_app [c] cs _ _ _ H1 H2)|].
      split; [exact O2|]. intros Hq. apply Q2. intros c' Hc'.
      destruct H1 as (_ & K & _).
      apply (mapGet_None_keys _ (activeChatSessions w)); [exact K|].
      apply Hq. right; exact Hc'.
    + exists (Throw e), w1. split; [reflexivity|].
      split; [exact (chatStep_app [c] cs _ _ _ H1 (chatStep_refl cs w1))|].
      split; [exact O1|]. intros Hq.
      specialize (Q1 (Hq c (or_introl eq_refl))). discriminate.
Qed.

Lemma verifyProperty_existing_run (id : string) (w : World)
    (p : Property.t) (rest : list Property.t) :
  filter (fun p => (Property.id p =? id)%string) (properties w) = p :: rest ->
  verifyProperty id w =
  bind (forOf (syncConversation
                 (propertySummary (setVerified p) (pricingOf id w)
                    (imagesOf id w)))
          (activeConversations w))
       (fun _ => ret (Some (setVerified p)))
       (set_properties
          (map (fun r => if (Property.id r =? id)%string
                         then setVerified r else r) (properties w))
          (set_trace
             (trace w ++ [Update TProperties; Select TPricingHistory;
                          Select TPropertyImages; Select TConversations])
             w)).
Proof.
  intros Hf. unfold verifyProperty. unfold bind at 1.
  unfold updateWhere at 1, bind at 1, emit, modify, gets, ret.
  cbn [bind rows setRows propertiesT set_trace set_properties properties
       tname trace].
  rewrite Hf. cbn [map hd_error].
  unfold bind at 1. rewrite selectFrom_run. unfold bind at 1.
  rewrite selectFrom_run. unfold bind at 1. cbn [newPropertySummary ret].
  unfold bind at 1. rewrite selectFrom_run.
  cbn [rows pricingHistoryT propertyImagesT conversationsT set_trace
       set_properties pricingHistory propertyImages conversations tname
       trace].
  rewrite <- !app_assoc. reflexivity.
Qed.

(** The whole call on a stored id: the verification is written first, and
    the loop over the active conversations is a [chatStep] from there. *)
Lemma verifyProperty_stored_run (id : string) (w : World) (p : Property.t) :
  storedProperty id w = Some p ->
  exists res w',
    verifyProperty id w = (res, w') /\
    chatStep (activeConversations w)
      (set_properties
         (map (fun r => if (Property.id r =? id)%string
                        then setVerified r else r) (properties w)) w) w' /\
    (res = Ok (Some (setVerified p)) \/
     exists chat e, startChat chat = Some e /\ res = Throw e) /\
    ((forall c, In c (activeConversations w) ->
        mapGet (Conversation.id c) (activeChatSessions w) = None) ->
     res = Ok (Some (setVerified p))).
Proof.
  intros Hst. destruct (stored_filter _ _ _ Hst) as (rest & Hf).
  rewrite (verifyProperty_existing_run _ _ _ _ Hf). unfold bind.
  match goal with |- context [forOf (syncConversation ?s) ?cs ?W] =>
    destruct (forOf_syncConversation_step s cs W)
      as (res & w' & -> & (E & K & L) & Hout & Hq)
  end.
  assert (Hstep : chatStep (activeConversations w)
            (set_properties
               (map (fun r => if (Property.id r =? id)%string
                              then setVerified r else r) (properties w)) w)
            w').
  { unfold chatStep. split; [rewrite E; destruct w; reflexivity|].
    split; [exact K|exact L]. }
  destruct res as [[]|e].
  - eexists; exists w'. split; [reflexivity|]. split; [exact Hstep|].
    split; [left; reflexivity|reflexivity].
  - eexists; exists w'. split; [reflexivity|]. split; [exact Hstep|].
    destruct Hout as [Hok|(chat & e' & Hs & [= ->])]; [discriminate|].
    split; [right; eauto|]. intros Hquiet.
    specialize (Hq Hquiet). discriminate.
Qed.


(** X19: [verifyProperty] on a stored id, whether it returns or throws,
    removes no message: every stored message keeps its place and all its
    columns but the content.  The messages it adds come after them, are
    hidden system messages, and are at most one per active conversation, in
    the order of the conversations.  It neither adds a conversation to the
    session registry nor drops one: the registry has the same keys
    afterwards. *)
Theorem verifyProperty_keeps_registry_keys (id : string) (w : World)
    (p : Property.t) :
  storedProperty id w = Some p ->
  exists res w' old new,
    verifyProperty id w = (res, w') /\
    map fst (activeChatSessions w') = map fst (activeChatSessions w) /\
    messages w' = old ++ new /\
    Forall2 sameButContent (messages w) old /\
    Forall hiddenSystem new /\
    Subseq (map Message.conversationId new)
      (map Conversation.id (activeConversations w)).
Proof.
  intros Hst.
  destruct (verifyProperty_stored_run id w p Hst)
    as (res & w' & Hrun & (_ & K & old & new & Hm & Hold & Hnew & Hsub) & _).
  exists res, w', old, new. split; [exact Hrun|]. split; [exact K|].
  split; [exact Hm|]. split; [exact Hold|]. split; [exact Hnew|exact Hsub].
Qed.

Lemma promptOf_found (c : Conversation.t) (w : World) (sp : SystemPrompt.t) :
  promptOf c w = Some sp ->
  exists spid rest,
    Conversation.systemPromptId c = Some spid /\
    truthyStr spid = true /\
    filter (fun x => (SystemPrompt.id x =? spid)%string) (systemPrompts w)
      = sp :: rest.
Proof.
  unfold promptOf. destruct (Conversation.systemPromptId c) as [spid|];
    [|discriminate].
  destruct (truthyStr spid) eqn:T; [|discriminate].
  intros Hf. apply filter_head in Hf as (rest & Hf). eauto.
Qed.

Lemma promptOf_same (c : Conversation.t) (w w1 : World) :
  systemPrompts w1 = systemPrompts w -> promptOf c w1 = promptOf c w.
Proof. intros H. unfold promptOf. rewrite H. reflexivity. Qed.

(** The loop body for a conversation with a stored prompt, no hidden
    system message yet and no live session: one message is inserted. *)
Lemma syncConversation_insert (summary : string) (c : Conversation.t)
    (w : World) (sp : SystemPrompt.t) :
  promptOf c w = Some sp ->
  filter (hiddenSystemOf (Conversation.id c)) (messages w) = [] ->
  mapGet (Conversation.id c) (activeChatSessions w) = None ->
  exists w',
    syncConversation summary c w = (Ok tt, w') /\
    messages w' =
      messages w
      ++ [hiddenMessage c sp summary (uuidv4 (nextKey w)) (now w)] /\
    systemPrompts w' = systemPrompts w /\ now w' = now w /\
    activeChatSessions w' = activeChatSessions w.
Proof.
  intros Hp Hm Hget. unfold hiddenSystemOf in Hm.
  destruct (promptOf_found c w sp Hp) as (spid & rest & Hs & T & Hf).
  unfold syncConversation. rewrite Hs, T. cbn [negb].
  unfold bind at 1. rewrite selectFrom_run.
  cbn [rows messagesT set_trace messages tname]. rewrite Hm. cbn [firstn].
  unfold bind at 1. rewrite selectFrom_run.
  cbn [rows systemPromptsT set_trace systemPrompts tname]. rewrite Hf.
  cbn [firstn].
  unfold bind at 1. cbn [gets]. unfold bind at 1. cbn [modify].
  unfold bind at 1. unfold newDate. cbn [gets]. unfold bind at 1.
  unfold insertRow at 1, bind at 1, emit, modify.
  cbn [rows setRows messagesT set_trace set_nextKey set_messages messages
       tname trace nextKey now].
  rewrite rebuildChat_quiet; [|exact Hget].
  eexists. split; [reflexivity|]. repeat split.
Qed.

Lemma forOf_inserts (summary : string) (cs : list Conversation.t) :
  NoDup (map Conversation.id cs) ->
  forall w,
    (forall c, In c cs -> promptOf c w <> None) ->
    (forall c, In c cs ->
       filter (hiddenSystemOf (Conversation.id c)) (messages w) = []) ->
    (forall c, In c cs ->
       mapGet (Conversation.id c) (activeChatSessions w) = None) ->
    exists w' new,
      forOf (syncConversation summary) cs w = (Ok tt, w') /\
      messages w' = messages w ++ new /\
      Forall2 (fun c m =>
        exists sp k,
          promptOf c w = Some sp /\
          m = hiddenMessage c sp summary (uuidv4 k) (now w)) cs new.
Proof.
  induction cs as [|c cs IH]; intros Hnd w Hp Hm Hq.
  - exists w, []. split; [reflexivity|]. split; [now rewrite app_nil_r|].
    constructor.
  - inversion Hnd as [|x xs Hnotin Hnd']; subst.
    destruct (promptOf c w) as [sp|] eqn:Ep;
      [|exfalso; apply (Hp c); [left; reflexivity|exact Ep]].
    destruct (syncConversation_insert summary c w sp Ep
                (Hm c (or_introl eq_refl)) (Hq c (or_introl eq_refl)))
      as (w1 & Hrun & Hmsg & Hsp & Hnow & Hses).
    destruct (IH Hnd' w1) as (w2 & new & Hrun2 & Hmsg2 & Hall).
    + intros c' Hc'. rewrite (promptOf_same c' w w1 Hsp).
      apply Hp. right; exact Hc'.
    + intros c' Hc'. rewrite Hmsg, filter_app, (Hm c' (or_intror Hc')).
      cbn [filter app]. unfold hiddenSystemOf at 1. cbn [hiddenMessage
        Message.conversationId Message.sender Message.isVisible].
      assert (Hne : (Conversation.id c =? Conversation.id c')%string = false).
      { apply String.eqb_neq. intros Heq. apply Hnotin. rewrite Heq.
        apply in_map. exact Hc'. }
      rewrite Hne. reflexivity.
    + intros c' Hc'. rewrite Hses. apply Hq. right; exact Hc'.
    + exists w2, (hiddenMessage c sp summary (uuidv4 (nextKey w)) (now w)
                  :: new).
      split; [cbn [forOf]; unfold bind; rewrite Hrun; exact Hrun2|].
      split; [rewrite Hmsg2, Hmsg, <- app_assoc; reflexivity|].
      constructor; [exists sp, (nextKey w); auto|].
      eapply Forall2_impl; [|exact Hall].
      intros c' m (sp' & k & Hsp' & ->).
      rewrite (promptOf_same c' w w1 Hsp) in Hsp'. rewrite Hnow.
      exists sp', k. auto.
Qed.

(** X20: when a stored property is verified and every active conversation
    (their ids distinct) names a stored system prompt, has no hidden system
    message yet and has no live chat session, [verifyProperty] returns the
    verified row and appends exactly one message per active conversation,
    in order: a hidden system message of that conversation, dated now,
    whose content is the conversation's prompt followed by the summary of
    the verified property.  Every earlier message is kept as it was. *)
Theorem verifyProperty_adds_hidden_messages (id : string) (w : World)
    (p : Property.t) :
  storedProperty id w = Some p ->
  NoDup (map Conversation.id (activeConversations w)) ->
  (forall c, In c (activeConversations w) -> promptOf c w <> None) ->
  (forall c m, In c (activeConversations w) -> In m (messages w) ->
     hiddenSystemOf (Conversation.id c) m = false) ->
  (forall c, In c (activeConversations w) ->
     mapGet (Conversation.id c) (activeChatSessions w) = None) ->
  exists w' new,
    verifyProperty id w = (Ok (Some (setVerified p)), w') /\
    messages w' = messages w ++ new /\
    Forall2 (fun c m =>
      Message.conversationId m = Conversation.id c /\
      Message.sender m = "system" /\
      Message.isVisible m = false /\
      Message.createdAt m = now w /\
      exists sp,
        promptOf c w = Some sp /\
        Message.content m =
          systemMessageContent (SystemPrompt.content sp)
            (propertySummary (setVerified p) (pricingOf id w)
               (imagesOf id w)))
      (activeConversations w) new.
Proof.
  intros Hst Hnd Hp Hm Hq. destruct (stored_filter _ _ _ Hst) as (rest & Hf).
  rewrite (verifyProperty_existing_run _ _ _ _ Hf). unfold bind.
  match goal with |- context [forOf (syncConversation ?s) ?cs ?W] =>
    destruct (forOf_inserts s cs Hnd W) as (w' & new & -> & Hmsg & Hall)
  end.
  - exact Hp.
  - intros c Hc. apply filter_none. intros m Hin. apply (Hm c m Hc Hin).
  - exact Hq.
  - exists w', new. split; [reflexivity|]. split; [exact Hmsg|].
    eapply Forall2_impl; [|exact Hall].
    intros c m (sp & k & Hsp & ->). cbn. repeat split. exists sp. auto.
Qed.



Lemma mapGet_mapSet_same {V} (k : string) (v : V) (m : list (string * V)) :
  mapGet k (mapSet k v m) = Some v.
Proof.
  induction m as [|[k' v'] m IH]; cbn.
  - rewrite String.eqb_refl. reflexivity.
  - destruct (k' =? k)%string eqn:E; cbn.
    + rewrite String.eqb_refl. reflexivity.
    + rewrite E. exact IH.
Qed.

Lemma mapGet_mapSet_other {V} (k k' : string) (v : V)
    (m : list (string * V)) :
  k' <> k -> mapGet k' (mapSet k v m) = mapGet k' m.
Proof.
  intros Hne. induction m as [|[k0 v0] m IH]; cbn.
  - apply String.eqb_neq in Hne. rewrite String.eqb_sym, Hne. reflexivity.
  - destruct (k0 =? k)%string eqn:E; cbn.
    + apply String.eqb_eq in E. subst k0.
      apply String.eqb_neq in Hne. rewrite String.eqb_sym, Hne.
      reflexivity.
    + destruct (k0 =? k')%string; [reflexivity|exact IH].
Qed.

(** The end of the call when the one active conversation has a live
    session and [W] is the store at the time of the rebuild. *)
Lemma rebuild_then_return (cid : string) (W : World) (old : ChatSession)
    (r : option Property.t) :
  mapGet cid (activeChatSessions W) = Some old ->
  exists res w',
    bind (bind (rebuildChat cid) (fun _ => ret tt)) (fun _ => ret r) W
      = (res, w') /\
    messages w' = messages W /\
    match startChat (rebuiltChat cid w') with
    | None =>
        res = Ok r /\
        mapGet cid (activeChatSessions w') = Some (rebuiltChat cid w')
    | Some e =>
        res = Throw e /\ activeChatSessions w' = activeChatSessions W
    end /\
    forall k, k <> cid ->
      mapGet k (activeChatSessions w') = mapGet k (activeChatSessions W).
Proof.
  intros Hget. unfold bind. rewrite (rebuildChat_live _ _ old Hget).
  destruct (startChat (rebuiltChat cid W)) as [e|] eqn:Hs.
  - eexists; eexists. split; [reflexivity|]. split; [reflexivity|].
    change (rebuiltChat cid (set_trace _ W)) with (rebuiltChat cid W).
    rewrite Hs. split; [split; reflexivity|]. intros k _. reflexivity.
  - eexists; eexists. split; [reflexivity|]. split; [reflexivity|].
    change (rebuiltChat cid (set_activeChatSessions _ (set_trace _ W)))
      with (rebuiltChat cid W).
    rewrite Hs. cbn [activeChatSessions set_activeChatSessions set_trace].
    split; [split; [reflexivity|apply mapGet_mapSet_same]|].
    intros k Hk. apply mapGet_mapSet_other. exact Hk.
Qed.

(** X22: when a stored property is verified and the one active
    conversation is handled (it names a system prompt, and has a hidden
    system message or a stored prompt) while a chat session is live for it,
    the AI client is asked for a chat for model "gemini-2.0-flash", capped
    at 8192 output tokens and seeded with the conversation's messages as
    they are stored after the call, by creation date, with role "model" for
    the AI's messages and "user" for all others.  When the client returns
    one, the call returns the verified row and the session is replaced by
    that chat; when the client throws, the call throws the same error and
    the registry is as it was.  The sessions of other conversations are
    untouched either way. *)
Theorem verifyProperty_rebuilds_live_session (id : string) (w : World)
    (p : Property.t) (c : Conversation.t) (spid : string)
    (old : ChatSession) :
  storedProperty id w = Some p ->
  activeConversations w = [c] ->
  Conversation.systemPromptId c = Some spid -> spid <> "" ->
  find (hiddenSystemOf (Conversation.id c)) (messages w) <> None
  \/ promptOf c w <> None ->
  mapGet (Conversation.id c) (activeChatSessions w) = Some old ->
  exists res w',
    verifyProperty id w = (res, w') /\
    match startChat (rebuiltChat (Conversation.id c) w') with
    | None =>
        res = Ok (Some (setVerified p)) /\
        mapGet (Conversation.id c) (activeChatSessions w')
          = Some (rebuiltChat (Conversation.id c) w')
    | Some e =>
        res = Throw e /\ activeChatSessions w' = activeChatSessions w
    end /\
    forall k, k <> Conversation.id c ->
      mapGet k (activeChatSessions w') = mapGet k (activeChatSessions w).
Proof.
  intros Hst Hact Hs Hne Hhandled Hget.
  destruct (stored_filter _ _ _ Hst) as (rest & Hf).
  assert (T : truthyStr spid = true)
    by (apply negb_true_iff, String.eqb_neq; exact Hne).
  rewrite (verifyProperty_existing_run _ _ _ _ Hf). rewrite Hact.
  unfold bind at 1. cbn [forOf]. unfold bind at 1.
  unfold syncConversation. rewrite Hs, T. cbn [negb].
  unfold bind at 1. rewrite selectFrom_run.
  cbn [rows messagesT set_trace set_properties messages tname].
  change (fun m : Message.t =>
            (Message.conversationId m =? Conversation.id c)%string
            && (Message.sender m =? "system")%string
            && Bool.eqb (Message.isVisible m) false)
    with (hiddenSystemOf (Conversation.id c)).
  destruct (find (hiddenSystemOf (Conversation.id c)) (messages w))
    as [m|] eqn:Hfind.
  - apply filter_head in Hfind as (others & Hfind). rewrite Hfind.
    cbn [firstn]. unfold bind at 1.
    unfold updateWhere at 1, bind at 1, emit, modify, gets, ret.
    cbn [bind rows setRows messagesT set_trace set_properties set_messages
         messages tname trace].
    match goal with |- context [rebuildChat ?cid ?W] =>
      destruct (rebuild_then_return cid W old (Some (setVerified p)) Hget)
        as (res & w' & Hrun & _ & Hres & Hoth)
    end.
    unfold bind in Hrun. exists res, w'. split; [exact Hrun|].
    split; [exact Hres|exact Hoth].
  - destruct Hhandled as [H|Hp]; [congruence|].
    rewrite <- hd_error_filter_find in Hfind.
    destruct (filter (hiddenSystemOf (Conversation.id c)) (messages w))
      as [|x xs]; [|discriminate].
    cbn [firstn]. unfold bind at 1. rewrite selectFrom_run.
    cbn [rows systemPromptsT set_trace set_properties systemPrompts tname].
    unfold promptOf in Hp. rewrite Hs, T in Hp.
    destruct (find _ (systemPrompts w)) as [sp|] eqn:Hsp; [|congruence].
    apply filter_head in Hsp as (sps & Hsp). rewrite Hsp. cbn [firstn].
    unfold bind at 1. cbn [gets]. unfold bind at 1. cbn [modify].
    unfold bind at 1. unfold newDate. cbn [gets]. unfold bind at 1.
    unfold insertRow at 1, bind at 1, emit, modify.
    cbn [rows setRows messagesT set_trace set_nextKey set_messages
         set_properties messages tname trace nextKey now].
    match goal with |- context [rebuildChat ?cid ?W] =>
      destruct (rebuild_then_return cid W old (Some (setVerified p)) Hget)
        as (res & w' & Hrun & _ & Hres & Hoth)
    end.
    unfold bind in Hrun. exists res, w'. split; [exact Hrun|].
    split; [exact Hres|exact Hoth].
Qed.

End Service.

(** ** Runs on the sample store *)

(** The ["active"] query does select owner columns that the output drops. *)
Example active_query_selects_sensitive_columns :
  keys (ownerColumnsActive Sample.alice)
  = ["id"; "email"; "username"; "role"; "isEmailVerified";
     "paypalCredentials"; "createdAt"; "updatedAt"].
Proof. reflexivity. Qed.

(** C1 fails when no filter is passed: the default ["active"] applies, and
    the stored property that is inactive and not verified is not returned. *)
Lemma getProperties_absent_filter_is_active :
  In Sample.barn (properties Sample.world) /\
  exists r w',
    getProperties None None Sample.world = (Ok r, w') /\
    ~ In (Some Sample.barn) (map spread r).
Proof.
  split; [right; left; reflexivity|].
  eexists; eexists; split; [vm_compute; reflexivity|].
  cbn. intros [H|[]]. discriminate H.
Qed.

Lemma getProperties_other_filter_unfiltered_witness :
  exists r w',
    getProperties (Some "all") (Some "u-bob") Sample.world = (Ok r, w') /\
    forall p, In p (properties Sample.world) <-> In (Some p) (map spread r).
Proof.
  apply (getProperties_other_filter_unfiltered "all" (Some "u-bob")
           Sample.world); discriminate.
Defined.

Lemma getProperty_deduplicates_witness :
  List.length (joinRows "p-flat" (Some "u-bob") Sample.world) = 12%nat /\
  exists agg w',
    getProperty "p-flat" (Some "u-bob") Sample.world = (Ok agg, w') /\
    Permutation (images agg) (imagesOf "p-flat" Sample.world) /\
    Permutation (views agg) (viewsOf "p-flat" Sample.world) /\
    Permutation (pricingHistoryOf agg) (pricingOf "p-flat" Sample.world) /\
    List.length (images agg) = 2%nat /\
    List.length (views agg) = 3%nat /\
    List.length (pricingHistoryOf agg) = 2%nat /\
    NoDup (map PropertyImage.id (images agg)) /\
    NoDup (map PropertyView.id (views agg)) /\
    NoDup (map PricingHistory.id (pricingHistoryOf agg)).
Proof.
  split; [reflexivity|].
  apply (getProperty_deduplicates "p-flat" (Some "u-bob") Sample.world).
  - reflexivity.
  - exists Sample.flat. split; [left; reflexivity|reflexivity].
  - repeat constructor; cbn; intuition discriminate.
  - repeat constructor; cbn; intuition discriminate.
  - repeat constructor; cbn; intuition discriminate.
Defined.

(** Why the key must not be empty: [!acc.id] then holds at every row, the
    accumulator starts afresh each time, and only the children of the last
    row are kept. *)
Example getProperty_empty_key_starts_afresh :
  exists agg w',
    getProperty "" None
      (set_propertyImages
         [ PropertyImage.mk "i-8" "" "https://img/8.png" true;
           PropertyImage.mk "i-9" "" "https://img/9.png" false ]
         (set_properties
            [ Property.mk "" "u-alice" "Shed" "" "" "house" "sale" 900 "EUR"
                9 1 "" "active" "" "" true 22 22 ]
            Sample.world))
    = (Ok agg, w') /\
    map PropertyImage.id (images agg) = ["i-9"].
Proof. eexists; eexists; split; reflexivity. Qed.

Lemma updateProperty_price_change_notifies_witness :
  exists res w' evs,
    updateProperty Sample.genId Sample.sendOk "p-flat" Sample.newPriceOnly
      Sample.world = (res, w') /\
    trace w' =
      trace Sample.world
      ++ [Select TProperties; Select TWishlist; Select TUsers]
      ++ map (fun e => Dispatch e
                {| name := Property.title Sample.flat;
                   detailsAddress := orStr (Property.address Sample.flat) "N/A";
                   oldPrice := Property.price Sample.flat;
                   newPrice := 90000 |})
           (flat_map recipient (wishlisters "p-flat" Sample.world))
      ++ evs /\
    forallb isStatement evs = true /\
    match firstRejection
            (map (fun e => Sample.sendOk e (priceDetails Sample.flat 90000))
               (flat_map recipient (wishlisters "p-flat" Sample.world))) with
    | None => exists agg, res = Ok agg
    | Some err =>
        res = Throw err /\ evs = [] /\ w' = set_trace (trace w') Sample.world
    end.
Proof.
  apply (updateProperty_price_change_notifies Sample.genId Sample.sendOk
           "p-flat" Sample.newPriceOnly Sample.world Sample.flat []).
  - reflexivity.
  - reflexivity.
  - discriminate.
Defined.

(** On the sample store the recipients are the two wishlisting users with an
    e-mail; the third has none. *)
Example sample_recipients :
  flat_map recipient (wishlisters "p-flat" Sample.world)
  = ["bob@example.com"; "dan@example.com"].
Proof. reflexivity. Qed.

(** C2 fails where it promises that a failed dispatch is tolerated: with a
    sender whose promise rejects for one of the two recipients, both
    notifications are started, [updateProperty] throws the rejection, and
    the price in the store is the old one. *)
Lemma updateProperty_fails_when_a_dispatch_rejects :
  exists w',
    updateProperty Sample.genId Sample.sendUnlessBob "p-flat"
      Sample.newPriceOnly Sample.world
    = (Throw (Error "SMTP connection refused"), w') /\
    properties w' = properties Sample.world /\
    pricingHistory w' = pricingHistory Sample.world /\
    List.length (filter (fun e => negb (isStatement e)) (trace w')) = 2%nat.
Proof.
  eexists. split; [vm_compute; reflexivity|].
  repeat split; reflexivity.
Qed.

(** C7 fails for a call that does not return: with a price change and a
    sender whose promise rejects for one recipient, [updateProperty] is
    given an image list and throws before it reaches the images; the
    stored images of the property are the two old ones, not the supplied
    one. *)
Lemma updateProperty_failed_call_keeps_images :
  u_images Sample.priceAndImage
  = Some [ {| in_imageUrl := "https://img/9.png"; in_isPrimary := true |} ]
  /\
  exists w',
    updateProperty Sample.genId Sample.sendUnlessBob "p-flat"
      Sample.priceAndImage Sample.world
    = (Throw (Error "SMTP connection refused"), w') /\
    imagesOf "p-flat" w' = [Sample.img1; Sample.img2] /\
    map PropertyImage.imageUrl (imagesOf "p-flat" w')
    = ["https://img/1.png"; "https://img/2.png"] /\
    propertyImages w' = propertyImages Sample.world.
Proof.
  split; [reflexivity|]. eexists. split; [vm_compute; reflexivity|].
  repeat split; reflexivity.
Qed.

Lemma updateProperty_replaces_images_witness :
  exists agg w' k,
    updateProperty Sample.genId Sample.sendOk "p-flat"
      (Sample.imagesOnly
         [ {| in_imageUrl := "https://img/1.png"; in_isPrimary := true |};
           {| in_imageUrl := "https://img/3.png"; in_isPrimary := false |} ])
      Sample.world = (Ok agg, w') /\
    propertyImages w' =
      filter (fun r => negb (PropertyImage.propertyId r =? "p-flat")%string)
        (propertyImages Sample.world)
      ++ keyed Sample.genId k
           (map (newImageRow "p-flat")
              [ {| in_imageUrl := "https://img/1.png"; in_isPrimary := true |};
                {| in_imageUrl := "https://img/3.png";
                   in_isPrimary := false |} ]) /\
    imagesOf "p-flat" w' =
      keyed Sample.genId k
        (map (newImageRow "p-flat")
           [ {| in_imageUrl := "https://img/1.png"; in_isPrimary := true |};
             {| in_imageUrl := "https://img/3.png"; in_isPrimary := false |} ]) /\
    map (fun r => (PropertyImage.imageUrl r, PropertyImage.isPrimary r))
      (imagesOf "p-flat" w')
    = [ ("https://img/1.png", true); ("https://img/3.png", false) ].
Proof.
  apply (updateProperty_replaces_images Sample.genId Sample.sendOk "p-flat"
           _ Sample.world Sample.flat []); reflexivity.
Defined.



(** C4, where the code departs from it: with an empty image list the call
    deletes the two image rows of the property and returns them as its
    images; the store holds no image of the property any more.  The views,
    the pricing history and [isWished] are as the claim says. *)
Theorem updateProperty_empty_images_returns_deleted_rows :
  exists agg w',
    updateProperty Sample.genId Sample.sendOk "p-flat"
      (Sample.imagesOnly []) Sample.world = (Ok agg, w') /\
    images agg = [Sample.img1; Sample.img2] /\
    imagesOf "p-flat" w' = [] /\
    views agg = viewsOf "p-flat" w' /\
    pricingHistoryOf agg = pricingOf "p-flat" w' /\
    isWished agg = false.
Proof.
  eexists; eexists. split; [vm_compute; reflexivity|].
  repeat split; reflexivity.
Qed.

Lemma deleteProperty_missing_id_is_wrapped_witness :
  deleteProperty "p-none" Sample.world =
    (Throw (Error "Failed to delete property: Property with ID p-none not found"),
     set_trace (trace Sample.world ++ [Select TProperties]) Sample.world)
  /\ Error "Failed to delete property: Property with ID p-none not found"
     <> notFound "p-none".
Proof.
  apply (deleteProperty_missing_id_is_wrapped "p-none" Sample.world).
  intros p [<-|[<-|[]]]; discriminate.
Defined.

(** For a property that is there, the same function verifies it and
    gives the one active conversation, which has no hidden system message
    yet, a new one built from its default prompt. *)
Example verifyProperty_existing_id_adds_hidden_message :
  exists p m w',
    verifyProperty Sample.uuidv4 Sample.dateToString Sample.startChat
      "p-barn" Sample.world
      = (Ok (Some p), w') /\
    Property.isVerified p = true /\
    messages w' = [m] /\
    Message.conversationId m = "c-1" /\
    Message.sender m = "system" /\
    Message.isVisible m = false /\
    trace w' =
      [ Update TProperties; Select TPricingHistory; Select TPropertyImages;
        Select TConversations; Select TMessages; Select TSystemPrompts;
        Insert TMessages; SessionGet "c-1" ].
Proof.
  eexists; eexists; eexists. split; [vm_compute; reflexivity|].
  repeat split; reflexivity.
Qed.

Lemma verifyProperty_missing_id_witness :
  verifyProperty Sample.uuidv4 Sample.dateToString Sample.startChat
    "p-none" Sample.world =
    (Throw (TypeError "Cannot read properties of undefined (reading 'id')"),
     set_trace (trace Sample.world
                ++ [Update TProperties; Select TPricingHistory;
                    Select TPropertyImages]) Sample.world)
  /\ TypeError "Cannot read properties of undefined (reading 'id')"
     <> notFound "p-none".
Proof.
  apply (verifyProperty_missing_id Sample.uuidv4 Sample.dateToString
           Sample.startChat "p-none" Sample.world).
  intros p [<-|[<-|[]]]; discriminate.
Defined.

Lemma addNewProperty_quota_witness :
  addNewProperty Sample.genId (Sample.listing "u-dan") Sample.world =
    (Throw (Error "Listings limit reached"),
     set_trace (trace Sample.world ++ [Select TUsers]) Sample.world)
  /\
  exists r w',
    addNewProperty Sample.genId (Sample.listing "u-alice") Sample.world
      = (Ok r, w') /\
    find (fun u => (User.id u =? "u-alice")%string) (users w')
      = Some (setListingLimit (Some 2) Sample.alice) /\
    forall u', In u' (users w') -> User.id u' = "u-alice" ->
               User.listingLimit u' = Some 2.
Proof.
  split.
  - apply (proj1 (addNewProperty_quota Sample.genId (Sample.listing "u-dan")
                    Sample.world Sample.dan eq_refl eq_refl) 0);
      [reflexivity|lia].
  - apply (proj2 (addNewProperty_quota Sample.genId (Sample.listing "u-alice")
                    Sample.world Sample.alice eq_refl eq_refl)).
    reflexivity.
Defined.

(** ** More runs on the sample store *)

Lemma getProperties_one_per_property_witness :
  exists r w',
    getProperties (Some "all") None Sample.world = (Ok r, w') /\
    map spread r =
      map Some (filter (whereOf (orKeep (Some "all") "active"))
                  (properties Sample.world)).
Proof.
  apply (getProperties_one_per_property (Some "all") None Sample.world).
  repeat constructor; cbn; intuition discriminate.
Defined.

(** On the sample store, where the owner of the second property is not
    stored, filter ["all"] gives one aggregate for each, in the order of
    the table. *)
Example sample_all_properties :
  exists r w',
    getProperties (Some "all") None Sample.world = (Ok r, w') /\
    map spread r = [Some Sample.flat; Some Sample.barn].
Proof. eexists; eexists. split; [vm_compute; reflexivity|reflexivity]. Qed.

Lemma getProperty_missing_id_witness :
  getProperty "p-none" (Some "u-bob") Sample.world =
  (Throw (Error ("Property with ID " +++ "p-none" +++ " not found")),
   set_trace (trace Sample.world ++ [Select TProperties]) Sample.world).
Proof.
  apply (getProperty_missing_id "p-none" (Some "u-bob") Sample.world).
  intros p [<-|[<-|[]]]; discriminate.
Defined.

Lemma getProperty_aggregate_witness :
  exists agg,
    getProperty "p-flat" (Some "u-bob") Sample.world =
      (Ok agg,
       set_trace
         (trace Sample.world ++ Select TProperties ::
            if hasUser (Some "u-bob") then [Select TWishlist] else [])
         Sample.world) /\
    spread agg = Some Sample.flat /\
    owner agg =
      Some (match find (fun u =>
                    (Property.ownerId Sample.flat =? User.id u)%string)
                    (users Sample.world) with
            | Some u => publicOwner u
            | None => unknownOwner
            end) /\
    (isWished agg = true <->
     exists uid x,
       Some "u-bob" = Some uid /\ uid <> "" /\ In x (wishlist Sample.world) /\
       Wishlist.userId x = uid /\ Wishlist.propertyId x = "p-flat").
Proof.
  apply (getProperty_aggregate "p-flat" (Some "u-bob") Sample.world
           Sample.flat); reflexivity.
Defined.

Lemma addNewProperty_unknown_owner_witness :
  addNewProperty Sample.genId (Sample.listing "u-nobody") Sample.world =
  (Throw (Error "User not found"),
   set_trace (trace Sample.world ++ [Select TUsers]) Sample.world).
Proof.
  apply (addNewProperty_unknown_owner Sample.genId (Sample.listing "u-nobody")
           Sample.world).
  intros u [<-|[<-|[<-|[<-|[]]]]]; discriminate.
Defined.

Lemma addNewProperty_creates_listing_witness :
  exists r w' row,
    addNewProperty Sample.genId (Sample.listing "u-alice") Sample.world
      = (Ok r, w') /\
    properties w' = properties Sample.world ++ [cp_property r] /\
    Property.ownerId (cp_property r) = "u-alice" /\
    Property.title (cp_property r) = "Loft" /\
    Property.price (cp_property r) = 50000 /\
    Property.size (cp_property r) = 40 /\
    Property.rooms (cp_property r) = 1 /\
    Property.address (cp_property r) = "2 Side St" /\
    Property.currency (cp_property r) = "USD" /\
    Property.status (cp_property r) = "active" /\
    cp_views r = [] /\
    cp_pricingHistory r = [row] /\
    pricingHistory w' = pricingHistory Sample.world ++ [row] /\
    PricingHistory.propertyId row = Property.id (cp_property r) /\
    PricingHistory.price row = 50000 /\
    PricingHistory.currency row = Property.currency (cp_property r) /\
    PricingHistory.effectiveDate row = 40.
Proof.
  apply (addNewProperty_creates_listing Sample.genId
           (Sample.listing "u-alice") Sample.world Sample.alice);
    reflexivity.
Defined.

Lemma addNewProperty_stores_images_witness :
  exists r w',
    addNewProperty Sample.genId (Sample.listing "u-alice") Sample.world
      = (Ok r, w') /\
    propertyImages w' = propertyImages Sample.world ++ cp_images r /\
    map (fun i => (PropertyImage.propertyId i, PropertyImage.imageUrl i,
                   PropertyImage.isPrimary i)) (cp_images r)
    = map (fun i => (Property.id (cp_property r), in_imageUrl i,
                     in_isPrimary i))
        [ {| in_imageUrl := "https://img/loft.png"; in_isPrimary := true |} ].
Proof.
  apply (addNewProperty_stores_images Sample.genId
           (Sample.listing "u-alice") Sample.world Sample.alice);
    reflexivity.
Defined.

Lemma addNewProperty_listing_limit_witness :
  exists r w',
    addNewProperty Sample.genId (Sample.listing "u-alice") Sample.world
      = (Ok r, w') /\
    (forall l, User.role Sample.alice = "private_seller" ->
               User.listingLimit Sample.alice = Some l ->
       0 < l /\
       users w' =
         map (fun r => if (User.id r =? "u-alice")%string
                       then setListingLimit (Some (l - 1)) r else r)
           (users Sample.world)) /\
    (User.role Sample.alice <> "private_seller"
     \/ User.listingLimit Sample.alice = None ->
     users w' = users Sample.world).
Proof.
  apply (addNewProperty_listing_limit Sample.genId
           (Sample.listing "u-alice") Sample.world Sample.alice);
    reflexivity.
Defined.

Lemma deleteProperty_removes_property_witness :
  exists w',
    deleteProperty "p-flat" Sample.world = (Ok tt, w') /\
    trace w' =
      trace Sample.world
      ++ [Select TProperties; Delete TProperties;
          ConsoleLog ("Property with ID " +++ "p-flat"
                      +++ " deleted successfully")] /\
    (forall q, In q (properties w') <->
               In q (properties Sample.world) /\ Property.id q <> "p-flat") /\
    forall userId,
      fst (getProperty "p-flat" userId w') = Throw (notFound "p-flat").
Proof.
  apply (deleteProperty_removes_property "p-flat" Sample.world Sample.flat).
  reflexivity.
Defined.

Lemma updateProperty_missing_id_witness :
  updateProperty Sample.genId Sample.sendUnlessBob "p-none"
    Sample.newPriceOnly Sample.world =
  (Throw (Error ("Property with ID " +++ "p-none" +++ " not found")),
   set_trace (trace Sample.world ++ [Select TProperties]) Sample.world).
Proof.
  apply (updateProperty_missing_id Sample.genId Sample.sendUnlessBob
           "p-none" Sample.newPriceOnly Sample.world).
  intros p [<-|[<-|[]]]; discriminate.
Defined.

Lemma updateProperty_same_price_is_silent_witness :
  exists agg w' evs,
    updateProperty Sample.genId Sample.sendUnlessBob "p-flat"
      Sample.retitled Sample.world = (Ok agg, w') /\
    trace w' = trace Sample.world ++ evs /\
    forallb isStatement evs = true.
Proof.
  apply (updateProperty_same_price_is_silent Sample.genId
           Sample.sendUnlessBob "p-flat" Sample.retitled Sample.world
           Sample.flat).
  - reflexivity.
  - left. reflexivity.
Defined.

Lemma updateProperty_row_update_witness :
  exists agg w' p',
    updateProperty Sample.genId Sample.sendOk "p-flat" Sample.retitled
      Sample.world = (Ok agg, w') /\
    spread agg = Some p' /\ In p' (properties w') /\
    map Property.id (properties w')
      = map Property.id (properties Sample.world) /\
    map Property.ownerId (properties w')
      = map Property.ownerId (properties Sample.world) /\
    map Property.createdAt (properties w')
      = map Property.createdAt (properties Sample.world) /\
    (forall q, In q (properties Sample.world) -> Property.id q <> "p-flat" ->
               In q (properties w')) /\
    Property.updatedAt p' = 40 /\
    Property.title p' = "Flat with a view" /\
    Property.price p' = 100000 /\
    Property.currency p' = "" /\
    Property.status p' = "active" /\
    Property.isVerified p' = true.
Proof.
  apply (updateProperty_row_update Sample.genId Sample.sendOk "p-flat"
           Sample.retitled Sample.world Sample.flat); reflexivity.
Defined.

Lemma updateProperty_returns_whole_owner_row_witness :
  exists agg w',
    updateProperty Sample.genId Sample.sendOk "p-flat" Sample.retitled
      Sample.world = (Ok agg, w') /\
    exists o,
      owner agg = Some o /\
      keys o = [ "id"; "email"; "username"; "role"; "listingLimit";
                 "isEmailVerified"; "paypalCredentials"; "createdAt";
                 "updatedAt" ] /\
      getField "listingLimit" o = Some (JNum 3) /\
      getField "paypalCredentials" o = Some (JStr "paypal-alice").
Proof.
  apply (updateProperty_returns_whole_owner_row Sample.genId Sample.sendOk
           "p-flat" Sample.retitled Sample.world Sample.flat); reflexivity.
Defined.


Lemma verifyProperty_keeps_registry_keys_witness :
  exists res w' old new,
    verifyProperty Sample.uuidv4 Sample.dateToString Sample.startChat
      "p-barn" Sample.greeted = (res, w') /\
    map fst (activeChatSessions w')
      = map fst (activeChatSessions Sample.greeted) /\
    messages w' = old ++ new /\
    Forall2 sameButContent (messages Sample.greeted) old /\
    Forall hiddenSystem new /\
    Subseq (map Message.conversationId new)
      (map Conversation.id (activeConversations Sample.greeted)).
Proof.
  apply (verifyProperty_keeps_registry_keys Sample.uuidv4
           Sample.dateToString Sample.startChat "p-barn" Sample.greeted
           Sample.barn).
  reflexivity.
Defined.

Lemma verifyProperty_adds_hidden_messages_witness :
  exists w' new,
    verifyProperty Sample.uuidv4 Sample.dateToString Sample.startChat
      "p-barn" Sample.world = (Ok (Some (setVerified Sample.barn)), w') /\
    messages w' = messages Sample.world ++ new /\
    Forall2 (fun c m =>
      Message.conversationId m = Conversation.id c /\
      Message.sender m = "system" /\
      Message.isVisible m = false /\
      Message.createdAt m = now Sample.world /\
      exists sp,
        promptOf c Sample.world = Some sp /\
        Message.content m =
          systemMessageContent (SystemPrompt.content sp)
            (propertySummary Sample.dateToString (setVerified Sample.barn)
               (pricingOf "p-barn" Sample.world)
               (imagesOf "p-barn" Sample.world)))
      (activeConversations Sample.world) new.
Proof.
  apply (verifyProperty_adds_hidden_messages Sample.uuidv4
           Sample.dateToString Sample.startChat "p-barn" Sample.world
           Sample.barn).
  - reflexivity.
  - repeat constructor. intros [].
  - intros c [<-|[]]. discriminate.
  - intros c m _ [].
  - intros c _. reflexivity.
Defined.


Lemma verifyProperty_rebuilds_live_session_witness :
  exists res w',
    verifyProperty Sample.uuidv4 Sample.dateToString Sample.startChat
      "p-barn" Sample.chatting = (res, w') /\
    match Sample.startChat (rebuiltChat "c-1" w') with
    | None =>
        res = Ok (Some (setVerified Sample.barn)) /\
        mapGet "c-1" (activeChatSessions w') = Some (rebuiltChat "c-1" w')
    | Some e =>
        res = Throw e /\
        activeChatSessions w' = activeChatSessions Sample.chatting
    end /\
    forall k, k <> "c-1" ->
      mapGet k (activeChatSessions w')
      = mapGet k (activeChatSessions Sample.chatting).
Proof.
  apply (verifyProperty_rebuilds_live_session Sample.uuidv4
           Sample.dateToString Sample.startChat "p-barn" Sample.chatting
           Sample.barn
           (Conversation.mk "c-1" "u-bob" (Some "sp-1") true) "sp-1"
           {| chatModel := "gemini-2.0-flash"; history := [];
              maxOutputTokens := 8192 |}).
  - reflexivity.
  - reflexivity.
  - reflexivity.
  - discriminate.
  - left. discriminate.
  - reflexivity.
Defined.

(** On the sample store the rebuilt session is seeded with the extended
    hidden message, the user's message and the AI's reply, in the order of
    their dates and not of the table. *)
Example sample_rebuilt_history :
  exists r w' chat,
    verifyProperty Sample.uuidv4 Sample.dateToString Sample.startChat
      "p-barn" Sample.chatting = (Ok r, w') /\
    mapGet "c-1" (activeChatSessions w') = Some chat /\
    map fst (history chat) = ["user"; "user"; "model"] /\
    map snd (tl (history chat)) = ["Hello"; "Hi, how can I help?"].
Proof.
  eexists; eexists; eexists. split; [vm_compute; reflexivity|].
  split; [reflexivity|]. split; reflexivity.
Qed.

(** When the AI's greeting is the oldest message of the conversation, this
    client refuses the history.  The call throws the client's error after
    it has stored the verification and extended the hidden message, and the
    session of the conversation is the old one. *)
Example sample_refused_history :
  exists w',
    verifyProperty Sample.uuidv4 Sample.dateToString Sample.startChat
      "p-barn" Sample.greeted
    = (Throw (Error "First content should be with role 'user', got model"),
       w') /\
    map Property.isVerified (properties w') = [true; true] /\
    map Message.id (messages w')
      = map Message.id (messages Sample.greeted) /\
    (exists m, In m (messages w') /\ Message.id m = "m-1" /\
       Message.content m <> Message.content Sample.hiddenNote) /\
    activeChatSessions w' = activeChatSessions Sample.greeted.
Proof.
  eexists. split; [vm_compute; reflexivity|].
  split; [reflexivity|]. split; [reflexivity|]. split; [|reflexivity].
  eexists. split; [right; right; left; reflexivity|].
  split; [reflexivity|]. cbn. discriminate.
Qed.
